(** * The TSL lab engine: renderer negotiation and plane lifecycle

    A shallow embedding of [ThreeEngine] (three-engine.ts) and of the plane
    classes it drives ([TSLPlaneSDF], [TSLPlaneDesertTank],
    [TSLPlaneRaymarching]), followed by the properties of the renderer
    negotiation and of the plane lifecycle.

    JavaScript numbers are IEEE-754 doubles: they are modelled by Rocq's
    primitive floats, so that literals such as [0.2] denote the same double
    as in the source.  Everything the engine touches (its own fields, the
    plane objects, the DOM listeners, the console) lives in one [World];
    methods are computations in a state-and-exception monad over it. *)

From Stdlib Require Import PrimFloat.
From stdpp Require Import gmap strings list.

Set Warnings "-inexact-float".
Set Default Proof Using "Type".

(** ** JavaScript values *)

Abbreviation number := float.

Record Vector2 := vec2 { vx : number; vy : number }.

(** The value held by a shader uniform. *)
Inductive UValue :=
| UNum (v : number)
| UVec2 (v : Vector2).

(** What a [catch] clause receives. *)
Inductive JsError :=
| TypeError (what : string)
| LibraryError (origin : string).

Inductive LogLevel := LevelLog | LevelWarn | LevelError.

(** One console line: the level, the message and the error object passed
    as second argument, when there is one. *)
Record LogEntry := logEntry {
  level : LogLevel;
  text : string;
  detail : option JsError
}.

(** ** three.js objects *)

Record PlaneGeometry := planeGeometry {
  width : number;
  height : number;
  widthSegments : number;
  heightSegments : number;
  geometryDisposed : bool
}.

(** [this.material] is a [MeshPhysicalNodeMaterial] on the TSL path and a
    [THREE.ShaderMaterial] with a [uniforms] object on the fallback path. *)
Inductive Material :=
| MeshPhysicalNodeMaterial (disposed : bool)
| ShaderMaterial (uniforms : gmap string UValue) (disposed : bool).

Definition materialDisposed (m : Material) : bool :=
  match m with
  | MeshPhysicalNodeMaterial d => d
  | ShaderMaterial _ d => d
  end.

Definition disposeGeometry (g : PlaneGeometry) : PlaneGeometry :=
  planeGeometry (width g) (height g) (widthSegments g) (heightSegments g) true.

Definition disposeMaterial (m : Material) : Material :=
  match m with
  | MeshPhysicalNodeMaterial _ => MeshPhysicalNodeMaterial true
  | ShaderMaterial u _ => ShaderMaterial u true
  end.

(** [(this.material as THREE.ShaderMaterial).uniforms?.name]: undefined on
    a node material, which has no [uniforms]. *)
Definition shaderUniform (m : Material) (name : string) : option UValue :=
  match m with
  | MeshPhysicalNodeMaterial _ => None
  | ShaderMaterial u _ => u !! name
  end.

Definition setShaderUniform (m : Material) (name : string) (v : UValue) : Material :=
  match m with
  | MeshPhysicalNodeMaterial d => MeshPhysicalNodeMaterial d
  | ShaderMaterial u d => ShaderMaterial (<[name := v]> u) d
  end.

(** The three renderer tiers of [initThree]. *)
Inductive Tier := WebGPU | WebGL2 | WebGL.

Global Instance Tier_eq_dec : EqDecision Tier.
Proof. solve_decision. Defined.

(** A renderer: [size] and [clearColor] are [None] until [setSize] and
    [setClearColor] are called, that is, while they keep the values the
    constructor gave them. *)
Record Renderer := mkRenderer {
  tier : Tier;
  size : option (number * number);
  clearColor : option Z
}.

(** ** Plane classes *)

(** Object identities: the index of the object in the store of its class. *)
Abbreviation ObjId := nat.

Inductive PlaneKind := Wave | Sdf | DesertTank | Raymarching.

Global Instance PlaneKind_eq_dec : EqDecision PlaneKind.
Proof. solve_decision. Defined.

(** Modelled from the spec: the class [TSLPlane] (./TSLPlane) is imported by
    the engine but its file is not part of the sources.  The spec gives the
    wave plane a mesh (a tessellated rectangle) created with its program and
    destroyed with it; the object is modelled by the geometry it is
    constructed with and its material, released by [dispose] like the three
    sibling classes do. *)
Record TSLPlane := mkTSLPlane {
  wave_geometry : PlaneGeometry;
  wave_materialDisposed : bool
}.

Record TSLPlaneSDF := mkTSLPlaneSDF {
  sdf_geometry : PlaneGeometry;
  sdf_material : Material;
  sdf_radiusUniform : option number;
  sdf_fadeUniform : option number
}.

Record TSLPlaneDesertTank := mkTSLPlaneDesertTank {
  tank_geometry : PlaneGeometry;
  tank_material : Material;
  tank_wheelOffsetUniform : option Vector2;
  tank_bulletOffsetUniform : option number;
  tank_shellOffsetUniform : option number;
  tank_canJump : bool;
  tank_canShoot : bool;
  tank_keyMap : gmap string bool
}.

Record TSLPlaneRaymarching := mkTSLPlaneRaymarching {
  ray_geometry : PlaneGeometry;
  ray_material : Material;
  ray_radiusUniform : option number;
  ray_fadeUniform : option number;
  ray_rayFromUniform : option Vector2;
  ray_rayToUniform : option Vector2;
  ray_maxStepsUniform : option number;
  ray_surfaceDistanceUniform : option number;
  ray_maxDistanceUniform : option number;
  ray_timeMultiplierUniform : option number;
  ray_pointer : Vector2;
  ray_camera : bool
}.

(** ** The DOM *)

Inductive EventTarget := Document | DomElement.

Global Instance EventTarget_eq_dec : EqDecision EventTarget.
Proof. solve_decision. Defined.

(** The functions that are handed to [addEventListener] and
    [removeEventListener].  A closure is identified by the code it runs and
    the object it closes over; [InitControlsMethod] is the method
    [TSLPlaneDesertTank.prototype.initControls] itself. *)
Inductive Callback :=
| OnDocumentKey (tank : ObjId)
| OnPointerMove (plane : ObjId)
| OnPointerDown (plane : ObjId)
| InitControlsMethod.

Global Instance Callback_eq_dec : EqDecision Callback.
Proof. solve_decision. Defined.

Record Listener := mkListener {
  l_target : EventTarget;
  l_type : string;
  l_callback : Callback
}.

Global Instance Listener_eq_dec : EqDecision Listener.
Proof. solve_decision. Defined.

(** ** Instrumentation

    The calls the engine makes into three.js, in program order. *)
Inductive Call :=
| NewRenderer (t : Tier)
| SetSize (w h : number)
| SetClearColor (c : Z)
| Construct (k : PlaneKind) (result : option ObjId)
| SceneAdd (k : PlaneKind) (id : ObjId)
| SceneRemove (k : PlaneKind) (id : ObjId)
| Dispose (k : PlaneKind) (id : ObjId).

(** ** The world *)

Record World := mkWorld {
  (* fields of ThreeEngine; of the children of [this.scene] only the plane
     meshes are kept, each named by the plane that owns it *)
  forceRenderer : option string;
  scene : list (PlaneKind * ObjId);
  cameraAspect : number;
  renderer : option Renderer;
  shaderMaterial : option (gmap string UValue);
  shaderMaterialSimple : option (gmap string UValue);
  tslPlane : option ObjId;
  tslPlaneSDF : option ObjId;
  tslDesertTank : option ObjId;
  raymarchPlane : option ObjId;
  currentActivePlane : string;
  (* the objects allocated so far, by class *)
  waves : list TSLPlane;
  sdfs : list TSLPlaneSDF;
  tanks : list TSLPlaneDesertTank;
  rays : list TSLPlaneRaymarching;
  (* the DOM and the console *)
  listeners : list Listener;
  console : list LogEntry;
  calls : list Call
}.

(** What the engine cannot decide by itself: the browser's capabilities and
    which constructors of three.js throw during one call. *)
Record Env := mkEnv {
  innerWidth : number;
  innerHeight : number;
  navigator_gpu : bool;
  webgpuRendererThrows : bool;
  canvas_webgl2 : bool;
  webgl2RendererThrows : bool;
  webglRendererThrows : bool;
  (** [new THREE.PlaneGeometry] throws *)
  geometryThrows : bool;
  (** the TSL block of [initMaterial] throws after that many of its
      [TSL.uniform] assignments; [None]: it does not throw *)
  tslThrowsAfter : option nat;
  (** [new THREE.ShaderMaterial] throws in [createFallbackMaterial] *)
  shaderMaterialThrows : bool;
  (** [new TSLPlane] throws *)
  wavePlaneThrows : bool
}.

(** Field updates: [set_x v w] is [w] with [x] replaced by [v]. *)

Definition set_forceRenderer (v : option string) (w : World) : World :=
  mkWorld v (scene w) (cameraAspect w) (renderer w) (shaderMaterial w)
    (shaderMaterialSimple w) (tslPlane w) (tslPlaneSDF w) (tslDesertTank w)
    (raymarchPlane w) (currentActivePlane w) (waves w) (sdfs w) (tanks w)
    (rays w) (listeners w) (console w) (calls w).

Definition set_scene (v : list (PlaneKind * ObjId)) (w : World) : World :=
  mkWorld (forceRenderer w) v (cameraAspect w) (renderer w) (shaderMaterial
    w) (shaderMaterialSimple w) (tslPlane w) (tslPlaneSDF w) (tslDesertTank
    w) (raymarchPlane w) (currentActivePlane w) (waves w) (sdfs w) (tanks w)
    (rays w) (listeners w) (console w) (calls w).

Definition set_cameraAspect (v : number) (w : World) : World :=
  mkWorld (forceRenderer w) (scene w) v (renderer w) (shaderMaterial w)
    (shaderMaterialSimple w) (tslPlane w) (tslPlaneSDF w) (tslDesertTank w)
    (raymarchPlane w) (currentActivePlane w) (waves w) (sdfs w) (tanks w)
    (rays w) (listeners w) (console w) (calls w).

Definition set_renderer (v : option Renderer) (w : World) : World :=
  mkWorld (forceRenderer w) (scene w) (cameraAspect w) v (shaderMaterial w)
    (shaderMaterialSimple w) (tslPlane w) (tslPlaneSDF w) (tslDesertTank w)
    (raymarchPlane w) (currentActivePlane w) (waves w) (sdfs w) (tanks w)
    (rays w) (listeners w) (console w) (calls w).

Definition set_shaderMaterial (v : option (gmap string UValue)) (w : World) : World :=
  mkWorld (forceRenderer w) (scene w) (cameraAspect w) (renderer w) v
    (shaderMaterialSimple w) (tslPlane w) (tslPlaneSDF w) (tslDesertTank w)
    (raymarchPlane w) (currentActivePlane w) (waves w) (sdfs w) (tanks w)
    (rays w) (listeners w) (console w) (calls w).

Definition set_shaderMaterialSimple (v : option (gmap string UValue)) (w : World) : World :=
  mkWorld (forceRenderer w) (scene w) (cameraAspect w) (renderer w)
    (shaderMaterial w) v (tslPlane w) (tslPlaneSDF w) (tslDesertTank w)
    (raymarchPlane w) (currentActivePlane w) (waves w) (sdfs w) (tanks w)
    (rays w) (listeners w) (console w) (calls w).

Definition set_tslPlane (v : option ObjId) (w : World) : World :=
  mkWorld (forceRenderer w) (scene w) (cameraAspect w) (renderer w)
    (shaderMaterial w) (shaderMaterialSimple w) v (tslPlaneSDF w)
    (tslDesertTank w) (raymarchPlane w) (currentActivePlane w) (waves w)
    (sdfs w) (tanks w) (rays w) (listeners w) (console w) (calls w).

Definition set_tslPlaneSDF (v : option ObjId) (w : World) : World :=
  mkWorld (forceRenderer w) (scene w) (cameraAspect w) (renderer w)
    (shaderMaterial w) (shaderMaterialSimple w) (tslPlane w) v
    (tslDesertTank w) (raymarchPlane w) (currentActivePlane w) (waves w)
    (sdfs w) (tanks w) (rays w) (listeners w) (console w) (calls w).

Definition set_tslDesertTank (v : option ObjId) (w : World) : World :=
  mkWorld (forceRenderer w) (scene w) (cameraAspect w) (renderer w)
    (shaderMaterial w) (shaderMaterialSimple w) (tslPlane w) (tslPlaneSDF w)
    v (raymarchPlane w) (currentActivePlane w) (waves w) (sdfs w) (tanks w)
    (rays w) (listeners w) (console w) (calls w).

Definition set_raymarchPlane (v : option ObjId) (w : World) : World :=
  mkWorld (forceRenderer w) (scene w) (cameraAspect w) (renderer w)
    (shaderMaterial w) (shaderMaterialSimple w) (tslPlane w) (tslPlaneSDF w)
    (tslDesertTank w) v (currentActivePlane w) (waves w) (sdfs w) (tanks w)
    (rays w) (listeners w) (console w) (calls w).

Definition set_currentActivePlane (v : string) (w : World) : World :=
  mkWorld (forceRenderer w) (scene w) (cameraAspect w) (renderer w)
    (shaderMaterial w) (shaderMaterialSimple w) (tslPlane w) (tslPlaneSDF w)
    (tslDesertTank w) (raymarchPlane w) v (waves w) (sdfs w) (tanks w) (rays
    w) (listeners w) (console w) (calls w).

Definition set_waves (v : list TSLPlane) (w : World) : World :=
  mkWorld (forceRenderer w) (scene w) (cameraAspect w) (renderer w)
    (shaderMaterial w) (shaderMaterialSimple w) (tslPlane w) (tslPlaneSDF w)
    (tslDesertTank w) (raymarchPlane w) (currentActivePlane w) v (sdfs w)
    (tanks w) (rays w) (listeners w) (console w) (calls w).

Definition set_sdfs (v : list TSLPlaneSDF) (w : World) : World :=
  mkWorld (forceRenderer w) (scene w) (cameraAspect w) (renderer w)
    (shaderMaterial w) (shaderMaterialSimple w) (tslPlane w) (tslPlaneSDF w)
    (tslDesertTank w) (raymarchPlane w) (currentActivePlane w) (waves w) v
    (tanks w) (rays w) (listeners w) (console w) (calls w).

Definition set_tanks (v : list TSLPlaneDesertTank) (w : World) : World :=
  mkWorld (forceRenderer w) (scene w) (cameraAspect w) (renderer w)
    (shaderMaterial w) (shaderMaterialSimple w) (tslPlane w) (tslPlaneSDF w)
    (tslDesertTank w) (raymarchPlane w) (currentActivePlane w) (waves w)
    (sdfs w) v (rays w) (listeners w) (console w) (calls w).

Definition set_rays (v : list TSLPlaneRaymarching) (w : World) : World :=
  mkWorld (forceRenderer w) (scene w) (cameraAspect w) (renderer w)
    (shaderMaterial w) (shaderMaterialSimple w) (tslPlane w) (tslPlaneSDF w)
    (tslDesertTank w) (raymarchPlane w) (currentActivePlane w) (waves w)
    (sdfs w) (tanks w) v (listeners w) (console w) (calls w).

Definition set_listeners (v : list Listener) (w : World) : World :=
  mkWorld (forceRenderer w) (scene w) (cameraAspect w) (renderer w)
    (shaderMaterial w) (shaderMaterialSimple w) (tslPlane w) (tslPlaneSDF w)
    (tslDesertTank w) (raymarchPlane w) (currentActivePlane w) (waves w)
    (sdfs w) (tanks w) (rays w) v (console w) (calls w).

Definition set_console (v : list LogEntry) (w : World) : World :=
  mkWorld (forceRenderer w) (scene w) (cameraAspect w) (renderer w)
    (shaderMaterial w) (shaderMaterialSimple w) (tslPlane w) (tslPlaneSDF w)
    (tslDesertTank w) (raymarchPlane w) (currentActivePlane w) (waves w)
    (sdfs w) (tanks w) (rays w) (listeners w) v (calls w).

Definition set_calls (v : list Call) (w : World) : World :=
  mkWorld (forceRenderer w) (scene w) (cameraAspect w) (renderer w)
    (shaderMaterial w) (shaderMaterialSimple w) (tslPlane w) (tslPlaneSDF w)
    (tslDesertTank w) (raymarchPlane w) (currentActivePlane w) (waves w)
    (sdfs w) (tanks w) (rays w) (listeners w) (console w) v.

(** The fields of a [ThreeEngine] as their initialisers leave them, before
    the constructor body runs.  The scene and the camera are created by the
    first statements of [initThree], before anything uses them. *)
Definition world0 : World :=
  mkWorld (Some "webgpu") [] 0%float None None None None None None None "none"
    [] [] [] [] [] [] [].

(** ** Computations *)

(** How a statement completes: normally, or by throwing. *)
Inductive Completion (A : Type) :=
| Normal (a : A)
| Throw (e : JsError).
Arguments Normal {A} a.
Arguments Throw {A} e.

(** A method body: it runs in a world and leaves a world behind, also when
    it throws (what was done before the [throw] stays done). *)
Definition Js (A : Type) : Type := World → Completion A * World.

Global Instance Js_ret : MRet Js := λ A a w, (Normal a, w).

Global Instance Js_bind : MBind Js := λ A B k m w,
  match m w with
  | (Normal a, w') => k a w'
  | (Throw e, w') => (Throw e, w')
  end.

Definition throw {A} (e : JsError) : Js A := λ w, (Throw e, w).

(** [try { body } catch (err) { handler err }] *)
Definition tryCatch {A} (body : Js A) (handler : JsError → Js A) : Js A := λ w,
  match body w with
  | (Normal a, w') => (Normal a, w')
  | (Throw e, w') => handler e w'
  end.

Definition gets {A} (f : World → A) : Js A := λ w, (Normal (f w), w).

Definition modify (f : World → World) : Js unit := λ w, (Normal tt, f w).

Definition consoleLog (msg : string) : Js unit :=
  modify (λ w, set_console (console w ++ [logEntry LevelLog msg None]) w).

Definition consoleWarn (msg : string) (err : option JsError) : Js unit :=
  modify (λ w, set_console (console w ++ [logEntry LevelWarn msg err]) w).

Definition consoleError (msg : string) (err : option JsError) : Js unit :=
  modify (λ w, set_console (console w ++ [logEntry LevelError msg err]) w).

(** Note a call into three.js. *)
Definition record (c : Call) : Js unit :=
  modify (λ w, set_calls (calls w ++ [c]) w).

(** ** ThreeEngine.initThree *)

(** [new WEBGPU.WebGPURenderer(...)] and [new THREE.WebGLRenderer(...)] *)
Definition newRenderer (t : Tier) (throws : bool) : Js Renderer :=
  record (NewRenderer t);;
  if throws then throw (LibraryError "renderer") else mret (mkRenderer t None None).

(** One guarded attempt of [initThree]:
    [try { this.renderer = new ...; console.log(ok); return; }
     catch (err) { console.warn(failed, err); }].
    The result tells whether [initThree] returned from inside the [try]. *)
Definition tryRenderer (t : Tier) (throws : bool) (ok failed : string) : Js bool :=
  tryCatch
    (r ← newRenderer t throws;
     modify (set_renderer (Some r));;
     consoleLog ok;;
     mret true)
    (λ err, consoleWarn failed (Some err);; mret false).

(** [this.renderer.setSize(w, h)] *)
Definition rendererSetSize (w h : number) : Js unit :=
  r ← gets renderer;
  match r with
  | None => throw (TypeError "this.renderer is undefined")
  | Some r =>
      record (SetSize w h);;
      modify (set_renderer (Some (mkRenderer (tier r) (Some (w, h)) (clearColor r))))
  end.

(** [this.renderer.setClearColor(c)] *)
Definition rendererSetClearColor (c : Z) : Js unit :=
  r ← gets renderer;
  match r with
  | None => throw (TypeError "this.renderer is undefined")
  | Some r =>
      record (SetClearColor c);;
      modify (set_renderer (Some (mkRenderer (tier r) (size r) (Some c))))
  end.

(** The unguarded last attempt of each branch of [initThree]. *)
Definition lastRenderer (env : Env) (ok : string) : Js unit :=
  r ← newRenderer WebGL (webglRendererThrows env);
  modify (set_renderer (Some r));;
  consoleLog ok.

(** The [canvas.getContext("webgl2")] attempt shared by the first two
    branches of [initThree]. *)
Definition tryWebGL2 (env : Env) (ok failed : string) : Js bool :=
  if canvas_webgl2 env
  then tryRenderer WebGL2 (webgl2RendererThrows env) ok failed
  else consoleWarn "❌ No WebGL2 support" None;; mret false.

Definition initThree (env : Env) : Js unit :=
  modify (set_scene []);;
  modify (set_cameraAspect (innerWidth env / innerHeight env)%float);;
  forced ← gets forceRenderer;
  returned ←
    (if bool_decide (forced = Some "webgpu") then
       consoleLog "Forcing WebGPU with fallbacks...";;
       returned ←
         (if navigator_gpu env
          then tryRenderer WebGPU (webgpuRendererThrows env)
                 "✅ Using WebGPURenderer" "❌ WebGPU failed:"
          else consoleWarn "❌ No WebGPU support in browser" None;; mret false);
       if returned : bool then mret true else
       returned ← tryWebGL2 env "✅ Using WebGL2 fallback" "❌ WebGL2 fallback failed:";
       if returned : bool then mret true else
       lastRenderer env "✅ Using WebGL final fallback";;
       mret false
     else if bool_decide (forced = Some "webgl2") then
       consoleLog "Forcing WebGL2 with fallback...";;
       returned ← tryWebGL2 env "✅ Using WebGL2Renderer" "❌ WebGL2 failed:";
       if returned : bool then mret true else
       lastRenderer env "✅ Using WebGL fallback";;
       mret false
     else
       consoleLog "Using WebGL directly...";;
       lastRenderer env "✅ Using WebGLRenderer";;
       mret false);
  if returned : bool then mret tt else
  rendererSetSize (innerWidth env) (innerHeight env);;
  rendererSetClearColor 0x222222.

(** The first two statements of the constructor:
    [this.forceRenderer = "webgpu"; this.initThree();] *)
Definition boot (env : Env) : Completion unit * World :=
  (modify (set_forceRenderer (Some "webgpu"));; initThree env) world0.

(** The tiers whose renderer constructor was called, in call order. *)
Definition attempts (w : World) : list Tier :=
  omap (λ c, match c with NewRenderer t => Some t | _ => None end) (calls w).

Definition isSizingCall (c : Call) : bool :=
  match c with
  | SetSize _ _ | SetClearColor _ => true
  | _ => false
  end.

(** The [setSize] and [setClearColor] calls made so far. *)
Definition sizingCalls (w : World) : list Call :=
  List.filter isSizingCall (calls w).

(** A tier is available when the browser offers it and its renderer can be
    constructed. *)
Definition preferredAvailable (env : Env) : bool :=
  navigator_gpu env && negb (webgpuRendererThrows env).

Definition secondaryAvailable (env : Env) : bool :=
  canvas_webgl2 env && negb (webgl2RendererThrows env).

(** ** Plane classes: construction, accessors, disposal *)

(** The optional fields of the [params] object of a plane constructor (the
    mesh position is not modelled). *)
Record PlaneParams := planeParams {
  p_width : option number;
  p_height : option number;
  p_widthSegments : option number;
  p_heightSegments : option number
}.

(** [initGeometry]: [this.geometry = new THREE.PlaneGeometry(...)] *)
Definition initGeometry (env : Env) (w h ws hs : number) : Js PlaneGeometry :=
  if geometryThrows env then throw (LibraryError "PlaneGeometry")
  else mret (planeGeometry w h ws hs false).

(** The [i]-th [this.xUniform = TSL.uniform(v)] of the [try] block of
    [initMaterial]: it is reached unless the block has thrown before. *)
Definition assigned {A} (env : Env) (i : nat) (v : A) : option A :=
  match tslThrowsAfter env with
  | None => Some v
  | Some k => if bool_decide (i < k) then Some v else None
  end.

(** [new THREE.ShaderMaterial({ ..., uniforms })] of [createFallbackMaterial] *)
Definition newShaderMaterial (env : Env) (uniforms : gmap string UValue) : Js Material :=
  if shaderMaterialThrows env then throw (LibraryError "ShaderMaterial")
  else mret (ShaderMaterial uniforms false).

(** The body shared by the three [initMaterial] methods: on the TSL path the
    material is a node material; when the [try] block throws, the error is
    logged and [createFallbackMaterial] supplies the material. *)
Definition initMaterial (env : Env) (creating created failed fallback : string)
    (uniforms : gmap string UValue) : Js Material :=
  consoleLog creating;;
  match tslThrowsAfter env with
  | None => consoleLog created;; mret (MeshPhysicalNodeMaterial false)
  | Some _ =>
      consoleError failed (Some (LibraryError "TSL"));;
      consoleLog fallback;;
      newShaderMaterial env uniforms
  end.

(** Wrapping of a constructor call, to note its outcome. *)
Definition construct (k : PlaneKind) (ctor : Js ObjId) : Js ObjId :=
  tryCatch (id ← ctor; record (Construct k (Some id));; mret id)
    (λ err, record (Construct k None);; throw err).

(** *** TSLPlane (wave) *)

(** Modelled from the spec: the constructor of the absent class [TSLPlane];
    it builds the tessellated rectangle it is asked for, or throws. *)
Definition new_TSLPlane (env : Env) (w h ws hs : number) : Js ObjId :=
  if wavePlaneThrows env then throw (LibraryError "TSLPlane") else
  id ← gets (λ w, length (waves w));
  modify (λ w', set_waves (waves w' ++ [mkTSLPlane (planeGeometry w h ws hs false) false]) w');;
  mret id.

(** Modelled from the spec: [dispose] of the absent class [TSLPlane]
    releases its geometry and its material. *)
Definition wave_dispose (p : TSLPlane) : TSLPlane :=
  mkTSLPlane (disposeGeometry (wave_geometry p)) true.

(** *** TSLPlaneSDF *)

Definition sdf_fallbackUniforms : gmap string UValue :=
  {[ "uTime" := UNum 0.0; "uRadius" := UNum 0.25; "uFade" := UNum 1.5 ]}.

Definition new_TSLPlaneSDF (env : Env) (params : PlaneParams) : Js ObjId :=
  g ← initGeometry env (default 4%float (p_width params)) (default 2%float (p_height params))
        (default 64%float (p_widthSegments params))
        (default 32%float (p_heightSegments params));
  m ← initMaterial env "🚀 Creating TSL SDF Material"
        "✅ TSL SDF Material created successfully!"
        "❌ TSL SDF failed, using fallback:" "🔄 Using fallback SDF ShaderMaterial"
        sdf_fallbackUniforms;
  id ← gets (λ w, length (sdfs w));
  modify (λ w, set_sdfs (sdfs w ++
    [mkTSLPlaneSDF g m (assigned env 0 0.25%float) (assigned env 1 1.5%float)]) w);;
  mret id.

(** [get radius()] *)
Definition sdf_radius (p : TSLPlaneSDF) : number :=
  match sdf_radiusUniform p with
  | Some v => v
  | None =>
      match shaderUniform (sdf_material p) "uRadius" with
      | Some (UNum v) => v
      | _ => 0.25%float
      end
  end.

(** [set radius(value)] *)
Definition sdf_set_radius (value : number) (p : TSLPlaneSDF) : TSLPlaneSDF :=
  match sdf_radiusUniform p with
  | Some _ => mkTSLPlaneSDF (sdf_geometry p) (sdf_material p) (Some value) (sdf_fadeUniform p)
  | None =>
      match shaderUniform (sdf_material p) "uRadius" with
      | Some _ =>
          mkTSLPlaneSDF (sdf_geometry p)
            (setShaderUniform (sdf_material p) "uRadius" (UNum value))
            None (sdf_fadeUniform p)
      | None => p
      end
  end.

(** [get fade()] *)
Definition sdf_fade (p : TSLPlaneSDF) : number :=
  match sdf_fadeUniform p with
  | Some v => v
  | None =>
      match shaderUniform (sdf_material p) "uFade" with
      | Some (UNum v) => v
      | _ => 1.5%float
      end
  end.

(** [set fade(value)] *)
Definition sdf_set_fade (value : number) (p : TSLPlaneSDF) : TSLPlaneSDF :=
  match sdf_fadeUniform p with
  | Some _ => mkTSLPlaneSDF (sdf_geometry p) (sdf_material p) (sdf_radiusUniform p) (Some value)
  | None =>
      match shaderUniform (sdf_material p) "uFade" with
      | Some _ =>
          mkTSLPlaneSDF (sdf_geometry p)
            (setShaderUniform (sdf_material p) "uFade" (UNum value))
            (sdf_radiusUniform p) None
      | None => p
      end
  end.

(** [dispose()] *)
Definition sdf_dispose (p : TSLPlaneSDF) : TSLPlaneSDF :=
  mkTSLPlaneSDF (disposeGeometry (sdf_geometry p)) (disposeMaterial (sdf_material p))
    (sdf_radiusUniform p) (sdf_fadeUniform p).

(** *** TSLPlaneDesertTank *)

Definition with_tank_geometry (v : PlaneGeometry) (p : TSLPlaneDesertTank) : TSLPlaneDesertTank :=
  mkTSLPlaneDesertTank v (tank_material p) (tank_wheelOffsetUniform p)
    (tank_bulletOffsetUniform p) (tank_shellOffsetUniform p) (tank_canJump
    p) (tank_canShoot p) (tank_keyMap p).

Definition with_tank_material (v : Material) (p : TSLPlaneDesertTank) : TSLPlaneDesertTank :=
  mkTSLPlaneDesertTank (tank_geometry p) v (tank_wheelOffsetUniform p)
    (tank_bulletOffsetUniform p) (tank_shellOffsetUniform p) (tank_canJump
    p) (tank_canShoot p) (tank_keyMap p).

Definition with_tank_keyMap (v : gmap string bool) (p : TSLPlaneDesertTank) : TSLPlaneDesertTank :=
  mkTSLPlaneDesertTank (tank_geometry p) (tank_material p)
    (tank_wheelOffsetUniform p) (tank_bulletOffsetUniform p)
    (tank_shellOffsetUniform p) (tank_canJump p) (tank_canShoot p) v.

Definition tank_fallbackUniforms : gmap string UValue :=
  {[ "uTime" := UNum 0.0; "uWheelOffset" := UVec2 (vec2 (-10) 0);
     "uBulletOffset" := UNum 20; "uShellOffset" := UNum 25 ]}.

(** The constructor up to [initMesh]; [initControls] needs the identity of
    the new object and follows in [new_TSLPlaneDesertTank]. *)
Definition tank_init (env : Env) (params : PlaneParams) : Js TSLPlaneDesertTank :=
  g ← initGeometry env (default 2%float (p_width params)) (default 2%float (p_height params))
        (default 64%float (p_widthSegments params))
        (default 64%float (p_heightSegments params));
  m ← initMaterial env "🚀 Creating TSL Desert Tank Material"
        "✅ TSL Desert Tank Material created successfully!"
        "❌ TSL Desert Tank failed, using fallback:"
        "🔄 Using fallback Desert Tank ShaderMaterial"
        tank_fallbackUniforms;
  mret (mkTSLPlaneDesertTank g m (assigned env 0 (vec2 (-10) 0))
          (assigned env 1 20%float) (assigned env 2 25%float) true true ∅).

(** A listener that is already registered is not registered twice. *)
Definition register (l : Listener) (ls : list Listener) : list Listener :=
  if bool_decide (l ∈ ls) then ls else ls ++ [l].

(** [target.addEventListener(type, callback)] *)
Definition addEventListener (target : EventTarget) (type : string) (cb : Callback) : Js unit :=
  modify (λ w, set_listeners (register (mkListener target type cb) (listeners w)) w).

(** [target.removeEventListener(type, callback)] *)
Definition removeEventListener (target : EventTarget) (type : string) (cb : Callback) : Js unit :=
  modify (λ w,
    set_listeners (filter (λ l, l ≠ mkListener target type cb) (listeners w)) w).

(** [initControls()]: the closure [onDocumentKey] is registered for both
    key events. *)
Definition tank_initControls (id : ObjId) : Js unit :=
  addEventListener Document "keydown" (OnDocumentKey id);;
  addEventListener Document "keyup" (OnDocumentKey id).

Definition new_TSLPlaneDesertTank (env : Env) (params : PlaneParams) : Js ObjId :=
  p ← tank_init env params;
  id ← gets (λ w, length (tanks w));
  modify (λ w, set_tanks (tanks w ++ [p]) w);;
  tank_initControls id;;
  mret id.

(** [get wheelOffset()] *)
Definition tank_wheelOffset (p : TSLPlaneDesertTank) : Vector2 :=
  match tank_wheelOffsetUniform p with
  | Some v => v
  | None =>
      match shaderUniform (tank_material p) "uWheelOffset" with
      | Some (UVec2 v) => v
      | _ => vec2 (-10) 0
      end
  end.

(** [get bulletOffset()] *)
Definition tank_bulletOffset (p : TSLPlaneDesertTank) : number :=
  match tank_bulletOffsetUniform p with
  | Some v => v
  | None =>
      match shaderUniform (tank_material p) "uBulletOffset" with
      | Some (UNum v) => v
      | _ => 20%float
      end
  end.

(** [get shellOffset()] *)
Definition tank_shellOffset (p : TSLPlaneDesertTank) : number :=
  match tank_shellOffsetUniform p with
  | Some v => v
  | None =>
      match shaderUniform (tank_material p) "uShellOffset" with
      | Some (UNum v) => v
      | _ => 25%float
      end
  end.

(** The object part of [dispose()]: geometry and material. *)
Definition tank_dispose (p : TSLPlaneDesertTank) : TSLPlaneDesertTank :=
  with_tank_material (disposeMaterial (tank_material p))
    (with_tank_geometry (disposeGeometry (tank_geometry p)) p).

(** [onDocumentKey]: [this.keyMap[e.code] = e.type === "keydown"].
    [keyMap] is a plain object, whose own properties the map holds.  An
    assignment to ["__proto__"] does not create one: it calls the setter
    [Object.prototype] has under that name, which ignores a boolean. *)
Definition tank_onDocumentKey (type code : string) (p : TSLPlaneDesertTank) : TSLPlaneDesertTank :=
  if bool_decide (code = "__proto__") then p
  else with_tank_keyMap (<[code := bool_decide (type = "keydown")]> (tank_keyMap p)) p.


(** *** TSLPlaneRaymarching *)

Definition with_ray_geometry (v : PlaneGeometry) (p : TSLPlaneRaymarching) : TSLPlaneRaymarching :=
  mkTSLPlaneRaymarching v (ray_material p) (ray_radiusUniform p)
    (ray_fadeUniform p) (ray_rayFromUniform p) (ray_rayToUniform p)
    (ray_maxStepsUniform p) (ray_surfaceDistanceUniform p)
    (ray_maxDistanceUniform p) (ray_timeMultiplierUniform p) (ray_pointer p)
    (ray_camera p).

Definition with_ray_material (v : Material) (p : TSLPlaneRaymarching) : TSLPlaneRaymarching :=
  mkTSLPlaneRaymarching (ray_geometry p) v (ray_radiusUniform p)
    (ray_fadeUniform p) (ray_rayFromUniform p) (ray_rayToUniform p)
    (ray_maxStepsUniform p) (ray_surfaceDistanceUniform p)
    (ray_maxDistanceUniform p) (ray_timeMultiplierUniform p) (ray_pointer p)
    (ray_camera p).

Definition with_ray_radiusUniform (v : option number) (p : TSLPlaneRaymarching) : TSLPlaneRaymarching :=
  mkTSLPlaneRaymarching (ray_geometry p) (ray_material p) v (ray_fadeUniform
    p) (ray_rayFromUniform p) (ray_rayToUniform p) (ray_maxStepsUniform p)
    (ray_surfaceDistanceUniform p) (ray_maxDistanceUniform p)
    (ray_timeMultiplierUniform p) (ray_pointer p) (ray_camera p).

Definition with_ray_rayFromUniform (v : option Vector2) (p : TSLPlaneRaymarching) : TSLPlaneRaymarching :=
  mkTSLPlaneRaymarching (ray_geometry p) (ray_material p) (ray_radiusUniform
    p) (ray_fadeUniform p) v (ray_rayToUniform p) (ray_maxStepsUniform p)
    (ray_surfaceDistanceUniform p) (ray_maxDistanceUniform p)
    (ray_timeMultiplierUniform p) (ray_pointer p) (ray_camera p).

Definition with_ray_rayToUniform (v : option Vector2) (p : TSLPlaneRaymarching) : TSLPlaneRaymarching :=
  mkTSLPlaneRaymarching (ray_geometry p) (ray_material p) (ray_radiusUniform
    p) (ray_fadeUniform p) (ray_rayFromUniform p) v (ray_maxStepsUniform p)
    (ray_surfaceDistanceUniform p) (ray_maxDistanceUniform p)
    (ray_timeMultiplierUniform p) (ray_pointer p) (ray_camera p).

Definition with_ray_maxStepsUniform (v : option number) (p : TSLPlaneRaymarching) : TSLPlaneRaymarching :=
  mkTSLPlaneRaymarching (ray_geometry p) (ray_material p) (ray_radiusUniform
    p) (ray_fadeUniform p) (ray_rayFromUniform p) (ray_rayToUniform p) v
    (ray_surfaceDistanceUniform p) (ray_maxDistanceUniform p)
    (ray_timeMultiplierUniform p) (ray_pointer p) (ray_camera p).

Definition with_ray_surfaceDistanceUniform (v : option number) (p : TSLPlaneRaymarching) : TSLPlaneRaymarching :=
  mkTSLPlaneRaymarching (ray_geometry p) (ray_material p) (ray_radiusUniform
    p) (ray_fadeUniform p) (ray_rayFromUniform p) (ray_rayToUniform p)
    (ray_maxStepsUniform p) v (ray_maxDistanceUniform p)
    (ray_timeMultiplierUniform p) (ray_pointer p) (ray_camera p).

Definition with_ray_timeMultiplierUniform (v : option number) (p : TSLPlaneRaymarching) : TSLPlaneRaymarching :=
  mkTSLPlaneRaymarching (ray_geometry p) (ray_material p) (ray_radiusUniform
    p) (ray_fadeUniform p) (ray_rayFromUniform p) (ray_rayToUniform p)
    (ray_maxStepsUniform p) (ray_surfaceDistanceUniform p)
    (ray_maxDistanceUniform p) v (ray_pointer p) (ray_camera p).

Definition with_ray_pointer (v : Vector2) (p : TSLPlaneRaymarching) : TSLPlaneRaymarching :=
  mkTSLPlaneRaymarching (ray_geometry p) (ray_material p) (ray_radiusUniform
    p) (ray_fadeUniform p) (ray_rayFromUniform p) (ray_rayToUniform p)
    (ray_maxStepsUniform p) (ray_surfaceDistanceUniform p)
    (ray_maxDistanceUniform p) (ray_timeMultiplierUniform p) v (ray_camera
    p).

Definition with_ray_camera (v : bool) (p : TSLPlaneRaymarching) : TSLPlaneRaymarching :=
  mkTSLPlaneRaymarching (ray_geometry p) (ray_material p) (ray_radiusUniform
    p) (ray_fadeUniform p) (ray_rayFromUniform p) (ray_rayToUniform p)
    (ray_maxStepsUniform p) (ray_surfaceDistanceUniform p)
    (ray_maxDistanceUniform p) (ray_timeMultiplierUniform p) (ray_pointer p)
    v.

Definition ray_fallbackUniforms : gmap string UValue :=
  {[ "uTime" := UNum 0.0; "uRadius" := UNum 0.15; "uFade" := UNum 1.0;
     "uRayFrom" := UVec2 (vec2 0.5 0.5); "uRayTo" := UVec2 (vec2 1 1);
     "uMaxSteps" := UNum 20; "uSurfaceDistance" := UNum 0.0001;
     "uMaxDistance" := UNum 5.0; "uTimeMultiplier" := UNum 1.0 ]}.

Definition new_TSLPlaneRaymarching (env : Env) (params : PlaneParams) : Js ObjId :=
  g ← initGeometry env (default 2%float (p_width params)) (default 2%float (p_height params))
        (default 64%float (p_widthSegments params))
        (default 64%float (p_heightSegments params));
  m ← initMaterial env "🚀 Creating TSL Raymarching Material"
        "✅ TSL Raymarching Material created successfully!"
        "❌ TSL Raymarching failed, using fallback:"
        "🔄 Using fallback Raymarching ShaderMaterial"
        ray_fallbackUniforms;
  id ← gets (λ w, length (rays w));
  modify (λ w, set_rays (rays w ++
    [mkTSLPlaneRaymarching g m
       (assigned env 0 0.15%float) (assigned env 1 1%float)
       (assigned env 2 (vec2 0.5 0.5)) (assigned env 3 (vec2 1 1))
       (assigned env 4 20%float) (assigned env 5 0.0001%float)
       (assigned env 6 5.0%float) (assigned env 7 1%float)
       (vec2 0 0) false]) w);;
  mret id.

(** The getters: the TSL uniform when there is one, else the uniform of
    the fallback material, else the default. *)
Definition numberGetter (u : option number) (m : Material) (name : string)
    (dflt : number) : number :=
  match u with
  | Some v => v
  | None =>
      match shaderUniform m name with
      | Some (UNum v) => v
      | _ => dflt
      end
  end.

Definition vectorGetter (u : option Vector2) (m : Material) (name : string)
    (dflt : Vector2) : Vector2 :=
  match u with
  | Some v => v
  | None =>
      match shaderUniform m name with
      | Some (UVec2 v) => v
      | _ => dflt
      end
  end.

Definition ray_radius (p : TSLPlaneRaymarching) : number :=
  numberGetter (ray_radiusUniform p) (ray_material p) "uRadius" 0.15.

Definition ray_maxSteps (p : TSLPlaneRaymarching) : number :=
  numberGetter (ray_maxStepsUniform p) (ray_material p) "uMaxSteps" 20.

Definition ray_surfaceDistance (p : TSLPlaneRaymarching) : number :=
  numberGetter (ray_surfaceDistanceUniform p) (ray_material p) "uSurfaceDistance" 0.0001.

Definition ray_timeMultiplier (p : TSLPlaneRaymarching) : number :=
  numberGetter (ray_timeMultiplierUniform p) (ray_material p) "uTimeMultiplier" 1.0.

Definition ray_rayFrom (p : TSLPlaneRaymarching) : Vector2 :=
  vectorGetter (ray_rayFromUniform p) (ray_material p) "uRayFrom" (vec2 0.5 0.5).

Definition ray_rayTo (p : TSLPlaneRaymarching) : Vector2 :=
  vectorGetter (ray_rayToUniform p) (ray_material p) "uRayTo" (vec2 1 1).

(** The setters: [u] is the TSL uniform, [setU] stores into it. *)
Definition raySetter {A} (u : TSLPlaneRaymarching → option A)
    (setU : option A → TSLPlaneRaymarching → TSLPlaneRaymarching)
    (name : string) (inj : A → UValue) (value : A)
    (p : TSLPlaneRaymarching) : TSLPlaneRaymarching :=
  match u p with
  | Some _ => setU (Some value) p
  | None =>
      match shaderUniform (ray_material p) name with
      | Some _ => with_ray_material (setShaderUniform (ray_material p) name (inj value)) p
      | None => p
      end
  end.

Definition ray_set_radius : number → TSLPlaneRaymarching → TSLPlaneRaymarching :=
  raySetter ray_radiusUniform with_ray_radiusUniform "uRadius" UNum.

Definition ray_set_maxSteps : number → TSLPlaneRaymarching → TSLPlaneRaymarching :=
  raySetter ray_maxStepsUniform with_ray_maxStepsUniform "uMaxSteps" UNum.

Definition ray_set_surfaceDistance : number → TSLPlaneRaymarching → TSLPlaneRaymarching :=
  raySetter ray_surfaceDistanceUniform with_ray_surfaceDistanceUniform
    "uSurfaceDistance" UNum.

Definition ray_set_timeMultiplier : number → TSLPlaneRaymarching → TSLPlaneRaymarching :=
  raySetter ray_timeMultiplierUniform with_ray_timeMultiplierUniform
    "uTimeMultiplier" UNum.

Definition ray_set_rayFrom : Vector2 → TSLPlaneRaymarching → TSLPlaneRaymarching :=
  raySetter ray_rayFromUniform with_ray_rayFromUniform "uRayFrom" UVec2.

Definition ray_set_rayTo : Vector2 → TSLPlaneRaymarching → TSLPlaneRaymarching :=
  raySetter ray_rayToUniform with_ray_rayToUniform "uRayTo" UVec2.

(** [dispose()]: geometry and material, nothing else. *)
Definition ray_dispose (p : TSLPlaneRaymarching) : TSLPlaneRaymarching :=
  with_ray_material (disposeMaterial (ray_material p))
    (with_ray_geometry (disposeGeometry (ray_geometry p)) p).

(** [setupMouseInteraction(camera, domElement)] *)
Definition ray_setupMouseInteraction (id : ObjId) : Js unit :=
  modify (λ w, set_rays (alter (with_ray_camera true) id (rays w)) w);;
  addEventListener DomElement "pointermove" (OnPointerMove id);;
  addEventListener DomElement "pointerdown" (OnPointerDown id).

(** [onPointerMove]: the pointer is stored in normalised device
    coordinates; [hits] is what [raycaster.intersectObject(this.mesh)]
    returns, each intersection with its [uv] when it has one. *)
Definition ray_onPointerMove (env : Env) (clientX clientY : number)
    (hits : list (option Vector2)) (p : TSLPlaneRaymarching) : TSLPlaneRaymarching :=
  let p := with_ray_pointer
             (vec2 (clientX / innerWidth env * 2 - 1)
                   (- (clientY / innerHeight env) * 2 + 1))%float p in
  match hits with
  | [] => p
  | uv :: _ => ray_set_rayTo (default (vec2 1 1) uv) p
  end.

(** [onPointerDown]: [this.rayFrom = new THREE.Vector2().copy(this.rayTo)] *)
Definition ray_onPointerDown (p : TSLPlaneRaymarching) : TSLPlaneRaymarching :=
  ray_set_rayFrom (ray_rayTo p) p.

(** ** ThreeEngine: the plane lifecycle *)

(** [this.scene.add(mesh)]: the mesh becomes the last child. *)
Definition sceneAdd (k : PlaneKind) (id : ObjId) : Js unit :=
  record (SceneAdd k id);;
  modify (λ w, set_scene (filter (λ m, m ≠ (k, id)) (scene w) ++ [(k, id)]) w).

(** [this.scene.remove(mesh)] *)
Definition sceneRemove (k : PlaneKind) (id : ObjId) : Js unit :=
  record (SceneRemove k id);;
  modify (λ w, set_scene (filter (λ m, m ≠ (k, id)) (scene w)) w).

(** The [dispose()] methods, applied to the object with identity [id]. *)
Definition disposeWave (id : ObjId) : Js unit :=
  record (Dispose Wave id);;
  modify (λ w, set_waves (alter wave_dispose id (waves w)) w).

Definition disposeSDF (id : ObjId) : Js unit :=
  record (Dispose Sdf id);;
  modify (λ w, set_sdfs (alter sdf_dispose id (sdfs w)) w).

(** [TSLPlaneDesertTank.dispose] also asks the document to forget
    [this.initControls] for both key events. *)
Definition disposeDesertTank (id : ObjId) : Js unit :=
  record (Dispose DesertTank id);;
  modify (λ w, set_tanks (alter tank_dispose id (tanks w)) w);;
  removeEventListener Document "keydown" InitControlsMethod;;
  removeEventListener Document "keyup" InitControlsMethod.

Definition disposeRaymarching (id : ObjId) : Js unit :=
  record (Dispose Raymarching id);;
  modify (λ w, set_rays (alter ray_dispose id (rays w)) w).

(** One [if (this.field) { scene.remove; dispose; this.field = null }]
    block of [cleanupCurrentPlane]. *)
Definition cleanupField (field : World → option ObjId) (k : PlaneKind)
    (dispose : ObjId → Js unit) (clear : World → World) : Js unit :=
  f ← gets field;
  match f with
  | Some id => sceneRemove k id;; dispose id;; modify clear
  | None => mret tt
  end.

Definition cleanupCurrentPlane : Js unit :=
  cleanupField tslPlane Wave disposeWave (set_tslPlane None);;
  cleanupField tslPlaneSDF Sdf disposeSDF (set_tslPlaneSDF None);;
  cleanupField tslDesertTank DesertTank disposeDesertTank (set_tslDesertTank None);;
  cleanupField raymarchPlane Raymarching disposeRaymarching (set_raymarchPlane None).

Definition createWavePlane (env : Env) : Js unit :=
  tryCatch
    (id ← construct Wave (new_TSLPlane env 8 8 128 128);
     modify (set_tslPlane (Some id));;
     sceneAdd Wave id;;
     consoleLog "✅ Wave plane created")
    (λ error, consoleError "❌ Failed to create wave plane:" (Some error)).

Definition createSDFPlane (env : Env) : Js unit :=
  tryCatch
    (id ← construct Sdf
            (new_TSLPlaneSDF env (planeParams (Some 8%float) (Some 4%float) None None));
     modify (set_tslPlaneSDF (Some id));;
     (* Configure SDF parameters *)
     modify (λ w, set_sdfs (alter (sdf_set_radius 0.3) id (sdfs w)) w);;
     modify (λ w, set_sdfs (alter (sdf_set_fade 2.0) id (sdfs w)) w);;
     sceneAdd Sdf id;;
     consoleLog "✅ SDF plane created")
    (λ error, consoleError "❌ Failed to create SDF plane:" (Some error)).

Definition createDesertTankPlane (env : Env) : Js unit :=
  tryCatch
    (id ← construct DesertTank
            (new_TSLPlaneDesertTank env (planeParams (Some 4%float) (Some 3%float) None None));
     modify (set_tslDesertTank (Some id));;
     sceneAdd DesertTank id;;
     consoleLog "✅ Desert tank plane created")
    (λ error, consoleError "❌ Failed to create desert tank plane:" (Some error)).

(** No [try] here: what the constructor throws leaves the method. *)
Definition createRayMarchingPlane (env : Env) : Js unit :=
  id ← construct Raymarching
         (new_TSLPlaneRaymarching env (planeParams (Some 8%float) (Some 8%float) None None));
  sceneAdd Raymarching id;;
  (* this.renderer.domElement *)
  r ← gets renderer;
  (match r with
   | None => throw (TypeError "this.renderer is undefined")
   | Some _ => ray_setupMouseInteraction id
   end);;
  modify (λ w, set_rays (alter (ray_set_radius 0.2) id (rays w)) w);;
  modify (λ w, set_rays (alter (ray_set_maxSteps 25) id (rays w)) w);;
  modify (λ w, set_rays (alter (ray_set_surfaceDistance 0.0001) id (rays w)) w);;
  modify (λ w, set_rays (alter (ray_set_timeMultiplier 0.5) id (rays w)) w);;
  modify (set_raymarchPlane (Some id)).

(** [planeType] is a [PlaneType] for the type checker and a string at run
    time; the [default] branch of the [switch] takes every other string. *)
Definition switchToPlane (env : Env) (planeType : string) : Js unit :=
  consoleLog ("🔄 Switching to plane: " +:+ planeType);;
  cleanupCurrentPlane;;
  known ←
    (if bool_decide (planeType = "wave") then createWavePlane env;; mret true
     else if bool_decide (planeType = "sdf") then createSDFPlane env;; mret true
     else if bool_decide (planeType = "desert-tank") then createDesertTankPlane env;; mret true
     else if bool_decide (planeType = "raymarching") then createRayMarchingPlane env;; mret true
     else if bool_decide (planeType = "none") then mret true
     else consoleWarn ("Unknown plane type: " +:+ planeType) None;; mret false);
  if known : bool then
    modify (set_currentActivePlane planeType);;
    consoleLog ("✅ Successfully switched to: " +:+ planeType)
  else mret tt.

(** [onPlaneChange], the entry point of the button panel. *)
Definition onPlaneChange (env : Env) (planeType : string) : Js unit :=
  switchToPlane env planeType.

(** [uniforms.uResolution.value.set(vw, vh)] on one of the two test
    materials. *)
Definition setResolution (vw vh : number) (u : gmap string UValue) : Js (gmap string UValue) :=
  match u !! "uResolution" with
  | Some _ => mret (<["uResolution" := UVec2 (vec2 vw vh)]> u)
  | None => throw (TypeError "uniforms.uResolution is undefined")
  end.

Definition resize (vw vh : number) : Js unit :=
  r ← gets renderer;
  match r with
  | None => mret tt
  | Some _ =>
      modify (set_cameraAspect (vw / vh)%float);;
      rendererSetSize vw vh;;
      sm ← gets shaderMaterial;
      (match sm with
       | Some u => u' ← setResolution vw vh u; modify (set_shaderMaterial (Some u'))
       | None => mret tt
       end);;
      sms ← gets shaderMaterialSimple;
      match sms with
      | Some u => u' ← setResolution vw vh u; modify (set_shaderMaterialSimple (Some u'))
      | None => mret tt
      end
  end.

(** ** Input events *)

Inductive DomEvent :=
| KeyboardEvent (code : string)
| PointerEvent (clientX clientY : number) (hits : list (option Vector2)).

(** What a registered callback does with an event of type [type]. *)
Definition runCallback (env : Env) (type : string) (ev : DomEvent) (cb : Callback) : Js unit :=
  match cb, ev with
  | OnDocumentKey id, KeyboardEvent code =>
      modify (λ w, set_tanks (alter (tank_onDocumentKey type code) id (tanks w)) w)
  | OnPointerMove id, PointerEvent x y hits =>
      modify (λ w, set_rays (alter (ray_onPointerMove env x y hits) id (rays w)) w)
  | OnPointerDown id, PointerEvent _ _ _ =>
      modify (λ w, set_rays (alter ray_onPointerDown id (rays w)) w)
  | _, _ => mret tt
  end.

Fixpoint deliver (env : Env) (type : string) (ev : DomEvent) (ls : list Listener) : Js unit :=
  match ls with
  | [] => mret tt
  | l :: ls => runCallback env type ev (l_callback l);; deliver env type ev ls
  end.

(** The browser delivers an event to the listeners registered at that
    moment for its target and type, in registration order. *)
Definition dispatchEvent (env : Env) (target : EventTarget) (type : string)
    (ev : DomEvent) : Js unit :=
  ls ← gets listeners;
  deliver env type ev (filter (λ l, l_target l = target ∧ l_type l = type) ls).

(** ** Runs of the application *)

(** What reaches the engine between two frames. *)
Inductive Command :=
| SelectVariant (env : Env) (planeType : string)
| Resize (vw vh : number)
| Dispatch (env : Env) (target : EventTarget) (type : string) (ev : DomEvent).

(** A command runs to completion; when it throws, the exception ends in the
    browser's event loop and the world stays as the command left it. *)
Definition step (w : World) (c : Command) : World :=
  match c with
  | SelectVariant env planeType => (onPlaneChange env planeType w).2
  | Resize vw vh => (resize vw vh w).2
  | Dispatch env target type ev => (dispatchEvent env target type ev w).2
  end.

Definition run (cs : list Command) (w : World) : World := foldl step w cs.

(** ** Observations *)

(** An object holds GPU resources from its construction until both its
    geometry and its material have been disposed. *)
Class Resource (A : Type) := isLive : A → bool.

Global Instance wave_resource : Resource TSLPlane := λ p,
  negb (geometryDisposed (wave_geometry p) && wave_materialDisposed p).
Global Instance sdf_resource : Resource TSLPlaneSDF := λ p,
  negb (geometryDisposed (sdf_geometry p) && materialDisposed (sdf_material p)).
Global Instance tank_resource : Resource TSLPlaneDesertTank := λ p,
  negb (geometryDisposed (tank_geometry p) && materialDisposed (tank_material p)).
Global Instance ray_resource : Resource TSLPlaneRaymarching := λ p,
  negb (geometryDisposed (ray_geometry p) && materialDisposed (ray_material p)).

Definition liveIn {A} `{Resource A} (store : list A) : nat :=
  length (List.filter isLive store).

(** The number of plane objects that hold GPU resources. *)
Definition liveCount (w : World) : nat :=
  liveIn (waves w) + liveIn (sdfs w) + liveIn (tanks w) + liveIn (rays w).

(** The number of plane objects constructed so far. *)
Definition allocated (w : World) : nat :=
  length (waves w) + length (sdfs w) + length (tanks w) + length (rays w).

Definition isTeardown (c : Call) : bool :=
  match c with
  | SceneRemove _ _ | Dispose _ _ => true
  | _ => false
  end.

Definition isBuild (c : Call) : bool :=
  match c with
  | Construct _ _ | SceneAdd _ _ => true
  | _ => false
  end.

(** ** Closed forms

    What the methods above compute, written as plain functions of the
    world; the lemmas below prove them equal to the methods. *)

(** A plane constructor of TSLPlaneSDF, TSLPlaneDesertTank or
    TSLPlaneRaymarching throws when the geometry cannot be built, or when
    the TSL block fails and the fallback material cannot be built either. *)
Definition constructionFails (env : Env) : bool :=
  geometryThrows env ||
  match tslThrowsAfter env with
  | Some _ => shaderMaterialThrows env
  | None => false
  end.

Definition kindOfTag (planeType : string) : option PlaneKind :=
  if bool_decide (planeType = "wave") then Some Wave
  else if bool_decide (planeType = "sdf") then Some Sdf
  else if bool_decide (planeType = "desert-tank") then Some DesertTank
  else if bool_decide (planeType = "raymarching") then Some Raymarching
  else None.

(** Whether the constructor behind a variant tag throws. *)
Definition constructionThrows (env : Env) (planeType : string) : bool :=
  match kindOfTag planeType with
  | Some Wave => wavePlaneThrows env
  | Some _ => constructionFails env
  | None => false
  end.

(** The material [initMaterial] ends with. *)
Definition builtMaterial (env : Env) (uniforms : gmap string UValue) : Material :=
  match tslThrowsAfter env with
  | None => MeshPhysicalNodeMaterial false
  | Some _ => ShaderMaterial uniforms false
  end.

(** The objects the four [create...Plane] methods leave in the store. *)
Definition waveObject : TSLPlane :=
  mkTSLPlane (planeGeometry 8 8 128 128 false) false.

Definition sdfObject (env : Env) : TSLPlaneSDF :=
  sdf_set_fade 2.0 (sdf_set_radius 0.3
    (mkTSLPlaneSDF (planeGeometry 8 4 64 32 false)
       (builtMaterial env sdf_fallbackUniforms)
       (assigned env 0 0.25%float) (assigned env 1 1.5%float))).

Definition tankObject (env : Env) : TSLPlaneDesertTank :=
  mkTSLPlaneDesertTank (planeGeometry 4 3 64 64 false)
    (builtMaterial env tank_fallbackUniforms)
    (assigned env 0 (vec2 (-10) 0)) (assigned env 1 20%float)
    (assigned env 2 25%float) true true ∅.

(** The raymarching plane as its constructor returns it... *)
Definition rayConstructed (env : Env) : TSLPlaneRaymarching :=
  mkTSLPlaneRaymarching (planeGeometry 8 8 64 64 false)
    (builtMaterial env ray_fallbackUniforms)
    (assigned env 0 0.15%float) (assigned env 1 1%float)
    (assigned env 2 (vec2 0.5 0.5)) (assigned env 3 (vec2 1 1))
    (assigned env 4 20%float) (assigned env 5 0.0001%float)
    (assigned env 6 5.0%float) (assigned env 7 1%float)
    (vec2 0 0) false.

(** ... and as [createRayMarchingPlane] configures it. *)
Definition rayObject (env : Env) : TSLPlaneRaymarching :=
  ray_set_timeMultiplier 0.5 (ray_set_surfaceDistance 0.0001
    (ray_set_maxSteps 25 (ray_set_radius 0.2
      (with_ray_camera true (rayConstructed env))))).

(** The meshes of the planes the engine holds in its four fields. *)
Definition fieldRefs (w : World) : list (PlaneKind * ObjId) :=
  option_list (pair Wave <$> tslPlane w) ++
  option_list (pair Sdf <$> tslPlaneSDF w) ++
  option_list (pair DesertTank <$> tslDesertTank w) ++
  option_list (pair Raymarching <$> raymarchPlane w).

Definition removeAll (refs children : list (PlaneKind * ObjId)) : list (PlaneKind * ObjId) :=
  foldl (λ s m, filter (λ x, x ≠ m) s) children refs.

(** The calls [cleanupCurrentPlane] makes in world [w]. *)
Definition teardownCalls (w : World) : list Call :=
  (fieldRefs w) ≫= (λ m, [SceneRemove m.1 m.2; Dispose m.1 m.2]).

Definition disposeAt {A} (dispose : A → A) (field : option ObjId) (store : list A) : list A :=
  match field with
  | Some id => alter dispose id store
  | None => store
  end.

(** The world [cleanupCurrentPlane] leaves. *)
Definition cleaned (w : World) : World :=
  set_calls (calls w ++ teardownCalls w)
  (set_listeners
     (match tslDesertTank w with
      | Some _ =>
          filter (λ l, l ≠ mkListener Document "keyup" InitControlsMethod)
            (filter (λ l, l ≠ mkListener Document "keydown" InitControlsMethod)
               (listeners w))
      | None => listeners w
      end)
  (set_scene (removeAll (fieldRefs w) (scene w))
  (set_rays (disposeAt ray_dispose (raymarchPlane w) (rays w))
  (set_tanks (disposeAt tank_dispose (tslDesertTank w) (tanks w))
  (set_sdfs (disposeAt sdf_dispose (tslPlaneSDF w) (sdfs w))
  (set_waves (disposeAt wave_dispose (tslPlane w) (waves w))
  (set_raymarchPlane None (set_tslDesertTank None
  (set_tslPlaneSDF None (set_tslPlane None w)))))))))).

(** The first and the last statement of [switchToPlane]. *)
Definition announced (planeType : string) (w : World) : World :=
  set_console (console w ++ [logEntry LevelLog ("🔄 Switching to plane: " +:+ planeType) None]) w.

Definition switched (planeType : string) (w : World) : World :=
  set_console (console w ++
    [logEntry LevelLog ("✅ Successfully switched to: " +:+ planeType) None])
    (set_currentActivePlane planeType w).

(** A world with one more plane of kind [k]: the object is stored, held by
    its field and its mesh is the last child of the scene. *)
Definition attached (k : PlaneKind) (id : ObjId) (w : World) : World :=
  set_calls (calls w ++ [Construct k (Some id); SceneAdd k id])
    (set_scene (filter (λ m, m ≠ (k, id)) (scene w) ++ [(k, id)]) w).

(** ** Invariants *)

(** Every object of the store that holds GPU resources is the one the
    field refers to. *)
Definition ownedBy {A} `{Resource A} (store : list A) (field : option ObjId) : Prop :=
  ∀ i p, store !! i = Some p → isLive p = true → field = Some i.

(** What holds of the engine between two commands. *)
Record Consistent (w : World) : Prop := mkConsistent {
  c_renderer : is_Some (renderer w);
  c_shaderMaterial : shaderMaterial w = None;
  c_shaderMaterialSimple : shaderMaterialSimple w = None;
  c_waves : ownedBy (waves w) (tslPlane w);
  c_sdfs : ownedBy (sdfs w) (tslPlaneSDF w);
  c_tanks : ownedBy (tanks w) (tslDesertTank w);
  c_rays : ownedBy (rays w) (raymarchPlane w);
  c_live : liveCount w ≤ 1;
  c_scene : scene w = fieldRefs w
}.

(** The plane objects the engine's fields refer to. *)
Inductive PlaneObject :=
| WaveObject (p : TSLPlane)
| SdfObject (p : TSLPlaneSDF)
| TankObject (p : TSLPlaneDesertTank)
| RayObject (p : TSLPlaneRaymarching).

Definition held {A} (field : option ObjId) (store : list A) : list A :=
  option_list (field ≫= (λ id, store !! id)).

Definition activePlanes (w : World) : list PlaneObject :=
  (WaveObject <$> held (tslPlane w) (waves w)) ++
  (SdfObject <$> held (tslPlaneSDF w) (sdfs w)) ++
  (TankObject <$> held (tslDesertTank w) (tanks w)) ++
  (RayObject <$> held (raymarchPlane w) (rays w)).

(** The console lines of a failed construction: nothing is logged at the
    warning level and the last line is an error carrying the exception. *)
Definition loggedAsError (entries : list LogEntry) : Prop :=
  (∃ msg err, last entries = Some (logEntry LevelError msg (Some err))) ∧
  Forall (λ e, level e ≠ LevelWarn) entries.

(** No plane is held, none holds GPU resources and the scene shows none:
    the engine as [cleanupCurrentPlane] leaves it. *)
Record Vacant (w : World) : Prop := mkVacant {
  v_renderer : is_Some (renderer w);
  v_shaderMaterial : shaderMaterial w = None;
  v_shaderMaterialSimple : shaderMaterialSimple w = None;
  v_tslPlane : tslPlane w = None;
  v_tslPlaneSDF : tslPlaneSDF w = None;
  v_tslDesertTank : tslDesertTank w = None;
  v_raymarchPlane : raymarchPlane w = None;
  v_waves : ownedBy (waves w) None;
  v_sdfs : ownedBy (sdfs w) None;
  v_tanks : ownedBy (tanks w) None;
  v_rays : ownedBy (rays w) None;
  v_scene : scene w = []
}.

(** The number of objects of a class constructed so far: the identity the
    next one gets. *)
Definition storeLength (k : PlaneKind) (w : World) : nat :=
  match k with
  | Wave => length (waves w)
  | Sdf => length (sdfs w)
  | DesertTank => length (tanks w)
  | Raymarching => length (rays w)
  end.

(** The object behind a variant, as its [create...Plane] method leaves it. *)
Definition builtObject (env : Env) (k : PlaneKind) : PlaneObject :=
  match k with
  | Wave => WaveObject waveObject
  | Sdf => SdfObject (sdfObject env)
  | DesertTank => TankObject (tankObject env)
  | Raymarching => RayObject (rayObject env)
  end.

(** ** Sample environments and worlds *)

(** A browser with WebGPU in which nothing throws. *)
Definition chrome : Env :=
  mkEnv 800 600 true false true false false false None false false.

(** No WebGPU, but a working WebGL2 context. *)
Definition webgl2Only : Env :=
  mkEnv 800 600 false false true false false false None false false.

(** Neither WebGPU nor WebGL2. *)
Definition legacy : Env :=
  mkEnv 800 600 false false false false false false None false false.

(** [new THREE.PlaneGeometry] throws. *)
Definition geometryFails : Env :=
  mkEnv 800 600 true false true false false true None false false.

(** The TSL block throws at once; the fallback material is used. *)
Definition tslFails : Env :=
  mkEnv 800 600 true false true false false false (Some 0) false false.

(** The TSL block throws once its uniforms exist (a node material that
    cannot be built); the fallback material is used. *)
Definition nodeMaterialFails : Env :=
  mkEnv 800 600 true false true false false false (Some 8) false false.

(** The engine after [initThree], before any plane is created. *)
Definition started : World := Eval vm_compute in (boot chrome).2.

Definition sdfActive : World :=
  Eval vm_compute in run [SelectVariant chrome "sdf"] started.

Definition tankActive : World :=
  Eval vm_compute in run [SelectVariant chrome "desert-tank"] started.

(** ** The claims as the specification words them

    Used to state where the code departs from them. *)

(** Selecting the active variant again changes nothing and neither
    allocates nor tears down. *)
Definition claimedIdempotent (env : Env) (planeType : string) (w : World) : Prop :=
  let w2 := (switchToPlane env planeType w).2 in
  let w3 := (switchToPlane env planeType w2).2 in
  currentActivePlane w3 = currentActivePlane w2 ∧
  activePlanes w3 = activePlanes w2 ∧
  allocated w3 = allocated w2 ∧
  calls w3 = calls w2.

(** A switch whose construction throws ends idle, with tag ["none"], an
    empty scene and a warning in the console, without throwing. *)
Definition claimedRollback (env : Env) (planeType : string) (w : World) : Prop :=
  let r := switchToPlane env planeType w in
  r.1 = Normal () ∧
  currentActivePlane r.2 = "none" ∧
  scene r.2 = [] ∧
  ∃ msg err, logEntry LevelWarn msg err ∈ drop (length (console w)) (console r.2).

(** An unknown tag leaves the lifecycle state as it was. *)
Definition claimedIgnored (env : Env) (planeType : string) (w : World) : Prop :=
  let w' := (switchToPlane env planeType w).2 in
  currentActivePlane w' = currentActivePlane w ∧
  fieldRefs w' = fieldRefs w ∧
  scene w' = scene w ∧
  activePlanes w' = activePlanes w ∧
  liveCount w' = liveCount w.



(** After the switch away from a plane, no listener that runs code of that
    plane is registered any more. *)
Definition claimedReleased (k : PlaneKind) (id : ObjId) (w : World) : Prop :=
  ∀ l, l ∈ listeners w →
    match l_callback l with
    | OnDocumentKey tank => ¬ (k = DesertTank ∧ tank = id)
    | OnPointerMove plane | OnPointerDown plane => ¬ (k = Raymarching ∧ plane = id)
    | InitControlsMethod => True
    end.

(** * The frame loop, the game controls and the button panel

    The rest of the plane classes (the accessors not used by the engine,
    [update], the jump and shoot animations of the desert tank), the
    per-frame [update] and [dispose] of [ThreeEngine], its constructor, and
    the button panel [GUIView] (guiView.ts). *)

(** ** The remaining accessors *)

(** *** TSLPlaneRaymarching: fade and maxDistance *)

Definition with_ray_fadeUniform (v : option number) (p : TSLPlaneRaymarching) : TSLPlaneRaymarching :=
  mkTSLPlaneRaymarching (ray_geometry p) (ray_material p) (ray_radiusUniform
    p) v (ray_rayFromUniform p) (ray_rayToUniform p) (ray_maxStepsUniform p)
    (ray_surfaceDistanceUniform p) (ray_maxDistanceUniform p)
    (ray_timeMultiplierUniform p) (ray_pointer p) (ray_camera p).

Definition with_ray_maxDistanceUniform (v : option number) (p : TSLPlaneRaymarching) : TSLPlaneRaymarching :=
  mkTSLPlaneRaymarching (ray_geometry p) (ray_material p) (ray_radiusUniform
    p) (ray_fadeUniform p) (ray_rayFromUniform p) (ray_rayToUniform p)
    (ray_maxStepsUniform p) (ray_surfaceDistanceUniform p) v
    (ray_timeMultiplierUniform p) (ray_pointer p) (ray_camera p).

Definition ray_fade (p : TSLPlaneRaymarching) : number :=
  numberGetter (ray_fadeUniform p) (ray_material p) "uFade" 1.0.

Definition ray_maxDistance (p : TSLPlaneRaymarching) : number :=
  numberGetter (ray_maxDistanceUniform p) (ray_material p) "uMaxDistance" 5.0.

Definition ray_set_fade : number → TSLPlaneRaymarching → TSLPlaneRaymarching :=
  raySetter ray_fadeUniform with_ray_fadeUniform "uFade" UNum.

Definition ray_set_maxDistance : number → TSLPlaneRaymarching → TSLPlaneRaymarching :=
  raySetter ray_maxDistanceUniform with_ray_maxDistanceUniform "uMaxDistance" UNum.

(** *** TSLPlaneDesertTank: the setters *)

Definition with_tank_wheelOffsetUniform (v : option Vector2) (p : TSLPlaneDesertTank) : TSLPlaneDesertTank :=
  mkTSLPlaneDesertTank (tank_geometry p) (tank_material p) v
    (tank_bulletOffsetUniform p) (tank_shellOffsetUniform p) (tank_canJump
    p) (tank_canShoot p) (tank_keyMap p).

Definition with_tank_bulletOffsetUniform (v : option number) (p : TSLPlaneDesertTank) : TSLPlaneDesertTank :=
  mkTSLPlaneDesertTank (tank_geometry p) (tank_material p)
    (tank_wheelOffsetUniform p) v (tank_shellOffsetUniform p) (tank_canJump
    p) (tank_canShoot p) (tank_keyMap p).

Definition with_tank_shellOffsetUniform (v : option number) (p : TSLPlaneDesertTank) : TSLPlaneDesertTank :=
  mkTSLPlaneDesertTank (tank_geometry p) (tank_material p)
    (tank_wheelOffsetUniform p) (tank_bulletOffsetUniform p) v (tank_canJump
    p) (tank_canShoot p) (tank_keyMap p).

Definition with_tank_canJump (v : bool) (p : TSLPlaneDesertTank) : TSLPlaneDesertTank :=
  mkTSLPlaneDesertTank (tank_geometry p) (tank_material p)
    (tank_wheelOffsetUniform p) (tank_bulletOffsetUniform p)
    (tank_shellOffsetUniform p) v (tank_canShoot p) (tank_keyMap p).

Definition with_tank_canShoot (v : bool) (p : TSLPlaneDesertTank) : TSLPlaneDesertTank :=
  mkTSLPlaneDesertTank (tank_geometry p) (tank_material p)
    (tank_wheelOffsetUniform p) (tank_bulletOffsetUniform p)
    (tank_shellOffsetUniform p) (tank_canJump p) v (tank_keyMap p).

(** The setters: [u] is the TSL uniform, [setU] stores into it. *)
Definition tankSetter {A} (u : TSLPlaneDesertTank → option A)
    (setU : option A → TSLPlaneDesertTank → TSLPlaneDesertTank)
    (name : string) (inj : A → UValue) (value : A)
    (p : TSLPlaneDesertTank) : TSLPlaneDesertTank :=
  match u p with
  | Some _ => setU (Some value) p
  | None =>
      match shaderUniform (tank_material p) name with
      | Some _ => with_tank_material (setShaderUniform (tank_material p) name (inj value)) p
      | None => p
      end
  end.

Definition tank_set_wheelOffset : Vector2 → TSLPlaneDesertTank → TSLPlaneDesertTank :=
  tankSetter tank_wheelOffsetUniform with_tank_wheelOffsetUniform "uWheelOffset" UVec2.

Definition tank_set_bulletOffset : number → TSLPlaneDesertTank → TSLPlaneDesertTank :=
  tankSetter tank_bulletOffsetUniform with_tank_bulletOffsetUniform "uBulletOffset" UNum.

Definition tank_set_shellOffset : number → TSLPlaneDesertTank → TSLPlaneDesertTank :=
  tankSetter tank_shellOffsetUniform with_tank_shellOffsetUniform "uShellOffset" UNum.

(** ** The [update] methods of the planes *)

(** [if (material.uniforms?.uTime) material.uniforms.uTime.value = time] *)
Definition setTime (time : number) (m : Material) : Material :=
  match shaderUniform m "uTime" with
  | Some _ => setShaderUniform m "uTime" (UNum time)
  | None => m
  end.

(** [TSLPlaneSDF.update(time)] *)
Definition sdf_update (time : number) (p : TSLPlaneSDF) : TSLPlaneSDF :=
  mkTSLPlaneSDF (sdf_geometry p) (setTime time (sdf_material p))
    (sdf_radiusUniform p) (sdf_fadeUniform p).

(** [TSLPlaneRaymarching.update(time)] *)
Definition ray_update (time : number) (p : TSLPlaneRaymarching) : TSLPlaneRaymarching :=
  with_ray_material (setTime time (ray_material p)) p.

(** [if (material.uniforms?.uTime) material.uniforms.uTime.value += deltaTime].
    Only numbers are ever stored in [uTime]; a vector there is left as it
    is. *)
Definition advanceTime (deltaTime : number) (m : Material) : Material :=
  match shaderUniform m "uTime" with
  | Some (UNum t) => setShaderUniform m "uTime" (UNum (t + deltaTime))
  | _ => m
  end.

(** ** Math *)

Definition Math_PI : number := 3.141592653589793.

(** [Math.min] of two numbers: NaN when either is NaN, and [-0] counts as
    smaller than [+0]. *)
Definition Math_min (a b : number) : number :=
  if is_nan a then a
  else if is_nan b then b
  else if (a <? b)%float then a
  else if (b <? a)%float then b
  else if get_sign a then a else b.

(** [Math.sin] and [Math.cos] are implementation-approximated: the
    JavaScript engine supplies them. *)
Record MathLib := mkMathLib {
  Math_sin : number → number;
  Math_cos : number → number
}.

(** ** The desert tank game *)

(** The functions handed to [requestAnimationFrame]: a closure is identified
    by the code it runs and by what it closes over. *)
Inductive FrameCallback :=
| AnimateJump (tank : ObjId) (startY startTime : number)
| AnimateShoot (tank : ObjId) (startTime : number).

(** What [performance.now()] returns at each of its call sites during one
    frame, in program order. *)
Record Clock := mkClock {
  now_shaderMaterial : number;
  now_shaderMaterialSimple : number;
  now_currentTime : number;
  now_jump : number;
  now_shoot : number
}.

(** [jump()]; the result lists the callbacks handed to
    [requestAnimationFrame]. *)
Definition tank_jump (id : ObjId) (now : number) (p : TSLPlaneDesertTank)
    : TSLPlaneDesertTank * list FrameCallback :=
  if negb (tank_canJump p) then (p, []) else
  (with_tank_canJump false p, [AnimateJump id (vy (tank_wheelOffset p)) now]).

(** [animateJump(currentTime)], with [jumpHeight = 5] and
    [jumpDuration = 500]. *)
Definition tank_animateJump (math : MathLib) (id : ObjId) (startY startTime currentTime : number)
    (p : TSLPlaneDesertTank) : TSLPlaneDesertTank * list FrameCallback :=
  let elapsed := (currentTime - startTime)%float in
  let progress := Math_min (elapsed / 500) 1 in
  let p :=
    if (progress <? 0.5)%float then
      let upProgress := (progress * 2)%float in
      tank_set_wheelOffset
        (vec2 (vx (tank_wheelOffset p))
              (startY + 5 * Math_sin math (upProgress * Math_PI * 0.5))%float) p
    else
      let downProgress := ((progress - 0.5) * 2)%float in
      tank_set_wheelOffset
        (vec2 (vx (tank_wheelOffset p))
              (startY + 5 * Math_cos math (downProgress * Math_PI * 0.5))%float) p in
  if (progress <? 1)%float then (p, [AnimateJump id startY startTime])
  else (with_tank_canJump true
          (tank_set_wheelOffset (vec2 (vx (tank_wheelOffset p)) startY) p), []).

(** [shoot()] *)
Definition tank_shoot (id : ObjId) (now : number) (p : TSLPlaneDesertTank)
    : TSLPlaneDesertTank * list FrameCallback :=
  if negb (tank_canShoot p) then (p, []) else
  (tank_set_shellOffset 0 (tank_set_bulletOffset 0 (with_tank_canShoot false p)),
   [AnimateShoot id now]).

(** [animateShoot(currentTime)], with [shootDuration = 500]. *)
Definition tank_animateShoot (id : ObjId) (startTime currentTime : number)
    (p : TSLPlaneDesertTank) : TSLPlaneDesertTank * list FrameCallback :=
  let elapsed := (currentTime - startTime)%float in
  let progress := Math_min (elapsed / 500) 1 in
  let p := tank_set_shellOffset (25 * progress)
             (tank_set_bulletOffset (20 * progress) p) in
  if (progress <? 1)%float then (p, [AnimateShoot id startTime])
  else (with_tank_canShoot true p, []).

(** The names every plain object inherits from [Object.prototype]: methods,
    and the accessor ["__proto__"], which reads as the prototype itself. *)
Definition inheritedNames : list string :=
  ["constructor"; "hasOwnProperty"; "isPrototypeOf"; "propertyIsEnumerable";
   "toLocaleString"; "toString"; "valueOf"; "__proto__";
   "__defineGetter__"; "__defineSetter__"; "__lookupGetter__"; "__lookupSetter__"].

(** [this.keyMap[code]] as a condition: the own property when the key was
    seen; otherwise [undefined], so the key is not down, unless [code] is
    a name that [keyMap] inherits, which reads as a function or an object
    and is truthy.  None of the codes [update] reads is such a name. *)
Definition keyDown (p : TSLPlaneDesertTank) (code : string) : bool :=
  match tank_keyMap p !! code with
  | Some down => down
  | None => bool_decide (code ∈ inheritedNames)
  end.

(** [TSLPlaneDesertTank.update(deltaTime)] *)
Definition tank_update (clock : Clock) (id : ObjId) (deltaTime : number)
    (p : TSLPlaneDesertTank) : TSLPlaneDesertTank * list FrameCallback :=
  let '(p, jumps) :=
    if keyDown p "KeyW" || keyDown p "ArrowUp"
    then (if tank_canJump p then tank_jump id (now_jump clock) p else (p, []))
    else (p, []) in
  let p :=
    if keyDown p "KeyA" || keyDown p "ArrowLeft"
    then tank_set_wheelOffset
           (vec2 (vx (tank_wheelOffset p) - 4 * deltaTime)%float (vy (tank_wheelOffset p))) p
    else p in
  let p :=
    if keyDown p "KeyD" || keyDown p "ArrowRight"
    then tank_set_wheelOffset
           (vec2 (vx (tank_wheelOffset p) + 4 * deltaTime)%float (vy (tank_wheelOffset p))) p
    else p in
  let '(p, shots) :=
    if keyDown p "Space"
    then (if tank_canShoot p then tank_shoot id (now_shoot clock) p else (p, []))
    else (p, []) in
  (with_tank_material (advanceTime deltaTime (tank_material p)) p, jumps ++ shots).

(** The browser runs one callback of the animation frame; an identity
    always names a stored object. *)
Definition runFrameCallback (math : MathLib) (currentTime : number) (cb : FrameCallback)
    (w : World) : World * list FrameCallback :=
  match cb with
  | AnimateJump id startY startTime =>
      match tanks w !! id with
      | Some p =>
          let r := tank_animateJump math id startY startTime currentTime p in
          (set_tanks (<[id := r.1]> (tanks w)) w, r.2)
      | None => (w, [])
      end
  | AnimateShoot id startTime =>
      match tanks w !! id with
      | Some p =>
          let r := tank_animateShoot id startTime currentTime p in
          (set_tanks (<[id := r.1]> (tanks w)) w, r.2)
      | None => (w, [])
      end
  end.

(** The callbacks of one animation frame run in request order; what they
    request is for the next frame. *)
Fixpoint runFrameCallbacks (math : MathLib) (currentTime : number)
    (cbs : list FrameCallback) (w : World) : World * list FrameCallback :=
  match cbs with
  | [] => (w, [])
  | cb :: cbs =>
      let r := runFrameCallback math currentTime cb w in
      let rs := runFrameCallbacks math currentTime cbs r.1 in
      (rs.1, r.2 ++ rs.2)
  end.

(** ** ThreeEngine.update *)

(** [uniforms.uTime.value = time] on one of the two test materials. *)
Definition setTimeUniform (time : number) (u : gmap string UValue) : Js (gmap string UValue) :=
  match u !! "uTime" with
  | Some _ => mret (<["uTime" := UNum time]> u)
  | None => throw (TypeError "uniforms.uTime is undefined")
  end.

(** [update()]; the result lists the callbacks handed to
    [requestAnimationFrame] on the way.  [this.controls] has no part in
    the world and [this.cube] is never assigned.  [wave_update] stands for
    [TSLPlane.update], whose file is not part of the sources. *)
Definition update (wave_update : number → TSLPlane → TSLPlane) (clock : Clock)
    : Js (list FrameCallback) :=
  sm ← gets shaderMaterial;
  (match sm with
   | Some u =>
       u' ← setTimeUniform (now_shaderMaterial clock * 0.01)%float u;
       modify (set_shaderMaterial (Some u'))
   | None => mret tt
   end);;
  sms ← gets shaderMaterialSimple;
  (match sms with
   | Some u =>
       u' ← setTimeUniform (now_shaderMaterialSimple clock * 0.01)%float u;
       modify (set_shaderMaterialSimple (Some u'))
   | None => mret tt
   end);;
  let currentTime := (now_currentTime clock * 0.001)%float in
  let deltaTime := (1 / 60)%float in
  active ← gets currentActivePlane;
  if bool_decide (active = "wave") then
    f ← gets tslPlane;
    match f with
    | Some id =>
        modify (λ w, set_waves (alter (wave_update currentTime) id (waves w)) w);;
        mret []
    | None => mret []
    end
  else if bool_decide (active = "sdf") then
    f ← gets tslPlaneSDF;
    match f with
    | Some id =>
        modify (λ w, set_sdfs (alter (sdf_update currentTime) id (sdfs w)) w);;
        mret []
    | None => mret []
    end
  else if bool_decide (active = "desert-tank") then
    f ← gets tslDesertTank;
    match f with
    | Some id =>
        p ← gets (λ w, tanks w !! id);
        match p with
        | Some p =>
            let r := tank_update clock id deltaTime p in
            modify (λ w, set_tanks (<[id := r.1]> (tanks w)) w);;
            mret r.2
        | None => mret []
        end
    | None => mret []
    end
  else if bool_decide (active = "raymarching") then
    f ← gets raymarchPlane;
    match f with
    | Some id =>
        modify (λ w, set_rays (alter (ray_update deltaTime) id (rays w)) w);;
        mret []
    | None => mret []
    end
  else mret [].

(** ** GUIView *)

(** The three style properties of a button that the panel changes. *)
Record ButtonStyle := buttonStyle {
  background : string;
  borderColor : string;
  color : string
}.

Record GUIView := mkGUIView {
  (** [this.params.activePlane] *)
  gui_activePlane : string;
  (** [this.buttons], by plane type *)
  gui_buttons : gmap string ButtonStyle;
  (** [this.gui.parentNode]: the panel is in the document *)
  gui_attached : bool
}.

(** The [planeTypes] of [initGUI]. *)
Definition planeTypes : list string :=
  ["wave"; "sdf"; "desert-tank"; "raymarching"; "none"].

(** A button as [initGUI] creates it, which is also how [setActivePlane]
    styles the buttons of the other plane types. *)
Definition idleStyle : ButtonStyle :=
  buttonStyle "rgba(255,255,255,0.1)" "rgba(255,255,255,0.3)" "white".

(** The button of the active plane type. *)
Definition activeStyle : ButtonStyle :=
  buttonStyle "rgba(100,200,255,0.3)" "rgba(100,200,255,0.8)" "rgba(100,200,255,1)".

(** [console.log(threeEngine)]: the console shows the object; the line
    stands for it. *)
Definition engineDump : string := "ThreeEngine".

(** The [forEach] over [Object.entries(this.buttons)] of [setActivePlane]. *)
Definition restyle (planeType : string) (buttons : gmap string ButtonStyle)
    : gmap string ButtonStyle :=
  map_imap (λ type _, Some (if bool_decide (type = planeType) then activeStyle else idleStyle))
    buttons.

(** [setActivePlane(planeType)]: the panel is updated before the engine is
    called, and stays so when the engine throws. *)
Definition setActivePlane (env : Env) (planeType : string) (this : GUIView) (w : World)
    : Completion unit * (GUIView * World) :=
  let this := mkGUIView planeType (restyle planeType (gui_buttons this)) (gui_attached this) in
  let r := (consoleLog engineDump;;
            onPlaneChange env planeType;;
            consoleLog ("🎮 Switched to plane: " +:+ planeType)) w in
  (r.1, (this, r.2)).

(** [new GUIView(app, threeEngine)]: the constructor and [initGUI]. *)
Definition new_GUIView (env : Env) (w : World) : Completion unit * (GUIView * World) :=
  let w := (consoleLog engineDump w).2 in
  let this := mkGUIView "wave" (list_to_map ((λ type, (type, idleStyle)) <$> planeTypes)) true in
  setActivePlane env (gui_activePlane this) this w.

(** [getCurrentPlaneType()] *)
Definition getCurrentPlaneType (this : GUIView) : string := gui_activePlane this.

(** [GUIView.dispose()] *)
Definition GUIView_dispose (this : GUIView) : GUIView :=
  mkGUIView (gui_activePlane this) (gui_buttons this) false.

(** The listeners [initGUI] gives each button. *)
Inductive ButtonEvent := MouseEnter | MouseLeave | Click.

Definition onMouseEnter (type : string) (this : GUIView) : GUIView :=
  mkGUIView (gui_activePlane this)
    (alter (λ s, buttonStyle "rgba(255,255,255,0.2)" "rgba(255,255,255,0.5)" (color s))
       type (gui_buttons this))
    (gui_attached this).

Definition onMouseLeave (type : string) (this : GUIView) : GUIView :=
  if bool_decide (gui_activePlane this ≠ type) then
    mkGUIView (gui_activePlane this)
      (alter (λ s, buttonStyle "rgba(255,255,255,0.1)" "rgba(255,255,255,0.3)" (color s))
         type (gui_buttons this))
      (gui_attached this)
  else this.

Definition onButton (env : Env) (ev : ButtonEvent) (type : string) (this : GUIView) (w : World)
    : Completion unit * (GUIView * World) :=
  match ev with
  | MouseEnter => (Normal (), (onMouseEnter type this, w))
  | MouseLeave => (Normal (), (onMouseLeave type this, w))
  | Click => setActivePlane env type this w
  end.

(** ** The page *)

(** The engine together with what lives beside it in the browser: the
    panel object (kept alive by the listeners of its buttons from the moment
    it is constructed), whether the field [gui] of the engine refers to it,
    and the callbacks requested for the next animation frame. *)
Record Page := mkPage {
  engine : World;
  panel : option GUIView;
  gui : bool;
  animationFrames : list FrameCallback
}.

(** [new ThreeEngine(app)].  [initLights], [initGrid] and [initControls]
    add nothing that the world records. *)
Definition new_ThreeEngine (env : Env) : Completion unit * Page :=
  match boot env with
  | (Throw e, w) => (Throw e, mkPage w None false [])
  | (Normal _, w) =>
      (* initGUI *)
      let w := (consoleLog "xxxxxx this" w).2 in
      match new_GUIView env w with
      | (Throw e, (g, w)) => (Throw e, mkPage w (Some g) false [])
      | (Normal _, (g, w)) =>
          let r := switchToPlane env "raymarching" w in
          (r.1, mkPage r.2 (Some g) true [])
      end
  end.

(** [ThreeEngine.dispose()] *)
Definition dispose (pg : Page) : Completion unit * Page :=
  match cleanupCurrentPlane (engine pg) with
  | (Throw e, w) => (Throw e, mkPage w (panel pg) (gui pg) (animationFrames pg))
  | (Normal _, w) =>
      (Normal (),
       mkPage w (if gui pg then GUIView_dispose <$> panel pg else panel pg)
         (gui pg) (animationFrames pg))
  end.

(** What happens on the page between two renders. *)
Inductive PageCommand :=
| Engine (c : Command)
| Button (env : Env) (ev : ButtonEvent) (type : string)
| Update (wave_update : number → TSLPlane → TSLPlane) (clock : Clock)
| AnimationFrame (math : MathLib) (currentTime : number)
| DisposeEngine.

(** A button receives events while the panel is in the document. *)
Definition stepPage (pg : Page) (c : PageCommand) : Page :=
  match c with
  | Engine c => mkPage (step (engine pg) c) (panel pg) (gui pg) (animationFrames pg)
  | Button env ev type =>
      match panel pg with
      | Some g =>
          if gui_attached g && bool_decide (type ∈ planeTypes) then
            let r := onButton env ev type g (engine pg) in
            mkPage r.2.2 (Some r.2.1) (gui pg) (animationFrames pg)
          else pg
      | None => pg
      end
  | Update wave_update clock =>
      match update wave_update clock (engine pg) with
      | (Normal requested, w) =>
          mkPage w (panel pg) (gui pg) (animationFrames pg ++ requested)
      | (Throw _, w) => mkPage w (panel pg) (gui pg) (animationFrames pg)
      end
  | AnimationFrame math currentTime =>
      let r := runFrameCallbacks math currentTime (animationFrames pg) (engine pg) in
      mkPage r.1 (panel pg) (gui pg) r.2
  | DisposeEngine => (dispose pg).2
  end.

Definition runPage (cs : list PageCommand) (pg : Page) : Page := foldl stepPage pg cs.

(** A frame update is as good as the [update] of the wave plane it calls:
    the class is not part of the sources, and what is asked of it is that
    updating a wave plane neither disposes nor revives it. *)
Definition keepsResources (c : PageCommand) : Prop :=
  match c with
  | Update wave_update _ => ∀ t p, isLive (wave_update t p) = isLive p
  | _ => True
  end.

(** ** More sample worlds *)

(** The raymarching plane on its fallback material. *)
Definition rayFallbackActive : World :=
  Eval vm_compute in run [SelectVariant tslFails "raymarching"] started.

(** A desert tank on the TSL path with KeyW and KeyD held. *)
Definition drivingTank : TSLPlaneDesertTank :=
  tank_onDocumentKey "keydown" "KeyD"
    (tank_onDocumentKey "keydown" "KeyW" (tankObject chrome)).

(** The engine with that tank active. *)
Definition tankDriving : World :=
  run [Dispatch chrome Document "keydown" (KeyboardEvent "KeyW");
       Dispatch chrome Document "keydown" (KeyboardEvent "KeyD")] tankActive.

(** ** Observations on the new parts *)

(** The eight parameters of a raymarching plane, as its getters return
    them. *)
Record RaySettings := raySettings {
  s_radius : number;
  s_fade : number;
  s_maxSteps : number;
  s_surfaceDistance : number;
  s_maxDistance : number;
  s_timeMultiplier : number;
  s_rayFrom : Vector2;
  s_rayTo : Vector2
}.

Definition ray_settings (p : TSLPlaneRaymarching) : RaySettings :=
  raySettings (ray_radius p) (ray_fade p) (ray_maxSteps p) (ray_surfaceDistance p)
    (ray_maxDistance p) (ray_timeMultiplier p) (ray_rayFrom p) (ray_rayTo p).

(** A parameter is backed when its setter has somewhere to store it: the
    TSL uniform, or else a uniform of the fallback material. *)
Definition backed {A} (u : option A) (m : Material) (name : string) : bool :=
  match u, shaderUniform m name with
  | None, None => false
  | _, _ => true
  end.

(** The three parameters of a desert tank, as its getters return them. *)
Record TankSettings := tankSettings {
  s_wheelOffset : Vector2;
  s_bulletOffset : number;
  s_shellOffset : number
}.

Definition tank_settings (p : TSLPlaneDesertTank) : TankSettings :=
  tankSettings (tank_wheelOffset p) (tank_bulletOffset p) (tank_shellOffset p).

(** The tiers [initThree] can end with, best first. *)
Definition negotiated (env : Env) : option Tier :=
  if preferredAvailable env then Some WebGPU
  else if secondaryAvailable env then Some WebGL2
  else if webglRendererThrows env then None
  else Some WebGL.

(** What the key closure behind one listener does to the store of desert
    tanks when it receives a key event. *)
Definition keyStep (type code : string) (ts : list TSLPlaneDesertTank) (l : Listener)
    : list TSLPlaneDesertTank :=
  match l_callback l with
  | OnDocumentKey id => alter (tank_onDocumentKey type code) id ts
  | _ => ts
  end.

(** The listeners a plane constructor (or, for the raymarching plane,
    [setupMouseInteraction]) registers for the closures of the object with
    identity [id]. *)
Definition closureListeners (k : PlaneKind) (id : ObjId) : list Listener :=
  match k with
  | DesertTank =>
      [mkListener Document "keydown" (OnDocumentKey id);
       mkListener Document "keyup" (OnDocumentKey id)]
  | Raymarching =>
      [mkListener DomElement "pointermove" (OnPointerMove id);
       mkListener DomElement "pointerdown" (OnPointerDown id)]
  | _ => []
  end.

(** From [w] to [w'] no closure was unregistered, no store lost an object,
    and every object added to a store has its listeners registered. *)
Definition Accumulates (w w' : World) : Prop :=
  (∀ l, l ∈ listeners w → l_callback l ≠ InitControlsMethod → l ∈ listeners w') ∧
  (∀ k, storeLength k w ≤ storeLength k w') ∧
  (∀ k id, storeLength k w ≤ id → id < storeLength k w' →
           closureListeners k id ⊆ listeners w').

(** No field of the engine refers to a plane. *)
Definition holdsNothing (w : World) : Prop :=
  tslPlane w = None ∧ tslPlaneSDF w = None ∧ tslDesertTank w = None ∧
  raymarchPlane w = None.

(** * Properties *)

(** Unfolding of the monad and of the record updates, so that a world is
    always displayed by its fields. *)
Ltac world_norm :=
  cbv beta iota zeta delta
    [set_forceRenderer set_scene set_cameraAspect set_renderer set_shaderMaterial
     set_shaderMaterialSimple set_tslPlane set_tslPlaneSDF set_tslDesertTank
     set_raymarchPlane set_currentActivePlane set_waves set_sdfs set_tanks
     set_rays set_listeners set_console set_calls
     forceRenderer scene cameraAspect renderer shaderMaterial
     shaderMaterialSimple tslPlane tslPlaneSDF tslDesertTank raymarchPlane
     currentActivePlane waves sdfs tanks rays listeners console calls
     mbind mret Js_bind Js_ret throw tryCatch gets modify
     consoleLog consoleWarn consoleError record fst snd
     announced switched attached] in *.

Ltac world_goal :=
  cbv beta iota zeta delta
    [set_forceRenderer set_scene set_cameraAspect set_renderer set_shaderMaterial
     set_shaderMaterialSimple set_tslPlane set_tslPlaneSDF set_tslDesertTank
     set_raymarchPlane set_currentActivePlane set_waves set_sdfs set_tanks
     set_rays set_listeners set_console set_calls
     forceRenderer scene cameraAspect renderer shaderMaterial
     shaderMaterialSimple tslPlane tslPlaneSDF tslDesertTank raymarchPlane
     currentActivePlane waves sdfs tanks rays listeners console calls
     fst snd announced switched attached].

Ltac destruct_world w :=
  destruct w as [?forced ?children ?aspect ?rdr ?sm ?sms ?wave ?sdf ?tank ?ray
                 ?tag ?waveStore ?sdfStore ?tankStore ?rayStore ?registered
                 ?lines ?trace].

Ltac destruct_consistent H :=
  destruct H as [?Hrenderer ?Hsm ?Hsms ?Hwaves ?Hsdfs ?Htanks ?Hrays ?Hlive ?Hscene].

Ltac destruct_vacant H :=
  destruct H as [?Hrenderer ?Hsm ?Hsms ?Hwave ?Hsdf ?Htank ?Hray
                 ?Hwaves ?Hsdfs ?Htanks ?Hrays ?Hscene].

Ltac ctor_unfold :=
  unfold construct, new_TSLPlane, new_TSLPlaneSDF, new_TSLPlaneDesertTank,
    new_TSLPlaneRaymarching, tank_init, tank_initControls, initGeometry,
    initMaterial, newShaderMaterial, sceneAdd, ray_setupMouseInteraction,
    addEventListener, constructionFails, builtMaterial in *.

Lemma alter_snoc {A} (f : A → A) (l : list A) (x : A) :
  alter f (length l) (l ++ [x]) = l ++ [f x].
Proof. induction l as [|y l IH]; simpl; [done|]. f_equal. exact IH. Qed.

Lemma cleanupCurrentPlane_eq w : cleanupCurrentPlane w = (Normal (), cleaned w).
Proof.
  destruct w as [fr sc ca r sm sms p1 p2 p3 p4 tag ws ss ts rs ls co cs].
  unfold cleanupCurrentPlane, cleanupField, disposeWave, disposeSDF,
    disposeDesertTank, disposeRaymarching, sceneRemove, removeEventListener,
    cleaned, teardownCalls, fieldRefs, removeAll, disposeAt.
  destruct p1, p2, p3, p4; world_norm; simpl; rewrite <- ?app_assoc; simpl;
    rewrite ?app_nil_r; reflexivity.
Qed.

Lemma createWavePlane_ok env w :
  wavePlaneThrows env = false →
  createWavePlane env w =
    (Normal (),
     set_console (console w ++ [logEntry LevelLog "✅ Wave plane created" None])
       (attached Wave (length (waves w))
          (set_tslPlane (Some (length (waves w)))
             (set_waves (waves w ++ [waveObject]) w)))).
Proof.
  intros He. destruct_world w.
  unfold createWavePlane; ctor_unfold.
  rewrite He. world_norm. rewrite <- ?app_assoc. reflexivity.
Qed.

Lemma createWavePlane_failed env w :
  wavePlaneThrows env = true →
  createWavePlane env w =
    (Normal (),
     set_console (console w ++
         [logEntry LevelError "❌ Failed to create wave plane:"
            (Some (LibraryError "TSLPlane"))])
       (set_calls (calls w ++ [Construct Wave None]) w)).
Proof.
  intros He. destruct_world w.
  unfold createWavePlane; ctor_unfold.
  rewrite He. world_norm. reflexivity.
Qed.

Lemma createSDFPlane_ok env w :
  constructionFails env = false →
  ∃ entries,
    createSDFPlane env w =
      (Normal (),
       set_console (console w ++ entries)
         (attached Sdf (length (sdfs w))
            (set_tslPlaneSDF (Some (length (sdfs w)))
               (set_sdfs (sdfs w ++ [sdfObject env]) w)))).
Proof.
  destruct env as [iw ih gpu gput gl2 gl2t glt gt tsl smt wt]. destruct_world w.
  unfold createSDFPlane, sdfObject; ctor_unfold.
  cbv beta iota delta [geometryThrows tslThrowsAfter shaderMaterialThrows].
  intros He. destruct gt; [done|]. destruct tsl; simpl in He; subst;
    world_norm; rewrite !alter_snoc, <- ?app_assoc; eexists; reflexivity.
Qed.

Lemma createSDFPlane_failed env w :
  constructionFails env = true →
  ∃ entries,
    createSDFPlane env w =
      (Normal (),
       set_console (console w ++ entries)
         (set_calls (calls w ++ [Construct Sdf None]) w)) ∧
    loggedAsError entries.
Proof.
  destruct env as [iw ih gpu gput gl2 gl2t glt gt tsl smt wt]. destruct_world w.
  unfold createSDFPlane; ctor_unfold.
  cbv beta iota delta [geometryThrows tslThrowsAfter shaderMaterialThrows].
  intros He. destruct gt; [|destruct tsl; simpl in He; [subst|done]];
    world_norm; rewrite <- ?app_assoc; simpl app;
    (eexists; split; [reflexivity|]);
    (split; [by eexists _, _|repeat constructor; discriminate]).
Qed.

Lemma createDesertTankPlane_ok env w :
  constructionFails env = false →
  ∃ entries,
    createDesertTankPlane env w =
      (Normal (),
       set_console (console w ++ entries)
         (attached DesertTank (length (tanks w))
            (set_tslDesertTank (Some (length (tanks w)))
               (set_listeners
                  (register (mkListener Document "keyup" (OnDocumentKey (length (tanks w))))
                     (register (mkListener Document "keydown" (OnDocumentKey (length (tanks w))))
                        (listeners w)))
                  (set_tanks (tanks w ++ [tankObject env]) w))))).
Proof.
  destruct env as [iw ih gpu gput gl2 gl2t glt gt tsl smt wt]. destruct_world w.
  unfold createDesertTankPlane, tankObject; ctor_unfold.
  cbv beta iota delta [geometryThrows tslThrowsAfter shaderMaterialThrows].
  intros He. destruct gt; [done|]. destruct tsl; simpl in He; subst;
    world_norm;
    rewrite <- ?app_assoc; eexists; reflexivity.
Qed.

Lemma createDesertTankPlane_failed env w :
  constructionFails env = true →
  ∃ entries,
    createDesertTankPlane env w =
      (Normal (),
       set_console (console w ++ entries)
         (set_calls (calls w ++ [Construct DesertTank None]) w)) ∧
    loggedAsError entries.
Proof.
  destruct env as [iw ih gpu gput gl2 gl2t glt gt tsl smt wt]. destruct_world w.
  unfold createDesertTankPlane; ctor_unfold.
  cbv beta iota delta [geometryThrows tslThrowsAfter shaderMaterialThrows].
  intros He. destruct gt; [|destruct tsl; simpl in He; [subst|done]];
    world_norm; rewrite <- ?app_assoc; simpl app;
    (eexists; split; [reflexivity|]);
    (split; [by eexists _, _|repeat constructor; discriminate]).
Qed.

Lemma createRayMarchingPlane_ok env w :
  constructionFails env = false → is_Some (renderer w) →
  ∃ entries,
    createRayMarchingPlane env w =
      (Normal (),
       set_console (console w ++ entries)
         (set_raymarchPlane (Some (length (rays w)))
            (set_listeners
               (register (mkListener DomElement "pointerdown" (OnPointerDown (length (rays w))))
                  (register (mkListener DomElement "pointermove" (OnPointerMove (length (rays w))))
                     (listeners w)))
               (attached Raymarching (length (rays w))
                  (set_rays (rays w ++ [rayObject env]) w))))).
Proof.
  destruct env as [iw ih gpu gput gl2 gl2t glt gt tsl smt wt]. destruct_world w.
  unfold createRayMarchingPlane, rayObject; ctor_unfold.
  cbv beta iota delta [geometryThrows tslThrowsAfter shaderMaterialThrows].
  intros He [r Hr]. simpl in Hr. subst. destruct gt; [done|].
  destruct tsl; simpl in He; subst;
    world_norm;
    rewrite !alter_snoc, <- ?app_assoc; eexists; reflexivity.
Qed.

Lemma createRayMarchingPlane_failed env w :
  constructionFails env = true →
  ∃ entries err,
    createRayMarchingPlane env w =
      (Throw err,
       set_console (console w ++ entries)
         (set_calls (calls w ++ [Construct Raymarching None]) w)).
Proof.
  destruct env as [iw ih gpu gput gl2 gl2t glt gt tsl smt wt]. destruct_world w.
  unfold createRayMarchingPlane; ctor_unfold.
  cbv beta iota delta [geometryThrows tslThrowsAfter shaderMaterialThrows].
  intros He. destruct gt.
  - exists [], (LibraryError "PlaneGeometry"). world_norm. by rewrite app_nil_r.
  - destruct tsl; simpl in He; [|done]. subst. world_norm.
    eexists _, _. rewrite <- ?app_assoc; reflexivity.
Qed.

(** ** Stores and liveness *)

Section Store.
Context {A : Type} `{Resource A}.

Lemma liveIn_app (s1 s2 : list A) : liveIn (s1 ++ s2) = liveIn s1 + liveIn s2.
Proof. unfold liveIn. by rewrite List.filter_app, length_app. Qed.

Lemma liveIn_dead (store : list A) : ownedBy store None → liveIn store = 0.
Proof.
  unfold liveIn. induction store as [|p store IH]; intros Hown; [done|].
  simpl. destruct (isLive p) eqn:Hp.
  - by specialize (Hown 0 p eq_refl Hp).
  - apply IH. intros i q Hq Hlive. by specialize (Hown (S i) q Hq Hlive).
Qed.

Lemma ownedBy_dispose (d : A → A) (store : list A) (field : option ObjId) :
  (∀ p, isLive (d p) = false) →
  ownedBy store field → ownedBy (disposeAt d field store) None.
Proof.
  intros Hd Hown i p Hi Hp. destruct field as [id|]; simpl in Hi.
  - destruct (decide (id = i)) as [->|Hne].
    + rewrite list_lookup_alter_eq in Hi.
      apply fmap_Some in Hi as (q & _ & ->). by rewrite Hd in Hp.
    + rewrite list_lookup_alter_ne in Hi by done.
      specialize (Hown i p Hi Hp). congruence.
  - exact (Hown i p Hi Hp).
Qed.

Lemma ownedBy_alloc (store : list A) (p : A) :
  ownedBy store None → ownedBy (store ++ [p]) (Some (length store)).
Proof.
  intros Hown i q Hi Hq. destruct (decide (i < length store)) as [Hlt|Hge].
  - rewrite lookup_app_l in Hi by done. by specialize (Hown i q Hi Hq).
  - apply lookup_lt_Some in Hi as Hlen. rewrite length_app in Hlen. simpl in Hlen.
    f_equal. lia.
Qed.

Lemma ownedBy_alter (f : A → A) (i : ObjId) (store : list A) (field : option ObjId) :
  (∀ p, isLive (f p) = isLive p) →
  ownedBy store field → ownedBy (alter f i store) field.
Proof.
  intros Hf Hown j p Hj Hp. destruct (decide (i = j)) as [->|Hne].
  - rewrite list_lookup_alter_eq in Hj.
    apply fmap_Some in Hj as (q & Hq & ->). rewrite Hf in Hp. eauto.
  - rewrite list_lookup_alter_ne in Hj by done. eauto.
Qed.

Lemma liveIn_alter (f : A → A) (i : ObjId) (store : list A) :
  (∀ p, isLive (f p) = isLive p) → liveIn (alter f i store) = liveIn store.
Proof.
  intros Hf. unfold liveIn. revert i.
  induction store as [|p store IH]; intros [|i]; simpl; rewrite ?Hf; try done;
    destruct (isLive p); simpl; try done; [f_equal|]; apply IH.
Qed.
End Store.

(** ** Liveness of the plane objects *)

Lemma setShaderUniform_disposed m name v :
  materialDisposed (setShaderUniform m name v) = materialDisposed m.
Proof. by destruct m. Qed.

Lemma wave_dispose_dead p : isLive (wave_dispose p) = false.
Proof. done. Qed.

Lemma sdf_dispose_dead p : isLive (sdf_dispose p) = false.
Proof. destruct p as [g [] ? ?]; done. Qed.

Lemma tank_dispose_dead p : isLive (tank_dispose p) = false.
Proof. destruct p as [g [] ? ? ? ? ? ?]; done. Qed.

Lemma ray_dispose_dead p : isLive (ray_dispose p) = false.
Proof. destruct p as [g [] ? ? ? ? ? ? ? ? ? ?]; done. Qed.

Lemma sdfObject_live env : isLive (sdfObject env) = true.
Proof.
  unfold sdfObject, sdf_set_fade, sdf_set_radius, builtMaterial, assigned.
  destruct (tslThrowsAfter env); simpl; repeat case_bool_decide; simpl;
    repeat (match goal with |- context [match ?x with _ => _ end] => destruct x end; simpl);
    done.
Qed.

Lemma tankObject_live env : isLive (tankObject env) = true.
Proof. unfold tankObject, builtMaterial. by destruct (tslThrowsAfter env). Qed.

Lemma raySetter_live {A} u setU name (inj : A → UValue) v p :
  (∀ o q, isLive (setU o q) = isLive q) →
  isLive (raySetter u setU name inj v p) = isLive p.
Proof.
  intros HsetU. unfold raySetter. destruct (u p); [apply HsetU|].
  destruct (shaderUniform _ _); [|done].
  destruct p as [g m ? ? ? ? ? ? ? ? ? ?]. unfold isLive, ray_resource. simpl.
  by rewrite setShaderUniform_disposed.
Qed.

Lemma ray_set_radius_live v p : isLive (ray_set_radius v p) = isLive p.
Proof. apply raySetter_live. by intros o []. Qed.
Lemma ray_set_maxSteps_live v p : isLive (ray_set_maxSteps v p) = isLive p.
Proof. apply raySetter_live. by intros o []. Qed.
Lemma ray_set_surfaceDistance_live v p : isLive (ray_set_surfaceDistance v p) = isLive p.
Proof. apply raySetter_live. by intros o []. Qed.
Lemma ray_set_timeMultiplier_live v p : isLive (ray_set_timeMultiplier v p) = isLive p.
Proof. apply raySetter_live. by intros o []. Qed.
Lemma ray_set_rayFrom_live v p : isLive (ray_set_rayFrom v p) = isLive p.
Proof. apply raySetter_live. by intros o []. Qed.
Lemma ray_set_rayTo_live v p : isLive (ray_set_rayTo v p) = isLive p.
Proof. apply raySetter_live. by intros o []. Qed.

Lemma rayObject_live env : isLive (rayObject env) = true.
Proof.
  unfold rayObject.
  rewrite ray_set_timeMultiplier_live, ray_set_surfaceDistance_live,
    ray_set_maxSteps_live, ray_set_radius_live.
  unfold rayConstructed, builtMaterial. by destruct (tslThrowsAfter env).
Qed.

Lemma tank_onDocumentKey_live type code p :
  isLive (tank_onDocumentKey type code p) = isLive p.
Proof. unfold tank_onDocumentKey. case_bool_decide; by destruct p. Qed.

Lemma ray_onPointerMove_live env x y hits p :
  isLive (ray_onPointerMove env x y hits p) = isLive p.
Proof.
  unfold ray_onPointerMove. destruct hits; [by destruct p|].
  rewrite ray_set_rayTo_live. by destruct p.
Qed.

Lemma ray_onPointerDown_live p : isLive (ray_onPointerDown p) = isLive p.
Proof. apply ray_set_rayFrom_live. Qed.

(** ** The lifecycle *)

Lemma createWavePlane_normal env w :
  ∃ w', createWavePlane env w = (Normal (), w').
Proof.
  destruct (wavePlaneThrows env) eqn:He.
  - rewrite createWavePlane_failed by done. by eexists.
  - rewrite createWavePlane_ok by done. by eexists.
Qed.

Lemma createSDFPlane_normal env w :
  ∃ w', createSDFPlane env w = (Normal (), w').
Proof.
  destruct (constructionFails env) eqn:He.
  - destruct (createSDFPlane_failed env w He) as (? & -> & _). by eexists.
  - destruct (createSDFPlane_ok env w He) as (? & ->). by eexists.
Qed.

Lemma createDesertTankPlane_normal env w :
  ∃ w', createDesertTankPlane env w = (Normal (), w').
Proof.
  destruct (constructionFails env) eqn:He.
  - destruct (createDesertTankPlane_failed env w He) as (? & -> & _). by eexists.
  - destruct (createDesertTankPlane_ok env w He) as (? & ->). by eexists.
Qed.

(** [switchToPlane] announces, cleans up, creates, and notes the switch
    unless the tag is unknown or the raymarching constructor throws. *)
Lemma switchToPlane_eq env planeType w :
  switchToPlane env planeType w =
    let w1 := cleaned (announced planeType w) in
    match kindOfTag planeType with
    | Some Wave => (Normal (), switched planeType (createWavePlane env w1).2)
    | Some Sdf => (Normal (), switched planeType (createSDFPlane env w1).2)
    | Some DesertTank =>
        (Normal (), switched planeType (createDesertTankPlane env w1).2)
    | Some Raymarching =>
        match createRayMarchingPlane env w1 with
        | (Normal _, w2) => (Normal (), switched planeType w2)
        | (Throw e, w2) => (Throw e, w2)
        end
    | None =>
        if bool_decide (planeType = "none")
        then (Normal (), switched planeType w1)
        else (Normal (),
              set_console (console w1 ++
                [logEntry LevelWarn ("Unknown plane type: " +:+ planeType) None]) w1)
    end.
Proof.
  unfold switchToPlane, kindOfTag.
  cbv beta iota zeta delta [mbind mret Js_bind Js_ret modify consoleLog consoleWarn].
  change (set_console _ w) with (announced planeType w).
  rewrite cleanupCurrentPlane_eq.
  unfold switched.
  repeat case_bool_decide; cbv beta iota.
  - by destruct (createWavePlane_normal env (cleaned (announced planeType w))) as [w2 ->].
  - by destruct (createSDFPlane_normal env (cleaned (announced planeType w))) as [w2 ->].
  - by destruct (createDesertTankPlane_normal env (cleaned (announced planeType w)))
      as [w2 ->].
  - by destruct (createRayMarchingPlane env _) as [[[]|e] w2].
  - generalize (cleaned (announced planeType w)). intros w1. exact eq_refl.
  - generalize (cleaned (announced planeType w)). intros w1. exact eq_refl.
Qed.

Lemma Consistent_ext w w' :
  renderer w' = renderer w → shaderMaterial w' = shaderMaterial w →
  shaderMaterialSimple w' = shaderMaterialSimple w →
  tslPlane w' = tslPlane w → tslPlaneSDF w' = tslPlaneSDF w →
  tslDesertTank w' = tslDesertTank w → raymarchPlane w' = raymarchPlane w →
  waves w' = waves w → sdfs w' = sdfs w → tanks w' = tanks w → rays w' = rays w →
  scene w' = scene w →
  Consistent w → Consistent w'.
Proof.
  intros E1 E2 E3 E4 E5 E6 E7 E8 E9 E10 E11 E12 [].
  split; unfold liveCount, fieldRefs in *;
    rewrite ?E1, ?E2, ?E3, ?E4, ?E5, ?E6, ?E7, ?E8, ?E9, ?E10, ?E11, ?E12; done.
Qed.

Lemma Vacant_ext w w' :
  renderer w' = renderer w → shaderMaterial w' = shaderMaterial w →
  shaderMaterialSimple w' = shaderMaterialSimple w →
  tslPlane w' = tslPlane w → tslPlaneSDF w' = tslPlaneSDF w →
  tslDesertTank w' = tslDesertTank w → raymarchPlane w' = raymarchPlane w →
  waves w' = waves w → sdfs w' = sdfs w → tanks w' = tanks w → rays w' = rays w →
  scene w' = scene w →
  Vacant w → Vacant w'.
Proof.
  intros E1 E2 E3 E4 E5 E6 E7 E8 E9 E10 E11 E12 [].
  split; rewrite ?E1, ?E2, ?E3, ?E4, ?E5, ?E6, ?E7, ?E8, ?E9, ?E10, ?E11, ?E12; done.
Qed.

Ltac same_lifecycle :=
  first [eapply Consistent_ext | eapply Vacant_ext]; [..|eassumption]; reflexivity.

Lemma Vacant_Consistent w : Vacant w → Consistent w.
Proof.
  intros Hv. destruct_vacant Hv. split; try done.
  - by rewrite Hwave.
  - by rewrite Hsdf.
  - by rewrite Htank.
  - by rewrite Hray.
  - unfold liveCount. rewrite !liveIn_dead by done. lia.
  - unfold fieldRefs. by rewrite Hwave, Hsdf, Htank, Hray.
Qed.

Lemma removeAll_subseteq refs children :
  children ⊆ refs → removeAll refs children = [].
Proof.
  unfold removeAll. revert children.
  induction refs as [|m refs IH]; intros children Hsub; simpl.
  - destruct children as [|x ?]; [done|]. by destruct (not_elem_of_nil x); apply Hsub; left.
  - apply IH. intros x [Hne Hx]%list_elem_of_filter.
    apply Hsub in Hx. by apply elem_of_cons in Hx as [->|].
Qed.

Lemma cleaned_Vacant w : Consistent w → Vacant (cleaned w).
Proof.
  intros Hc. destruct_consistent Hc. destruct_world w. unfold cleaned. world_norm.
  split; world_norm; try done.
  - eapply (ownedBy_dispose wave_dispose); [apply wave_dispose_dead|done].
  - eapply (ownedBy_dispose sdf_dispose); [apply sdf_dispose_dead|done].
  - eapply (ownedBy_dispose tank_dispose); [apply tank_dispose_dead|done].
  - eapply (ownedBy_dispose ray_dispose); [apply ray_dispose_dead|done].
  - apply removeAll_subseteq. by rewrite Hscene.
Qed.

Lemma liveIn_singleton {A} `{Resource A} (p : A) : liveIn [p] ≤ 1.
Proof. unfold liveIn. simpl. destruct (isLive p); simpl; lia. Qed.

(** Closes the goals [Consistent w'] where [w'] is a vacant world with one
    plane added. *)
Ltac consistent_after_alloc :=
  split; unfold liveCount, fieldRefs; world_norm; subst;
  [ done | done | done
  | first [by apply ownedBy_alloc | done]
  | first [by apply ownedBy_alloc | done]
  | first [by apply ownedBy_alloc | done]
  | first [by apply ownedBy_alloc | done]
  | rewrite ?liveIn_app;
    repeat match goal with
           | H : ownedBy ?s None |- context [liveIn ?s] => rewrite (liveIn_dead s H)
           end;
    match goal with |- context [liveIn [?p]] => pose proof (liveIn_singleton p) end; lia
  | reflexivity ].

Lemma createWavePlane_Consistent env w :
  Vacant w → Consistent (createWavePlane env w).2.
Proof.
  intros Hv. destruct (wavePlaneThrows env) eqn:He.
  - rewrite createWavePlane_failed by done. apply Vacant_Consistent. same_lifecycle.
  - rewrite createWavePlane_ok by done.
    destruct_vacant Hv. destruct_world w. world_norm. consistent_after_alloc.
Qed.

Lemma createSDFPlane_Consistent env w :
  Vacant w → Consistent (createSDFPlane env w).2.
Proof.
  intros Hv. destruct (constructionFails env) eqn:He.
  - destruct (createSDFPlane_failed env w He) as (entries & -> & _).
    apply Vacant_Consistent. same_lifecycle.
  - destruct (createSDFPlane_ok env w He) as (entries & ->).
    destruct_vacant Hv. destruct_world w. world_norm. consistent_after_alloc.
Qed.

Lemma createDesertTankPlane_Consistent env w :
  Vacant w → Consistent (createDesertTankPlane env w).2.
Proof.
  intros Hv. destruct (constructionFails env) eqn:He.
  - destruct (createDesertTankPlane_failed env w He) as (entries & -> & _).
    apply Vacant_Consistent. same_lifecycle.
  - destruct (createDesertTankPlane_ok env w He) as (entries & ->).
    destruct_vacant Hv. destruct_world w. world_norm. consistent_after_alloc.
Qed.

Lemma createRayMarchingPlane_Consistent env w :
  Vacant w → Consistent (createRayMarchingPlane env w).2.
Proof.
  intros Hv. destruct (constructionFails env) eqn:He.
  - destruct (createRayMarchingPlane_failed env w He) as (entries & err & ->).
    apply Vacant_Consistent. same_lifecycle.
  - destruct (createRayMarchingPlane_ok env w He (v_renderer _ Hv)) as (entries & ->).
    destruct_vacant Hv. destruct_world w. world_norm. consistent_after_alloc.
Qed.

Lemma switchToPlane_Consistent env planeType w :
  Consistent w → Consistent (switchToPlane env planeType w).2.
Proof.
  intros Hc. rewrite switchToPlane_eq. cbv zeta.
  assert (Vacant (cleaned (announced planeType w))) as Hv.
  { apply cleaned_Vacant. same_lifecycle. }
  revert Hv. generalize (cleaned (announced planeType w)). intros w1 Hv.
  destruct (kindOfTag planeType) as [[]|].
  - pose proof (createWavePlane_Consistent env w1 Hv) as H2.
    revert H2. generalize (createWavePlane env w1).2. intros w2 H2. same_lifecycle.
  - pose proof (createSDFPlane_Consistent env w1 Hv) as H2.
    revert H2. generalize (createSDFPlane env w1).2. intros w2 H2. same_lifecycle.
  - pose proof (createDesertTankPlane_Consistent env w1 Hv) as H2.
    revert H2. generalize (createDesertTankPlane env w1).2. intros w2 H2. same_lifecycle.
  - pose proof (createRayMarchingPlane_Consistent env w1 Hv) as H2.
    destruct (createRayMarchingPlane env w1) as [[[]|e] w2]; [same_lifecycle|exact H2].
  - apply Vacant_Consistent in Hv. case_bool_decide; same_lifecycle.
Qed.

(** ** Events, resizing and whole runs *)

Lemma runCallback_Consistent env type ev cb w :
  Consistent w → ∃ w', runCallback env type ev cb w = (Normal (), w') ∧ Consistent w'.
Proof.
  intros Hc. unfold runCallback.
  destruct cb, ev; (eexists; split; [reflexivity|]); try done;
    destruct_consistent Hc; destruct_world w; split;
    unfold liveCount, fieldRefs in *; world_norm;
    rewrite ?liveIn_alter; try done;
    auto using ownedBy_alter, tank_onDocumentKey_live, ray_onPointerMove_live,
      ray_onPointerDown_live.
Qed.

Lemma deliver_Consistent env type ev ls w :
  Consistent w → Consistent (deliver env type ev ls w).2.
Proof.
  revert w. induction ls as [|l ls IH]; intros w Hc; [done|].
  simpl deliver. unfold mbind, Js_bind.
  destruct (runCallback_Consistent env type ev (l_callback l) w Hc) as (w' & -> & Hc').
  by apply IH.
Qed.

Lemma dispatchEvent_Consistent env target type ev w :
  Consistent w → Consistent (dispatchEvent env target type ev w).2.
Proof. intros Hc. unfold dispatchEvent. by apply deliver_Consistent. Qed.

Lemma resize_eq vw vh w r :
  renderer w = Some r → shaderMaterial w = None → shaderMaterialSimple w = None →
  resize vw vh w =
    (Normal (),
     set_renderer (Some (mkRenderer (tier r) (Some (vw, vh)) (clearColor r)))
       (set_calls (calls w ++ [SetSize vw vh])
          (set_cameraAspect (vw / vh)%float w))).
Proof.
  destruct_world w. world_norm. intros -> -> ->.
  unfold resize, rendererSetSize. world_norm. reflexivity.
Qed.

Lemma resize_Consistent vw vh w : Consistent w → Consistent (resize vw vh w).2.
Proof.
  intros Hc. destruct (c_renderer _ Hc) as [r Hr].
  rewrite (resize_eq vw vh w r) by (done || apply Hc).
  destruct_consistent Hc. destruct_world w.
  split; unfold liveCount, fieldRefs in *; world_norm; done.
Qed.

Lemma step_Consistent w c : Consistent w → Consistent (step w c).
Proof.
  intros Hc. destruct c; simpl.
  - by apply switchToPlane_Consistent.
  - by apply resize_Consistent.
  - by apply dispatchEvent_Consistent.
Qed.

Lemma run_Consistent cs w : Consistent w → Consistent (run cs w).
Proof.
  revert w. induction cs as [|c cs IH]; intros w Hc; [done|].
  simpl. apply IH. by apply step_Consistent.
Qed.

Lemma ownedBy_nil {A} `{Resource A} (field : option ObjId) : ownedBy (@nil A) field.
Proof. by intros i p Hi. Qed.

Lemma boot_Vacant env :
  (boot env).1 = Normal () →
  Vacant (boot env).2 ∧ currentActivePlane (boot env).2 = "none" ∧
  allocated (boot env).2 = 0 ∧ listeners (boot env).2 = [].
Proof.
  destruct env as [iw ih gpu gput gl2 gl2t glt gt tsl smt wt].
  destruct gpu, gput, gl2, gl2t, glt; vm_compute; intros Hb; try discriminate Hb;
    (split; [split; try done; try apply ownedBy_nil; by eexists|done]).
Qed.

(** ** What a switch leaves *)

Lemma length_disposeAt {A} (d : A → A) (field : option ObjId) (store : list A) :
  length (disposeAt d field store) = length store.
Proof. destruct field; simpl; [apply length_alter|done]. Qed.

Lemma held_alloc {A} (store : list A) (p : A) (n : nat) :
  length store = n → held (Some n) (store ++ [p]) = [p].
Proof.
  intros <-. unfold held. simpl.
  by rewrite lookup_app_r, Nat.sub_diag by lia.
Qed.

Ltac switch_facts :=
  unfold fieldRefs, activePlanes, allocated, storeLength, teardownCalls, builtObject,
    cleaned in *;
  world_norm;
  rewrite ?length_app, ?length_disposeAt, ?held_alloc by apply length_disposeAt;
  rewrite <- ?app_assoc;
  simpl.

(** A switch to a variant whose construction succeeds: the engine holds
    exactly the new plane, freshly allocated, and the calls made are the
    teardown of what was held followed by the construction. *)
Lemma switchToPlane_built env planeType k w :
  kindOfTag planeType = Some k →
  constructionThrows env planeType = false →
  is_Some (renderer w) →
  ∃ w', switchToPlane env planeType w = (Normal (), w') ∧
    currentActivePlane w' = planeType ∧
    fieldRefs w' = [(k, storeLength k w)] ∧
    activePlanes w' = [builtObject env k] ∧
    allocated w' = S (allocated w) ∧
    storeLength k w' = S (storeLength k w) ∧
    calls w' = calls w ++ teardownCalls w ++
                 [Construct k (Some (storeLength k w)); SceneAdd k (storeLength k w)] ∧
    renderer w' = renderer w.
Proof.
  intros Hk He Hr. rewrite switchToPlane_eq, Hk. cbv zeta.
  unfold constructionThrows in He. rewrite Hk in He.
  assert (is_Some (renderer (cleaned (announced planeType w)))) as Hr'.
  { by destruct_world w. }
  destruct k.
  - rewrite createWavePlane_ok by exact He.
    eexists; split; [reflexivity|]. clear Hr'. destruct_world w. switch_facts.
    repeat split; try done; lia.
  - destruct (createSDFPlane_ok env (cleaned (announced planeType w)) He) as (entries & ->).
    eexists; split; [reflexivity|]. clear Hr'. destruct_world w. switch_facts.
    repeat split; try done; lia.
  - destruct (createDesertTankPlane_ok env (cleaned (announced planeType w)) He)
      as (entries & ->).
    eexists; split; [reflexivity|]. clear Hr'. destruct_world w. switch_facts.
    repeat split; try done; lia.
  - destruct (createRayMarchingPlane_ok env (cleaned (announced planeType w)) He Hr')
      as (entries & ->).
    eexists; split; [reflexivity|]. clear Hr'. destruct_world w. switch_facts.
    repeat split; try done; lia.
Qed.

Lemma Vacant_idle w :
  Vacant w → fieldRefs w = [] ∧ scene w = [] ∧ liveCount w = 0 ∧ activePlanes w = [].
Proof.
  intros Hv. destruct_vacant Hv. unfold fieldRefs, liveCount, activePlanes.
  rewrite Hwave, Hsdf, Htank, Hray.
  by rewrite !liveIn_dead.
Qed.

(** What the first two statements of [switchToPlane] change besides the
    planes. *)
Lemma cleaned_announced planeType w :
  let w1 := cleaned (announced planeType w) in
  allocated w1 = allocated w ∧
  currentActivePlane w1 = currentActivePlane w ∧
  calls w1 = calls w ++ teardownCalls w ∧
  console w1 =
    console w ++ [logEntry LevelLog ("🔄 Switching to plane: " +:+ planeType) None].
Proof.
  destruct_world w. unfold allocated, cleaned, teardownCalls, fieldRefs. world_norm.
  by rewrite !length_disposeAt.
Qed.

(** A switch to wave, sdf or desert-tank whose constructor throws. *)
Lemma switchToPlane_failed env planeType k w :
  kindOfTag planeType = Some k → k ≠ Raymarching →
  constructionThrows env planeType = true →
  Consistent w →
  ∃ w' entries, switchToPlane env planeType w = (Normal (), w') ∧
    currentActivePlane w' = planeType ∧
    Vacant w' ∧
    allocated w' = allocated w ∧
    calls w' = calls w ++ teardownCalls w ++ [Construct k None] ∧
    console w' = console w ++ entries ∧
    (∃ msg err, logEntry LevelError msg (Some err) ∈ entries) ∧
    Forall (λ e, level e ≠ LevelWarn) entries.
Proof.
  intros Hk Hray He Hc. rewrite switchToPlane_eq, Hk. cbv zeta.
  unfold constructionThrows in He. rewrite Hk in He.
  assert (Vacant (cleaned (announced planeType w))) as Hv.
  { apply cleaned_Vacant. same_lifecycle. }
  destruct (cleaned_announced planeType w) as (Ha & _ & Hcalls & Hconsole).
  revert Hv Ha Hcalls Hconsole. generalize (cleaned (announced planeType w)).
  intros w1 Hv Ha Hcalls Hconsole.
  assert (∃ entries,
    (match k with
     | Wave => createWavePlane env w1
     | Sdf => createSDFPlane env w1
     | _ => createDesertTankPlane env w1
     end) = (Normal (),
             set_console (console w1 ++ entries)
               (set_calls (calls w1 ++ [Construct k None]) w1)) ∧
    loggedAsError entries) as (entries & Hcreate & (msg & err & Hlast) & Hlevels).
  { destruct k; [|by apply createSDFPlane_failed|by apply createDesertTankPlane_failed|done].
    rewrite createWavePlane_failed by done. eexists. split; [reflexivity|].
    split; [by eexists _, _|repeat constructor; discriminate]. }
  exists (switched planeType (set_console (console w1 ++ entries)
            (set_calls (calls w1 ++ [Construct k None]) w1))),
    ([logEntry LevelLog ("🔄 Switching to plane: " +:+ planeType) None] ++ entries ++
     [logEntry LevelLog ("✅ Successfully switched to: " +:+ planeType) None]).
  split; [destruct k; try done; by rewrite Hcreate|].
  split; [by destruct_world w1|].
  split; [same_lifecycle|].
  split; [by destruct_world w1|].
  split; [destruct_world w1; world_norm; by rewrite Hcalls, <- app_assoc|].
  split; [destruct_world w1; world_norm; by rewrite Hconsole, <- !app_assoc|].
  split.
  - exists msg, err. apply elem_of_cons. right. apply elem_of_app. left.
    by apply last_Some_elem_of.
  - apply Forall_cons. split; [done|]. apply Forall_app. split; [done|].
    by repeat constructor.
Qed.

(** A switch to a tag that is none of the five. *)
Lemma switchToPlane_unknown env planeType w :
  kindOfTag planeType = None → planeType ≠ "none" →
  Consistent w →
  ∃ w', switchToPlane env planeType w = (Normal (), w') ∧
    currentActivePlane w' = currentActivePlane w ∧
    Vacant w' ∧
    allocated w' = allocated w ∧
    calls w' = calls w ++ teardownCalls w ∧
    console w' = console w ++
      [logEntry LevelLog ("🔄 Switching to plane: " +:+ planeType) None;
       logEntry LevelWarn ("Unknown plane type: " +:+ planeType) None].
Proof.
  intros Hk Hnone Hc. rewrite switchToPlane_eq, Hk. cbv zeta.
  rewrite bool_decide_eq_false_2 by done.
  assert (Vacant (cleaned (announced planeType w))) as Hv.
  { apply cleaned_Vacant. same_lifecycle. }
  destruct (cleaned_announced planeType w) as (Ha & Htag & Hcalls & Hconsole).
  revert Hv Ha Htag Hcalls Hconsole. generalize (cleaned (announced planeType w)).
  intros w1 Hv Ha Htag Hcalls Hconsole.
  eexists. split; [reflexivity|].
  split; [by destruct_world w1|].
  split; [same_lifecycle|].
  split; [by destruct_world w1|].
  split; [by destruct_world w1|].
  destruct_world w1; world_norm. by rewrite Hconsole, <- app_assoc.
Qed.

(** ** The configured objects *)



Lemma rayObject_settings env :
  ray_geometry (rayObject env) = planeGeometry 8 8 64 64 false ∧
  ray_radius (rayObject env) = 0.2%float ∧
  ray_maxSteps (rayObject env) = 25%float ∧
  ray_surfaceDistance (rayObject env) = 0.0001%float ∧
  ray_timeMultiplier (rayObject env) = 0.5%float.
Proof.
  unfold rayObject, rayConstructed, builtMaterial, assigned.
  destruct (tslThrowsAfter env) as [[|[|[|[|[|[|[|[|k]]]]]]]]|]; vm_compute; done.
Qed.

Lemma tankObject_settings env :
  tank_geometry (tankObject env) = planeGeometry 4 3 64 64 false ∧
  tank_wheelOffset (tankObject env) = vec2 (-10) 0 ∧
  tank_bulletOffset (tankObject env) = 20%float ∧
  tank_shellOffset (tankObject env) = 25%float.
Proof.
  unfold tankObject, builtMaterial, assigned.
  destruct (tslThrowsAfter env) as [[|[|[|k]]]|]; vm_compute; done.
Qed.

Ltac calls_after_create w1 Hcalls :=
  destruct_world w1; simpl in Hcalls; world_goal;
  rewrite Hcalls, <- app_assoc; reflexivity.

(** The calls of a switch: the teardown of what is held, then the
    construction. *)
Lemma switchToPlane_calls env planeType w :
  is_Some (renderer w) →
  ∃ build,
    calls (switchToPlane env planeType w).2 = calls w ++ teardownCalls w ++ build ∧
    forallb isBuild build = true.
Proof.
  intros Hr. rewrite switchToPlane_eq. cbv zeta.
  assert (is_Some (renderer (cleaned (announced planeType w)))) as Hr'.
  { by destruct_world w. }
  destruct (cleaned_announced planeType w) as (_ & _ & Hcalls & _).
  revert Hr' Hcalls. generalize (cleaned (announced planeType w)).
  intros w1 Hr' Hcalls.
  destruct (kindOfTag planeType) as [[]|].
  - destruct (wavePlaneThrows env) eqn:He.
    + rewrite createWavePlane_failed by done. exists [Construct Wave None].
      split; [|done]. calls_after_create w1 Hcalls.
    + rewrite createWavePlane_ok by done. exists [Construct Wave (Some (length (waves w1))); SceneAdd Wave (length (waves w1))].
      split; [calls_after_create w1 Hcalls|done].
  - destruct (constructionFails env) eqn:He.
    + destruct (createSDFPlane_failed env w1 He) as (? & -> & _).
      exists [Construct Sdf None].
      split; [|done]. calls_after_create w1 Hcalls.
    + destruct (createSDFPlane_ok env w1 He) as (? & ->). exists [Construct Sdf (Some (length (sdfs w1))); SceneAdd Sdf (length (sdfs w1))].
      split; [calls_after_create w1 Hcalls|done].
  - destruct (constructionFails env) eqn:He.
    + destruct (createDesertTankPlane_failed env w1 He) as (? & -> & _).
      exists [Construct DesertTank None].
      split; [|done]. calls_after_create w1 Hcalls.
    + destruct (createDesertTankPlane_ok env w1 He) as (? & ->). exists [Construct DesertTank (Some (length (tanks w1))); SceneAdd DesertTank (length (tanks w1))].
      split; [calls_after_create w1 Hcalls|done].
  - destruct (constructionFails env) eqn:He.
    + destruct (createRayMarchingPlane_failed env w1 He) as (? & ? & ->).
      exists [Construct Raymarching None].
      split; [|done]. calls_after_create w1 Hcalls.
    + destruct (createRayMarchingPlane_ok env w1 He Hr') as (? & ->). exists [Construct Raymarching (Some (length (rays w1))); SceneAdd Raymarching (length (rays w1))].
      split; [calls_after_create w1 Hcalls|done].
  - exists []. split; [|done]. rewrite app_nil_r.
    case_bool_decide; by destruct_world w1.
Qed.

Lemma teardownCalls_teardown w : forallb isTeardown (teardownCalls w) = true.
Proof.
  unfold teardownCalls, fieldRefs.
  by destruct (tslPlane w), (tslPlaneSDF w), (tslDesertTank w), (raymarchPlane w).
Qed.

Lemma teardownCalls_complete w k id :
  (k, id) ∈ fieldRefs w →
  SceneRemove k id ∈ teardownCalls w ∧ Dispose k id ∈ teardownCalls w.
Proof.
  intros Hin. unfold teardownCalls.
  split; apply list_elem_of_bind; exists (k, id); (split; [|done]); simpl.
  - apply list_elem_of_here.
  - apply list_elem_of_further, list_elem_of_here.
Qed.

Lemma boot_Consistent env : (boot env).1 = Normal () → Consistent (boot env).2.
Proof. intros Hb. apply Vacant_Consistent. by apply boot_Vacant. Qed.

(** ** The claims *)

(** C1 — From a successful start, after every sequence of commands (variant
    selections, resizes, input events) at most one plane object holds GPU
    resources; and the calls a switch makes are first the teardown, which
    removes from the scene and disposes every plane that was held, then
    nothing but construction and scene insertion. *)
Theorem exclusive_ownership (env0 : Env) (cs : list Command) (env : Env)
    (planeType : string) :
  (boot env0).1 = Normal () →
  let w := run cs (boot env0).2 in
  liveCount w ≤ 1 ∧
  ∃ teardown build,
    calls (switchToPlane env planeType w).2 = calls w ++ teardown ++ build ∧
    forallb isTeardown teardown = true ∧
    (∀ k id, (k, id) ∈ fieldRefs w →
       SceneRemove k id ∈ teardown ∧ Dispose k id ∈ teardown) ∧
    forallb isBuild build = true.
Proof.
  intros Hb w.
  assert (Consistent w) as Hc by (apply run_Consistent, boot_Consistent, Hb).
  split; [apply Hc|].
  destruct (switchToPlane_calls env planeType w (c_renderer _ Hc)) as (build & Hcalls & Hb').
  exists (teardownCalls w), build.
  auto using teardownCalls_teardown, teardownCalls_complete.
Qed.

Lemma exclusive_ownership_witness :
  let w := run [SelectVariant chrome "sdf"; SelectVariant tslFails "raymarching"]
             (boot chrome).2 in
  liveCount w ≤ 1 ∧
  ∃ teardown build,
    calls (switchToPlane chrome "wave" w).2 = calls w ++ teardown ++ build ∧
    forallb isTeardown teardown = true ∧
    (∀ k id, (k, id) ∈ fieldRefs w →
       SceneRemove k id ∈ teardown ∧ Dispose k id ∈ teardown) ∧
    forallb isBuild build = true.
Proof. apply (exclusive_ownership chrome _ chrome "wave"). reflexivity. Defined.

(** C2 — Selecting the same variant twice does not make the second call a
    no-op: from the world [started], the second [switchToPlane "sdf"]
    allocates a second object and makes four more calls. *)
Lemma repeated_switch_is_not_noop : ¬ claimedIdempotent chrome "sdf" started.
Proof. intros (_ & _ & Halloc & _). vm_compute in Halloc. discriminate. Qed.

(** Selecting a variant a second time when its construction succeeds: the
    plane of the first call is removed and disposed and a new one built. *)
Lemma switchToPlane_twice_built (env : Env) (planeType : string) (k : PlaneKind)
    (w : World) :
  kindOfTag planeType = Some k →
  constructionThrows env planeType = false →
  is_Some (renderer w) →
  let w2 := (switchToPlane env planeType w).2 in
  let w3 := (switchToPlane env planeType w2).2 in
  currentActivePlane w3 = currentActivePlane w2 ∧
  activePlanes w3 = activePlanes w2 ∧
  allocated w3 = S (allocated w2) ∧
  calls w3 = calls w2 ++
    [SceneRemove k (storeLength k w); Dispose k (storeLength k w);
     Construct k (Some (S (storeLength k w))); SceneAdd k (S (storeLength k w))].
Proof.
  intros Hk He Hr.
  destruct (switchToPlane_built env planeType k w Hk He Hr)
    as (w2 & -> & Htag2 & Hrefs2 & Hactive2 & _ & Hlen2 & _ & Hr2).
  cbv zeta. simpl snd.
  rewrite <- Hr2 in Hr.
  destruct (switchToPlane_built env planeType k w2 Hk He Hr)
    as (w3 & -> & Htag3 & _ & Hactive3 & Halloc3 & _ & Hcalls3 & _).
  simpl snd. rewrite Htag2, Htag3, Hactive2, Hactive3, Halloc3, Hcalls3.
  unfold teardownCalls. rewrite Hrefs2, Hlen2. done.
Qed.

Lemma holdsNothing_idle w :
  holdsNothing w → teardownCalls w = [] ∧ activePlanes w = [].
Proof.
  intros (Hw & Hs & Ht & Hr). unfold teardownCalls, fieldRefs, activePlanes, held.
  by rewrite Hw, Hs, Ht, Hr.
Qed.

Lemma cleaned_holdsNothing w : holdsNothing (cleaned w).
Proof. destruct_world w. unfold holdsNothing, cleaned. by world_norm. Qed.

(** A switch that builds nothing: to ["none"], to a tag outside the five,
    or to a variant whose constructor throws.  Whether the tag is then set
    depends on the request alone, not on the world. *)
Lemma switchToPlane_unbuilt (env : Env) (planeType : string) :
  kindOfTag planeType = None ∨ constructionThrows env planeType = true →
  ∃ tagged : bool, ∀ w,
    let w' := (switchToPlane env planeType w).2 in
    holdsNothing w' ∧
    currentActivePlane w' = (if tagged then planeType else currentActivePlane w) ∧
    allocated w' = allocated w ∧
    calls w' = calls w ++ teardownCalls w ++
      match kindOfTag planeType with
      | Some k => [Construct k None]
      | None => []
      end.
Proof.
  intros Hcase.
  assert (∀ w, holdsNothing (cleaned (announced planeType w)) ∧
               allocated (cleaned (announced planeType w)) = allocated w ∧
               currentActivePlane (cleaned (announced planeType w)) =
                 currentActivePlane w ∧
               calls (cleaned (announced planeType w)) = calls w ++ teardownCalls w)
    as Hfirst.
  { intros w. split; [apply cleaned_holdsNothing|].
    destruct (cleaned_announced planeType w) as (Ha & Htag & Hcalls & _). done. }
  unfold constructionThrows in Hcase.
  destruct (kindOfTag planeType) as [k|] eqn:Hk.
  - destruct Hcase as [|He]; [done|].
    exists (if k is Raymarching then false else true). intros w. cbv zeta.
    rewrite switchToPlane_eq, Hk. cbv zeta.
    destruct (Hfirst w) as (Hn & Ha & Htag & Hcalls).
    revert Hn Ha Htag Hcalls. generalize (cleaned (announced planeType w)).
    intros w1 (Hw & Hs & Ht & Hr) Ha Htag Hcalls.
    destruct k.
    + rewrite createWavePlane_failed by done. cbn [snd].
      destruct_world w1. unfold holdsNothing, allocated in *. world_norm.
      simpl in *. subst. by rewrite <- app_assoc.
    + destruct (createSDFPlane_failed env w1 He) as (entries & -> & _). cbn [snd].
      destruct_world w1. unfold holdsNothing, allocated in *. world_norm.
      simpl in *. subst. by rewrite <- app_assoc.
    + destruct (createDesertTankPlane_failed env w1 He) as (entries & -> & _). cbn [snd].
      destruct_world w1. unfold holdsNothing, allocated in *. world_norm.
      simpl in *. subst. by rewrite <- app_assoc.
    + destruct (createRayMarchingPlane_failed env w1 He) as (entries & err & ->).
      cbn [snd].
      destruct_world w1. unfold holdsNothing, allocated in *. world_norm.
      simpl in *. subst. by rewrite <- app_assoc.
  - exists (bool_decide (planeType = "none")). intros w. cbv zeta.
    rewrite switchToPlane_eq, Hk. cbv zeta.
    destruct (Hfirst w) as (Hn & Ha & Htag & Hcalls).
    revert Hn Ha Htag Hcalls. generalize (cleaned (announced planeType w)).
    intros w1 (Hw & Hs & Ht & Hr) Ha Htag Hcalls.
    case_bool_decide; cbn [snd];
      destruct_world w1; unfold holdsNothing, allocated in *; world_norm;
      simpl in *; subst; by rewrite app_nil_r.
Qed.

(** C2, as the code has it — Selecting a variant a second time leaves the
    same tag and the same active planes as the first selection did.  When
    the switch builds nothing the second call allocates nothing and tears
    nothing down: for ["none"] (and for a tag outside the five) it makes
    no call at all, and for a variant whose constructor throws it only
    repeats the failed construction.  When the variant is built, the
    second call is a rebuild: the plane of the first call is removed from
    the scene and disposed, and a new object is constructed and added. *)
Theorem repeated_switch_by_case (env : Env) (planeType : string) (w : World) :
  is_Some (renderer w) →
  let w2 := (switchToPlane env planeType w).2 in
  let w3 := (switchToPlane env planeType w2).2 in
  currentActivePlane w3 = currentActivePlane w2 ∧
  activePlanes w3 = activePlanes w2 ∧
  match kindOfTag planeType with
  | None => allocated w3 = allocated w2 ∧ calls w3 = calls w2
  | Some k =>
      if constructionThrows env planeType then
        allocated w3 = allocated w2 ∧ calls w3 = calls w2 ++ [Construct k None]
      else
        allocated w3 = S (allocated w2) ∧
        calls w3 = calls w2 ++
          [SceneRemove k (storeLength k w); Dispose k (storeLength k w);
           Construct k (Some (S (storeLength k w))); SceneAdd k (S (storeLength k w))]
  end.
Proof.
  intros Hr. cbv zeta.
  destruct (kindOfTag planeType) as [k|] eqn:Hk;
    [destruct (constructionThrows env planeType) eqn:He|].
  2: { destruct (switchToPlane_twice_built env planeType k w Hk He Hr)
         as (Htag & Hactive & Halloc & Hcalls). done. }
  all: destruct (switchToPlane_unbuilt env planeType) as [tagged Hun]; [by auto|];
    destruct (Hun w) as (Hn2 & Htag2 & _);
    destruct (Hun (switchToPlane env planeType w).2) as (Hn3 & Htag3 & Ha3 & Hcalls3);
    cbv zeta in *; rewrite Hk in Hcalls3;
    destruct (holdsNothing_idle _ Hn2) as [Htd2 Hact2];
    destruct (holdsNothing_idle _ Hn3) as [_ Hact3];
    rewrite Htd2 in Hcalls3; rewrite Hact2, Hact3, Htag3, Ha3, Hcalls3;
    rewrite ?app_nil_r; (split; [by destruct tagged; rewrite ?Htag2|done]).
Qed.

Lemma repeated_switch_by_case_witness :
  let w2 := (switchToPlane chrome "sdf" started).2 in
  let w3 := (switchToPlane chrome "sdf" w2).2 in
  currentActivePlane w3 = currentActivePlane w2 ∧
  activePlanes w3 = activePlanes w2 ∧
  allocated w3 = S (allocated w2) ∧
  calls w3 = calls w2 ++
    [SceneRemove Sdf (storeLength Sdf started); Dispose Sdf (storeLength Sdf started);
     Construct Sdf (Some (S (storeLength Sdf started)));
     SceneAdd Sdf (S (storeLength Sdf started))].
Proof.
  assert (is_Some (renderer started)) as Hr by (by eexists).
  pose proof (repeated_switch_by_case chrome "sdf" started Hr) as H.
  change (kindOfTag "sdf") with (Some Sdf) in H.
  change (constructionThrows chrome "sdf") with false in H.
  exact H.
Defined.

(** C3 — A switch whose construction throws does not roll back to
    Idle(None): with [new THREE.PlaneGeometry] throwing, [switchToPlane
    "sdf"] ends with the tag ["sdf"]. *)
Lemma failed_construction_keeps_tag :
  constructionThrows geometryFails "sdf" = true ∧
  ¬ claimedRollback geometryFails "sdf" started.
Proof.
  split; [reflexivity|].
  intros (_ & Htag & _). vm_compute in Htag. discriminate.
Qed.

(** C3, as the code has it — When the constructor behind a switch to wave,
    sdf or desert-tank throws, the switch does not throw: the error is
    caught and logged with [console.error] (never as a warning), no plane is
    held, the scene is empty, nothing holds GPU resources and no object was
    allocated; the tag becomes the requested variant. *)
Theorem failed_construction_is_logged (env : Env) (planeType : string) (w : World) :
  planeType ∈ ["wave"; "sdf"; "desert-tank"] →
  constructionThrows env planeType = true →
  Consistent w →
  let r := switchToPlane env planeType w in
  r.1 = Normal () ∧
  currentActivePlane r.2 = planeType ∧
  fieldRefs r.2 = [] ∧ scene r.2 = [] ∧ liveCount r.2 = 0 ∧
  allocated r.2 = allocated w ∧
  ∃ entries,
    console r.2 = console w ++ entries ∧
    (∃ msg err, logEntry LevelError msg (Some err) ∈ entries) ∧
    Forall (λ e, level e ≠ LevelWarn) entries.
Proof.
  intros Hin He Hc.
  assert (∃ k, kindOfTag planeType = Some k ∧ k ≠ Raymarching) as (k & Hk & Hray).
  { repeat (apply elem_of_cons in Hin as [->|Hin]); [..|by apply elem_of_nil in Hin];
      eexists; (split; [reflexivity|discriminate]). }
  destruct (switchToPlane_failed env planeType k w Hk Hray He Hc)
    as (w' & entries & -> & Htag & Hv & Halloc & _ & Hconsole & Herr & Hlevels).
  destruct (Vacant_idle w' Hv) as (Hrefs & Hscene & Hlive & _).
  cbv zeta. simpl fst. simpl snd. eauto 10.
Qed.

Lemma failed_construction_is_logged_witness :
  let r := switchToPlane geometryFails "sdf" sdfActive in
  r.1 = Normal () ∧
  currentActivePlane r.2 = "sdf" ∧
  fieldRefs r.2 = [] ∧ scene r.2 = [] ∧ liveCount r.2 = 0 ∧
  allocated r.2 = allocated sdfActive ∧
  ∃ entries,
    console r.2 = console sdfActive ++ entries ∧
    (∃ msg err, logEntry LevelError msg (Some err) ∈ entries) ∧
    Forall (λ e, level e ≠ LevelWarn) entries.
Proof.
  apply (failed_construction_is_logged geometryFails "sdf" sdfActive).
  - apply elem_of_cons. right. apply elem_of_cons. by left.
  - reflexivity.
  - apply (run_Consistent [SelectVariant chrome "sdf"] (boot chrome).2).
    by apply boot_Consistent.
Defined.

(** C4 — An unknown tag does not leave the lifecycle state unchanged: with
    the SDF plane active, [switchToPlane "foo"] empties the engine's plane
    field and the scene. *)
Lemma unknown_tag_changes_state :
  kindOfTag "foo" = None ∧ ¬ claimedIgnored chrome "foo" sdfActive.
Proof.
  split; [reflexivity|].
  intros (_ & Hrefs & _). vm_compute in Hrefs. discriminate.
Qed.

(** C4, as the code has it — A tag that is none of the five is answered
    with a warning, the tag of the active variant stays and nothing is
    constructed; but the cleanup runs before the tag is looked at, so the
    plane that was active is removed from the scene and disposed, and the
    engine holds no plane afterwards. *)
Theorem unknown_tag_tears_down (env : Env) (planeType : string) (w : World) :
  planeType ∉ ["wave"; "sdf"; "desert-tank"; "raymarching"; "none"] →
  Consistent w →
  let r := switchToPlane env planeType w in
  r.1 = Normal () ∧
  currentActivePlane r.2 = currentActivePlane w ∧
  fieldRefs r.2 = [] ∧ scene r.2 = [] ∧ activePlanes r.2 = [] ∧
  liveCount r.2 = 0 ∧
  allocated r.2 = allocated w ∧
  calls r.2 = calls w ++ teardownCalls w ∧
  console r.2 = console w ++
    [logEntry LevelLog ("🔄 Switching to plane: " +:+ planeType) None;
     logEntry LevelWarn ("Unknown plane type: " +:+ planeType) None].
Proof.
  intros Hnot Hc.
  assert (kindOfTag planeType = None ∧ planeType ≠ "none") as [Hk Hnone].
  { unfold kindOfTag.
    repeat case_bool_decide; subst;
      try (exfalso; apply Hnot; repeat constructor; fail).
    split; [done|]. intros ->. apply Hnot. repeat constructor. }
  destruct (switchToPlane_unknown env planeType w Hk Hnone Hc)
    as (w' & -> & Htag & Hv & Halloc & Hcalls & Hconsole).
  destruct (Vacant_idle w' Hv) as (Hrefs & Hscene & Hlive & Hactive).
  cbv zeta. simpl fst. simpl snd. eauto 10.
Qed.

Lemma unknown_tag_tears_down_witness :
  let r := switchToPlane chrome "foo" sdfActive in
  r.1 = Normal () ∧
  currentActivePlane r.2 = currentActivePlane sdfActive ∧
  fieldRefs r.2 = [] ∧ scene r.2 = [] ∧ activePlanes r.2 = [] ∧
  liveCount r.2 = 0 ∧
  allocated r.2 = allocated sdfActive ∧
  calls r.2 = calls sdfActive ++ teardownCalls sdfActive ∧
  console r.2 = console sdfActive ++
    [logEntry LevelLog ("🔄 Switching to plane: " +:+ "foo") None;
     logEntry LevelWarn ("Unknown plane type: " +:+ "foo") None].
Proof.
  apply (unknown_tag_tears_down chrome "foo" sdfActive).
  - intros Hin. repeat (apply elem_of_cons in Hin as [Hin|Hin]; [discriminate Hin|]).
    by apply elem_of_nil in Hin.
  - apply (run_Consistent [SelectVariant chrome "sdf"] (boot chrome).2).
    by apply boot_Consistent.
Defined.

(** Whatever [forceRenderer] holds, [initThree] calls the renderer
    constructors in the order WebGPU, WebGL2, WebGL, each at most once. *)
Lemma initThree_attempts_ordered (forced : option string) (env : Env) (w : World) :
  calls w = [] →
  attempts (initThree env (set_forceRenderer forced w)).2
    `sublist_of` [WebGPU; WebGL2; WebGL].
Proof.
  intros Hcalls.
  destruct env as [iw ih gpu gput gl2 gl2t glt gt tsl smt wt].
  destruct_world w. simpl in Hcalls. subst.
  unfold initThree, attempts, tryWebGL2, tryRenderer, lastRenderer, newRenderer,
    rendererSetSize, rendererSetClearColor.
  cbv beta iota delta [navigator_gpu webgpuRendererThrows canvas_webgl2
    webgl2RendererThrows webglRendererThrows innerWidth innerHeight].
  world_norm.
  repeat case_bool_decide; destruct gpu, gput, gl2, gl2t, glt; world_norm;
    simpl omap; repeat constructor.
Qed.

(** C5 — The negotiation calls the renderer constructors in the order
    WebGPU, WebGL2, WebGL, never going back and never calling one twice;
    and when the preferred tier is unavailable while the secondary one is
    available, the renderer is the WebGL2 one and the baseline constructor
    is not even called. *)
Theorem negotiation_order (env : Env) :
  attempts (boot env).2 `sublist_of` [WebGPU; WebGL2; WebGL] ∧
  (preferredAvailable env = false → secondaryAvailable env = true →
   (boot env).1 = Normal () ∧
   tier <$> renderer (boot env).2 = Some WebGL2 ∧
   WebGL ∉ attempts (boot env).2).
Proof.
  destruct env as [iw ih gpu gput gl2 gl2t glt gt tsl smt wt].
  unfold preferredAvailable, secondaryAvailable; simpl.
  split.
  - destruct gpu, gput, gl2, gl2t, glt; vm_compute; repeat constructor.
  - destruct gpu, gput, gl2, gl2t; simpl; try discriminate; intros _ _;
      destruct glt; vm_compute; (split; [done|split; [done|]]);
      intros Hin; repeat (apply elem_of_cons in Hin as [Hin|Hin]; [discriminate Hin|]);
      by apply elem_of_nil in Hin.
Qed.

Lemma negotiation_order_witness :
  (boot webgl2Only).1 = Normal () ∧
  tier <$> renderer (boot webgl2Only).2 = Some WebGL2 ∧
  WebGL ∉ attempts (boot webgl2Only).2.
Proof. exact (proj2 (negotiation_order webgl2Only) eq_refl eq_refl). Defined.

(** The uniforms of a raymarching plane as its constructor leaves them. *)
Lemma rayConstructed_defaults env :
  ray_radius (rayConstructed env) = 0.15%float ∧
  ray_maxSteps (rayConstructed env) = 20%float ∧
  ray_surfaceDistance (rayConstructed env) = 0.0001%float ∧
  ray_timeMultiplier (rayConstructed env) = 1%float.
Proof.
  unfold rayConstructed, builtMaterial, assigned.
  destruct (tslThrowsAfter env) as [[|[|[|[|[|[|[|[|k]]]]]]]]|]; vm_compute; done.
Qed.

(** C6 — After a successful start no variant is active; if the raymarching
    constructor does not throw, the first [switchToPlane "raymarching"]
    makes that variant the active one, held as the only plane, with radius
    0.2, maxSteps 25, surfaceDistance 0.0001 and timeMultiplier 0.5. *)
Theorem cold_start_raymarching (env0 env : Env) :
  (boot env0).1 = Normal () →
  constructionThrows env "raymarching" = false →
  currentActivePlane (boot env0).2 = "none" ∧
  activePlanes (boot env0).2 = [] ∧
  let r := switchToPlane env "raymarching" (boot env0).2 in
  r.1 = Normal () ∧
  currentActivePlane r.2 = "raymarching" ∧
  ∃ p, activePlanes r.2 = [RayObject p] ∧
       ray_geometry p = planeGeometry 8 8 64 64 false ∧
       ray_radius p = 0.2%float ∧
       ray_maxSteps p = 25%float ∧
       ray_surfaceDistance p = 0.0001%float ∧
       ray_timeMultiplier p = 0.5%float.
Proof.
  intros Hb He.
  destruct (boot_Vacant env0 Hb) as (Hv & Htag & _).
  destruct (Vacant_idle _ Hv) as (_ & _ & _ & Hactive).
  split; [done|]. split; [done|].
  destruct (switchToPlane_built env "raymarching" Raymarching (boot env0).2
              eq_refl He (v_renderer _ Hv))
    as (w' & -> & Htag' & _ & Hactive' & _).
  cbv zeta. simpl fst. simpl snd.
  split; [done|]. split; [done|].
  exists (rayObject env). split; [exact Hactive'|]. apply rayObject_settings.
Qed.

Lemma cold_start_raymarching_witness :
  currentActivePlane (boot chrome).2 = "none" ∧
  activePlanes (boot chrome).2 = [] ∧
  let r := switchToPlane tslFails "raymarching" (boot chrome).2 in
  r.1 = Normal () ∧
  currentActivePlane r.2 = "raymarching" ∧
  ∃ p, activePlanes r.2 = [RayObject p] ∧
       ray_geometry p = planeGeometry 8 8 64 64 false ∧
       ray_radius p = 0.2%float ∧
       ray_maxSteps p = 25%float ∧
       ray_surfaceDistance p = 0.0001%float ∧
       ray_timeMultiplier p = 0.5%float.
Proof. apply (cold_start_raymarching chrome tslFails); reflexivity. Defined.




(** The uniforms of an SDF plane as its constructor leaves them. *)
Lemma sdf_constructed_defaults env :
  let p := mkTSLPlaneSDF (planeGeometry 8 4 64 32 false)
             (builtMaterial env sdf_fallbackUniforms)
             (assigned env 0 0.25%float) (assigned env 1 1.5%float) in
  sdf_radius p = 0.25%float ∧ sdf_fade p = 1.5%float.
Proof.
  unfold builtMaterial, assigned.
  destruct (tslThrowsAfter env) as [[|[|k]]|]; vm_compute; done.
Qed.




(** Cleaning up removes no listener whose callback is a closure: the only
    function [dispose] hands to [removeEventListener] is the method
    [initControls], which was never registered. *)
Lemma closures_survive_cleanup (w : World) (l : Listener) :
  l ∈ listeners w → l_callback l ≠ InitControlsMethod →
  l ∈ listeners (cleanupCurrentPlane w).2.
Proof.
  intros Hin Hcb. rewrite cleanupCurrentPlane_eq. destruct_world w.
  unfold cleaned. world_norm. destruct tank; [|done].
  apply list_elem_of_filter. split; [by intros ->|].
  apply list_elem_of_filter. split; [by intros ->|done].
Qed.

(** C9 — The listeners of a disposed plane stay registered and keep
    changing it.  After desert-tank and then none, the [onDocumentKey]
    closure of the disposed tank is still a listener of both key events, and
    a keydown of KeyA is written into its key map; after raymarching and then
    none, both pointer closures are still listeners, and a pointer move over
    the mesh changes the [rayTo] of the disposed plane. *)
Theorem listeners_outlive_dispose :
  let w := run [SelectVariant chrome "desert-tank"; SelectVariant chrome "none"] started in
  let w' := step w (Dispatch chrome Document "keydown" (KeyboardEvent "KeyA")) in
  let v := run [SelectVariant chrome "raymarching"; SelectVariant chrome "none"] started in
  let v' := step v (Dispatch chrome DomElement "pointermove"
                      (PointerEvent 400 300 [Some (vec2 0.25 0.75)])) in
  (activePlanes w = [] ∧ isLive <$> tanks w !! 0 = Some false ∧
   listeners w = [mkListener Document "keydown" (OnDocumentKey 0);
                  mkListener Document "keyup" (OnDocumentKey 0)] ∧
   ¬ claimedReleased DesertTank 0 w ∧
   (tanks w !! 0 ≫= λ p, tank_keyMap p !! "KeyA") = None ∧
   (tanks w' !! 0 ≫= λ p, tank_keyMap p !! "KeyA") = Some true) ∧
  (activePlanes v = [] ∧ isLive <$> rays v !! 0 = Some false ∧
   listeners v = [mkListener DomElement "pointermove" (OnPointerMove 0);
                  mkListener DomElement "pointerdown" (OnPointerDown 0)] ∧
   ¬ claimedReleased Raymarching 0 v ∧
   ray_rayTo <$> rays v !! 0 = Some (vec2 1 1) ∧
   ray_rayTo <$> rays v' !! 0 = Some (vec2 0.25 0.75)).
Proof.
  cbv zeta. split.
  - repeat split; try (vm_compute; reflexivity).
    intros Hclaim.
    apply (Hclaim (mkListener Document "keydown" (OnDocumentKey 0))); [|done].
    vm_compute. apply list_elem_of_here.
  - repeat split; try (vm_compute; reflexivity).
    intros Hclaim.
    apply (Hclaim (mkListener DomElement "pointermove" (OnPointerMove 0))); [|done].
    vm_compute. apply list_elem_of_here.
Qed.

(** C10 — [initThree] returns from inside the [try] when the WebGPU or the
    WebGL2 renderer is constructed: [setSize] and [setClearColor] are then
    not called and the renderer keeps the size and clear colour its
    constructor gave it.  The two calls are made exactly when the renderer is
    the WebGL one of the last fallback of the "webgpu" branch. *)
Theorem early_return_skips_sizing (env : Env) (r : Renderer) :
  renderer (boot env).2 = Some r →
  forceRenderer (boot env).2 = Some "webgpu" ∧
  (tier r ≠ WebGL →
     (boot env).1 = Normal () ∧ sizingCalls (boot env).2 = [] ∧
     size r = None ∧ clearColor r = None) ∧
  (tier r = WebGL →
     (boot env).1 = Normal () ∧
     last (attempts (boot env).2) = Some WebGL ∧
     sizingCalls (boot env).2 =
       [SetSize (innerWidth env) (innerHeight env); SetClearColor 0x222222] ∧
     size r = Some (innerWidth env, innerHeight env) ∧
     clearColor r = Some 0x222222%Z).
Proof.
  destruct env as [iw ih gpu gput gl2 gl2t glt gt tsl smt wt].
  destruct gpu, gput, gl2, gl2t, glt; vm_compute; intros Hr;
    try discriminate Hr; injection Hr as <-;
    (split; [reflexivity|]); (split; [intros Ht|intros Ht; try discriminate Ht]);
    try (by destruct Ht); repeat split; reflexivity.
Qed.

Lemma early_return_skips_sizing_witness :
  forceRenderer (boot webgl2Only).2 = Some "webgpu" ∧
  (tier (mkRenderer WebGL2 None None) ≠ WebGL →
     (boot webgl2Only).1 = Normal () ∧ sizingCalls (boot webgl2Only).2 = [] ∧
     size (mkRenderer WebGL2 None None) = None ∧
     clearColor (mkRenderer WebGL2 None None) = None) ∧
  (tier (mkRenderer WebGL2 None None) = WebGL →
     (boot webgl2Only).1 = Normal () ∧
     last (attempts (boot webgl2Only).2) = Some WebGL ∧
     sizingCalls (boot webgl2Only).2 =
       [SetSize (innerWidth webgl2Only) (innerHeight webgl2Only);
        SetClearColor 0x222222] ∧
     size (mkRenderer WebGL2 None None) =
       Some (innerWidth webgl2Only, innerHeight webgl2Only) ∧
     clearColor (mkRenderer WebGL2 None None) = Some 0x222222%Z).
Proof. apply (early_return_skips_sizing webgl2Only). reflexivity. Defined.

(** ** Supplements *)

(** Every world the engine reaches from a successful start is consistent. *)
Lemma reachable_Consistent (env0 : Env) (cs : list Command) :
  (boot env0).1 = Normal () → Consistent (run cs (boot env0).2).
Proof. intros Hb. by apply run_Consistent, boot_Consistent. Qed.

(** [createRayMarchingPlane] has no [try]: when its constructor throws, the
    exception leaves [switchToPlane], after the cleanup and before the tag
    is updated, so the tag still names the plane that was torn down. *)
Remark raymarching_failure_propagates :
  let r := switchToPlane geometryFails "raymarching" sdfActive in
  r.1 = Throw (LibraryError "PlaneGeometry") ∧
  currentActivePlane r.2 = "sdf" ∧
  fieldRefs r.2 = [] ∧ scene r.2 = [] ∧ liveCount r.2 = 0.
Proof. cbv zeta. repeat split; vm_compute; reflexivity. Qed.

(** Without WebGPU and WebGL2 the WebGL renderer is constructed, sized and
    given its clear colour. *)
Example boot_legacy :
  (boot legacy).1 = Normal () ∧
  attempts (boot legacy).2 = [WebGL] ∧
  renderer (boot legacy).2 =
    Some (mkRenderer WebGL (Some (800%float, 600%float)) (Some 0x222222%Z)).
Proof. repeat split; vm_compute; reflexivity. Qed.

(** On the fallback path the setters can miss the material: when the TSL
    block throws after its uniforms were created, [set radius] writes the
    orphaned TSL uniform, which the getter reads back, while the uniform of
    the fallback [ShaderMaterial] keeps its constructor value. *)
Remark fallback_uniform_keeps_default :
  ray_radius (rayObject nodeMaterialFails) = 0.2%float ∧
  shaderUniform (ray_material (rayObject nodeMaterialFails)) "uRadius"
    = Some (UNum 0.15).
Proof. split; vm_compute; reflexivity. Qed.

(** * Further properties *)

(** ** Renderer negotiation *)

(** X1 — The negotiation ends with the best tier that is available: WebGPU
    when the browser has it and its renderer can be built, else WebGL2
    under the same conditions, else the WebGL renderer; that renderer is
    the last one whose constructor was called.  Only when the WebGL
    constructor throws too does [initThree] throw, leaving the engine
    without a renderer and without having sized anything. *)
Theorem negotiation_outcome (env : Env) :
  match negotiated env with
  | Some t =>
      (boot env).1 = Normal () ∧
      tier <$> renderer (boot env).2 = Some t ∧
      last (attempts (boot env).2) = Some t
  | None =>
      (boot env).1 = Throw (LibraryError "renderer") ∧
      renderer (boot env).2 = None ∧
      last (attempts (boot env).2) = Some WebGL ∧
      sizingCalls (boot env).2 = []
  end.
Proof.
  destruct env as [iw ih gpu gput gl2 gl2t glt gt tsl smt wt].
  destruct gpu, gput, gl2, gl2t, glt; vm_compute; auto.
Qed.

(** X2 — The forced tier is a ceiling.  With [forceRenderer] set to
    ["webgl2"] the WebGPU constructor is never called, and with any value
    other than ["webgpu"] and ["webgl2"] (["webgl"], [null]) the WebGL
    constructor is the only one called; in that last case a renderer that
    could be built is always sized and given the clear colour. *)
Theorem forced_tier_is_a_ceiling (forced : option string) (env : Env) :
  let r := initThree env (set_forceRenderer forced world0) in
  (forced = Some "webgl2" → WebGPU ∉ attempts r.2) ∧
  (forced ≠ Some "webgpu" → forced ≠ Some "webgl2" →
   attempts r.2 = [WebGL] ∧
   (webglRendererThrows env = false →
    r.1 = Normal () ∧
    renderer r.2 = Some (mkRenderer WebGL (Some (innerWidth env, innerHeight env))
                           (Some 0x222222%Z)))).
Proof.
  destruct env as [iw ih gpu gput gl2 gl2t glt gt tsl smt wt].
  unfold initThree, attempts, tryWebGL2, tryRenderer, lastRenderer, newRenderer,
    rendererSetSize, rendererSetClearColor, world0.
  cbv beta iota delta [navigator_gpu webgpuRendererThrows canvas_webgl2
    webgl2RendererThrows webglRendererThrows innerWidth innerHeight].
  world_norm. split.
  - intros ->. rewrite bool_decide_eq_false_2, bool_decide_eq_true_2 by done.
    destruct gl2, gl2t, glt; world_norm; simpl omap;
      intros H; repeat (apply elem_of_cons in H as [H|H]; [discriminate H|]);
      by apply elem_of_nil in H.
  - intros H1 H2. rewrite !bool_decide_eq_false_2 by done.
    destruct glt; world_norm; simpl omap; (split; [done|]); intros Hg;
      [discriminate Hg|done].
Qed.

(** ** The plane lifecycle *)

Lemma cleaned_idemp w : cleaned (cleaned w) = cleaned w.
Proof.
  destruct_world w.
  unfold cleaned, teardownCalls, fieldRefs, removeAll, disposeAt. world_goal.
  f_equal; simpl; by rewrite ?app_nil_r.
Qed.

(** X3 — Tearing down is idempotent: right after [cleanupCurrentPlane], a
    second call returns normally and changes nothing: no call into
    three.js, no object disposed again, no listener touched. *)
Theorem cleanup_is_idempotent (w : World) :
  cleanupCurrentPlane (cleanupCurrentPlane w).2 =
    (Normal (), (cleanupCurrentPlane w).2).
Proof.
  rewrite (cleanupCurrentPlane_eq w). cbn [snd].
  rewrite cleanupCurrentPlane_eq. f_equal. apply cleaned_idemp.
Qed.

Lemma liveIn_live_singleton {A} `{Resource A} (p : A) : isLive p = true → liveIn [p] = 1.
Proof. intros Hp. unfold liveIn. simpl. by rewrite Hp. Qed.

Lemma waveObject_live : isLive waveObject = true.
Proof. reflexivity. Qed.

Ltac dead_stores :=
  repeat match goal with
         | H : ownedBy ?s None |- context [liveIn ?s] => rewrite (liveIn_dead s H)
         end.

(** After the switch to a variant whose construction succeeds, exactly one
    plane holds GPU resources. *)
Lemma switchToPlane_built_live env planeType k w :
  kindOfTag planeType = Some k →
  constructionThrows env planeType = false →
  Consistent w →
  liveCount (switchToPlane env planeType w).2 = 1.
Proof.
  intros Hk He Hc. rewrite switchToPlane_eq, Hk. cbv zeta.
  unfold constructionThrows in He. rewrite Hk in He.
  assert (Vacant (cleaned (announced planeType w))) as Hv.
  { apply cleaned_Vacant. same_lifecycle. }
  revert Hv. generalize (cleaned (announced planeType w)). intros w1 Hv.
  destruct k.
  - rewrite createWavePlane_ok by exact He.
    destruct_vacant Hv. destruct_world w1. unfold liveCount. world_norm.
    rewrite liveIn_app. dead_stores.
    by rewrite (liveIn_live_singleton _ waveObject_live).
  - destruct (createSDFPlane_ok env w1 He) as (entries & ->).
    destruct_vacant Hv. destruct_world w1. unfold liveCount. world_norm.
    rewrite liveIn_app. dead_stores.
    by rewrite (liveIn_live_singleton _ (sdfObject_live env)).
  - destruct (createDesertTankPlane_ok env w1 He) as (entries & ->).
    destruct_vacant Hv. destruct_world w1. unfold liveCount. world_norm.
    rewrite liveIn_app. dead_stores.
    by rewrite (liveIn_live_singleton _ (tankObject_live env)).
  - destruct (createRayMarchingPlane_ok env w1 He (v_renderer _ Hv)) as (entries & ->).
    destruct_vacant Hv. destruct_world w1. unfold liveCount. world_norm.
    rewrite liveIn_app. dead_stores.
    by rewrite (liveIn_live_singleton _ (rayObject_live env)).
Qed.

(** X4 — Selecting "Clear Scene" (the tag ["none"]) from any state the
    engine can be in returns normally and leaves nothing behind: the tag is
    ["none"], no field holds a plane, the scene has no plane mesh, no
    object holds GPU resources; nothing is constructed, and the only calls
    into three.js are the removal and disposal of the plane that was
    held. *)
Theorem clear_scene_releases_everything (env : Env) (w : World) :
  Consistent w →
  let r := switchToPlane env "none" w in
  r.1 = Normal () ∧
  currentActivePlane r.2 = "none" ∧
  fieldRefs r.2 = [] ∧ scene r.2 = [] ∧ activePlanes r.2 = [] ∧
  liveCount r.2 = 0 ∧
  allocated r.2 = allocated w ∧
  calls r.2 = calls w ++ teardownCalls w.
Proof.
  intros Hc. cbv zeta. rewrite switchToPlane_eq.
  change (kindOfTag "none") with (@None PlaneKind). cbv zeta.
  rewrite bool_decide_eq_true_2 by done.
  assert (Vacant (cleaned (announced "none" w))) as Hv.
  { apply cleaned_Vacant. same_lifecycle. }
  destruct (cleaned_announced "none" w) as (Ha & _ & Hcalls & _).
  revert Hv Ha Hcalls. generalize (cleaned (announced "none" w)).
  intros w1 Hv Ha Hcalls.
  assert (Vacant (switched "none" w1)) as Hv' by same_lifecycle.
  destruct (Vacant_idle _ Hv') as (Hrefs & Hscene & Hlive & Hactive).
  cbn [fst snd].
  split; [done|]. split; [by destruct_world w1|].
  split; [done|]. split; [done|]. split; [done|]. split; [done|].
  split; by destruct_world w1.
Qed.

Lemma clear_scene_releases_everything_witness :
  let r := switchToPlane chrome "none" sdfActive in
  r.1 = Normal () ∧
  currentActivePlane r.2 = "none" ∧
  fieldRefs r.2 = [] ∧ scene r.2 = [] ∧ activePlanes r.2 = [] ∧
  liveCount r.2 = 0 ∧
  allocated r.2 = allocated sdfActive ∧
  calls r.2 = calls sdfActive ++ teardownCalls sdfActive.
Proof.
  apply (clear_scene_releases_everything chrome sdfActive).
  apply (run_Consistent [SelectVariant chrome "sdf"] started).
  apply (boot_Consistent chrome). reflexivity.
Defined.

(** X5 — A switch to one of the four variants whose construction succeeds,
    from any state the engine can be in, returns normally with the tag set
    to the variant, the engine holding exactly the plane just built (a
    fresh object, configured as its [create...Plane] method does), its mesh
    the only plane mesh of the scene, and exactly one plane holding GPU
    resources. *)
Theorem successful_switch_owns_one_plane (env : Env) (planeType : string)
    (k : PlaneKind) (w : World) :
  kindOfTag planeType = Some k →
  constructionThrows env planeType = false →
  Consistent w →
  let r := switchToPlane env planeType w in
  r.1 = Normal () ∧
  currentActivePlane r.2 = planeType ∧
  fieldRefs r.2 = [(k, storeLength k w)] ∧
  scene r.2 = [(k, storeLength k w)] ∧
  activePlanes r.2 = [builtObject env k] ∧
  liveCount r.2 = 1 ∧
  allocated r.2 = S (allocated w).
Proof.
  intros Hk He Hc. cbv zeta.
  pose proof (switchToPlane_built_live env planeType k w Hk He Hc) as Hlive.
  pose proof (switchToPlane_Consistent env planeType w Hc) as Hc'.
  destruct (switchToPlane_built env planeType k w Hk He (c_renderer _ Hc))
    as (w' & Heq & Htag & Hrefs & Hactive & Halloc & _).
  rewrite Heq in *. cbn [fst snd] in *.
  pose proof (c_scene _ Hc') as Hscene. rewrite Hrefs in Hscene.
  done.
Qed.

Lemma successful_switch_owns_one_plane_witness :
  let r := switchToPlane tslFails "desert-tank" sdfActive in
  r.1 = Normal () ∧
  currentActivePlane r.2 = "desert-tank" ∧
  fieldRefs r.2 = [(DesertTank, storeLength DesertTank sdfActive)] ∧
  scene r.2 = [(DesertTank, storeLength DesertTank sdfActive)] ∧
  activePlanes r.2 = [builtObject tslFails DesertTank] ∧
  liveCount r.2 = 1 ∧
  allocated r.2 = S (allocated sdfActive).
Proof.
  apply (successful_switch_owns_one_plane tslFails "desert-tank" DesertTank sdfActive).
  - reflexivity.
  - reflexivity.
  - apply (run_Consistent [SelectVariant chrome "sdf"] started).
    apply (boot_Consistent chrome). reflexivity.
Defined.

(** ** Listeners *)

Lemma elem_of_register (l l' : Listener) (ls : list Listener) :
  l ∈ register l' ls ↔ l = l' ∨ l ∈ ls.
Proof.
  unfold register. case_bool_decide as Hin.
  - split; [by right|]. by intros [->|?].
  - rewrite elem_of_app, list_elem_of_singleton. tauto.
Qed.

Lemma closureListeners_closure k id l :
  l ∈ closureListeners k id → l_callback l ≠ InitControlsMethod.
Proof.
  destruct k; simpl; intros Hl;
    repeat (apply elem_of_cons in Hl as [->|Hl]; [done|]);
    by apply elem_of_nil in Hl.
Qed.

Lemma Accumulates_refl w : Accumulates w w.
Proof. split; [done|]. split; [done|]. intros k id ??. lia. Qed.

Lemma Accumulates_trans w1 w2 w3 :
  Accumulates w1 w2 → Accumulates w2 w3 → Accumulates w1 w3.
Proof.
  intros (Hl1 & Hs1 & Hn1) (Hl2 & Hs2 & Hn2). split; [by auto|].
  split; [intros k; specialize (Hs1 k); specialize (Hs2 k); lia|].
  intros k id Hlo Hhi.
  destruct (decide (id < storeLength k w2)) as [Hlt|Hge].
  - intros l Hl. apply Hl2; [by apply (Hn1 k id)|by eapply closureListeners_closure].
  - apply Hn2; [lia|done].
Qed.

(** Worlds with the same listeners and as many objects in each store. *)
Lemma Accumulates_same w w' :
  listeners w' = listeners w →
  length (waves w') = length (waves w) → length (sdfs w') = length (sdfs w) →
  length (tanks w') = length (tanks w) → length (rays w') = length (rays w) →
  Accumulates w w'.
Proof.
  intros Hl H1 H2 H3 H4. split; [by rewrite Hl|].
  split; intros k; destruct k; simpl; intros; lia.
Qed.

Lemma cleaned_Accumulates w : Accumulates w (cleaned w).
Proof.
  split; [|split].
  - intros l Hl Hcb.
    pose proof (closures_survive_cleanup w l Hl Hcb) as H.
    by rewrite cleanupCurrentPlane_eq in H.
  - intros k. destruct_world w. unfold cleaned. destruct k; simpl;
      by rewrite length_disposeAt.
  - intros k id. destruct_world w. unfold cleaned. destruct k; simpl;
      rewrite length_disposeAt; lia.
Qed.

Lemma createWavePlane_Accumulates env w : Accumulates w (createWavePlane env w).2.
Proof.
  destruct (wavePlaneThrows env) eqn:He.
  - rewrite createWavePlane_failed by done. by apply Accumulates_same.
  - rewrite createWavePlane_ok by done. destruct_world w.
    unfold Accumulates, storeLength. world_norm.
    split; [done|].
    split; [intros k|intros k id Hlo Hhi]; destruct k; simpl in *;
      rewrite ?length_app in *; simpl in *; try lia.
    intros l Hl. by apply elem_of_nil in Hl.
Qed.

Lemma createSDFPlane_Accumulates env w : Accumulates w (createSDFPlane env w).2.
Proof.
  destruct (constructionFails env) eqn:He.
  - destruct (createSDFPlane_failed env w He) as (entries & -> & _).
    by apply Accumulates_same.
  - destruct (createSDFPlane_ok env w He) as (entries & ->). destruct_world w.
    unfold Accumulates, storeLength. world_norm.
    split; [done|].
    split; [intros k|intros k id Hlo Hhi]; destruct k; simpl in *;
      rewrite ?length_app in *; simpl in *; try lia.
    intros l Hl. by apply elem_of_nil in Hl.
Qed.

Lemma createDesertTankPlane_Accumulates env w :
  Accumulates w (createDesertTankPlane env w).2.
Proof.
  destruct (constructionFails env) eqn:He.
  - destruct (createDesertTankPlane_failed env w He) as (entries & -> & _).
    by apply Accumulates_same.
  - destruct (createDesertTankPlane_ok env w He) as (entries & ->). destruct_world w.
    unfold Accumulates, storeLength. world_norm.
    split; [intros l Hl _; rewrite !elem_of_register; auto|].
    split; [intros k|intros k id Hlo Hhi]; destruct k; simpl in *;
      rewrite ?length_app in *; simpl in *; try lia.
    assert (id = length tankStore) as -> by lia.
    intros l Hl. rewrite !elem_of_register.
    apply elem_of_cons in Hl as [->|Hl]; [auto|].
    apply elem_of_cons in Hl as [->|Hl]; [auto|].
    by apply elem_of_nil in Hl.
Qed.

Lemma createRayMarchingPlane_Accumulates env w :
  is_Some (renderer w) → Accumulates w (createRayMarchingPlane env w).2.
Proof.
  intros Hr. destruct (constructionFails env) eqn:He.
  - destruct (createRayMarchingPlane_failed env w He) as (entries & err & ->).
    by apply Accumulates_same.
  - destruct (createRayMarchingPlane_ok env w He Hr) as (entries & ->). destruct_world w.
    unfold Accumulates, storeLength. world_norm.
    split; [intros l Hl _; rewrite !elem_of_register; auto|].
    split; [intros k|intros k id Hlo Hhi]; destruct k; simpl in *;
      rewrite ?length_app in *; simpl in *; try lia.
    assert (id = length rayStore) as -> by lia.
    intros l Hl. rewrite !elem_of_register.
    apply elem_of_cons in Hl as [->|Hl]; [auto|].
    apply elem_of_cons in Hl as [->|Hl]; [auto|].
    by apply elem_of_nil in Hl.
Qed.

Lemma switchToPlane_Accumulates env planeType w :
  is_Some (renderer w) → Accumulates w (switchToPlane env planeType w).2.
Proof.
  intros Hr. rewrite switchToPlane_eq. cbv zeta.
  assert (Accumulates w (cleaned (announced planeType w))) as Hacc.
  { eapply Accumulates_trans; [|apply cleaned_Accumulates].
    by apply Accumulates_same. }
  assert (is_Some (renderer (cleaned (announced planeType w)))) as Hr'.
  { by destruct_world w. }
  revert Hacc Hr'. generalize (cleaned (announced planeType w)). intros w1 Hacc Hr'.
  assert (∀ w2, Accumulates w1 w2 → Accumulates w (switched planeType w2)) as Hsw.
  { intros w2 H2. eapply Accumulates_trans; [exact Hacc|].
    eapply Accumulates_trans; [exact H2|]. by apply Accumulates_same. }
  destruct (kindOfTag planeType) as [[| | |]|].
  - apply Hsw, createWavePlane_Accumulates.
  - apply Hsw, createSDFPlane_Accumulates.
  - apply Hsw, createDesertTankPlane_Accumulates.
  - pose proof (createRayMarchingPlane_Accumulates env w1 Hr') as H2.
    destruct (createRayMarchingPlane env w1) as [[u|e] w2]; cbn [snd] in *.
    + by apply Hsw.
    + by eapply Accumulates_trans.
  - case_bool_decide; cbn [snd].
    + apply Hsw, Accumulates_refl.
    + eapply Accumulates_trans; [exact Hacc|]. by apply Accumulates_same.
Qed.

Lemma runCallback_frame env type ev cb w :
  ∃ w', runCallback env type ev cb w = (Normal (), w') ∧
    listeners w' = listeners w ∧
    length (waves w') = length (waves w) ∧ length (sdfs w') = length (sdfs w) ∧
    length (tanks w') = length (tanks w) ∧ length (rays w') = length (rays w).
Proof.
  unfold runCallback.
  destruct cb, ev; (eexists; split; [reflexivity|]); destruct_world w; world_norm;
    rewrite ?length_alter; done.
Qed.

Lemma deliver_frame env type ev ls w :
  let w' := (deliver env type ev ls w).2 in
  listeners w' = listeners w ∧
  length (waves w') = length (waves w) ∧ length (sdfs w') = length (sdfs w) ∧
  length (tanks w') = length (tanks w) ∧ length (rays w') = length (rays w).
Proof.
  cbv zeta. revert w. induction ls as [|l ls IH]; intros w; [done|].
  simpl deliver. unfold mbind, Js_bind.
  destruct (runCallback_frame env type ev (l_callback l) w)
    as (w' & -> & Hl & H1 & H2 & H3 & H4).
  destruct (IH w') as (Hl' & H1' & H2' & H3' & H4'). repeat split; congruence.
Qed.

Lemma step_Accumulates w c : Consistent w → Accumulates w (step w c).
Proof.
  intros Hc. destruct c as [env planeType|vw vh|env target type ev]; simpl.
  - apply switchToPlane_Accumulates, Hc.
  - destruct (c_renderer _ Hc) as [r Hr].
    rewrite (resize_eq vw vh w r) by (done || apply Hc).
    by apply Accumulates_same.
  - unfold dispatchEvent, gets, mbind, Js_bind.
    destruct (deliver_frame env type ev
                (filter (λ l, l_target l = target ∧ l_type l = type) (listeners w)) w)
      as (Hl & H1 & H2 & H3 & H4).
    by apply Accumulates_same.
Qed.

Lemma run_Accumulates cs w : Consistent w → Accumulates w (run cs w).
Proof.
  revert w. induction cs as [|c cs IH]; intros w Hc; [apply Accumulates_refl|].
  simpl. eapply Accumulates_trans; [by apply step_Accumulates|].
  apply IH. by apply step_Consistent.
Qed.

(** X6 — No listener of a plane is ever removed.  In every state the
    engine reaches from start-up, each desert tank ever constructed still
    has its key closure registered on the document for keydown and keyup,
    and each raymarching plane ever constructed still has its two pointer
    closures registered on the canvas, whether the plane is the active one
    or was disposed long ago. *)
Theorem listeners_are_never_removed (env0 : Env) (cs : list Command) :
  (boot env0).1 = Normal () →
  let w := run cs (boot env0).2 in
  ∀ k id, id < storeLength k w → closureListeners k id ⊆ listeners w.
Proof.
  intros Hb w k id Hid.
  destruct (run_Accumulates cs (boot env0).2 (boot_Consistent env0 Hb)) as (_ & _ & Hnew).
  apply Hnew; [|done].
  destruct (boot_Vacant env0 Hb) as (_ & _ & Halloc & _).
  unfold allocated in Halloc. destruct k; simpl; lia.
Qed.

Lemma listeners_are_never_removed_witness :
  let w := run [SelectVariant chrome "desert-tank"; SelectVariant chrome "raymarching";
                SelectVariant chrome "desert-tank"; SelectVariant chrome "none"]
             (boot chrome).2 in
  closureListeners DesertTank 0 ⊆ listeners w ∧
  closureListeners Raymarching 0 ⊆ listeners w ∧
  closureListeners DesertTank 1 ⊆ listeners w.
Proof.
  pose proof (listeners_are_never_removed chrome
                [SelectVariant chrome "desert-tank"; SelectVariant chrome "raymarching";
                 SelectVariant chrome "desert-tank"; SelectVariant chrome "none"]
                eq_refl) as H.
  repeat split; apply H; vm_compute; lia.
Defined.

(** ** Input events *)

(** What the key closures of a list of listeners do to the store of desert
    tanks. *)
Lemma deliver_key env type code ls w :
  deliver env type (KeyboardEvent code) ls w =
    (Normal (),
     set_tanks
       (foldl (keyStep type code) (tanks w) ls) w).
Proof.
  revert w. induction ls as [|l ls IH]; intros w; [by destruct_world w|].
  simpl deliver. unfold mbind, Js_bind, runCallback.
  assert (Hk := eq_refl (keyStep type code (tanks w) l)).
  unfold keyStep at 2 in Hk.
  destruct (l_callback l) eqn:Hcb; unfold modify, mret, Js_ret;
    rewrite IH; cbn [foldl]; rewrite Hk; by destruct_world w.
Qed.

Lemma tank_onDocumentKey_idemp type code p :
  tank_onDocumentKey type code (tank_onDocumentKey type code p) =
    tank_onDocumentKey type code p.
Proof.
  unfold tank_onDocumentKey. case_bool_decide; [done|].
  destruct p. unfold with_tank_keyMap. simpl.
  by rewrite insert_insert_eq.
Qed.

Lemma tank_onDocumentKey_keyMap type code p :
  with_tank_keyMap (tank_keyMap p) (tank_onDocumentKey type code p) = p ∧
  if bool_decide (code = "__proto__") then tank_onDocumentKey type code p = p
  else
    tank_keyMap (tank_onDocumentKey type code p) =
      <[code := bool_decide (type = "keydown")]> (tank_keyMap p) ∧
    keyDown (tank_onDocumentKey type code p) code = bool_decide (type = "keydown").
Proof.
  unfold tank_onDocumentKey, keyDown. case_bool_decide; [by destruct p|].
  destruct p; simpl. by rewrite lookup_insert_eq.
Qed.

Lemma keyFold_untouched type code id ls ts :
  (∀ l, l ∈ ls → l_callback l ≠ OnDocumentKey id) →
  foldl (keyStep type code) ts ls !! id = ts !! id.
Proof.
  revert ts. induction ls as [|l ls IH]; intros ts Hno; [done|].
  cbn [foldl]. rewrite IH by (intros l' Hl'; apply Hno; by right).
  unfold keyStep. pose proof (Hno l (list_elem_of_here _ _)) as Hl.
  destruct (l_callback l) as [j| | |]; try done.
  apply list_lookup_alter_ne. congruence.
Qed.

Lemma keyFold_settled type code id ls ts p :
  ts !! id = Some (tank_onDocumentKey type code p) →
  foldl (keyStep type code) ts ls !! id = Some (tank_onDocumentKey type code p).
Proof.
  revert ts. induction ls as [|l ls IH]; intros ts Hts; [done|].
  cbn [foldl]. apply IH. unfold keyStep.
  destruct (l_callback l) as [j| | |]; try done.
  destruct (decide (j = id)) as [->|Hne].
  - by rewrite list_lookup_alter_eq, Hts; simpl; rewrite tank_onDocumentKey_idemp.
  - by rewrite list_lookup_alter_ne.
Qed.

Lemma keyFold_reached type code id ls ts p l :
  l ∈ ls → l_callback l = OnDocumentKey id →
  ts !! id = Some p →
  foldl (keyStep type code) ts ls !! id = Some (tank_onDocumentKey type code p).
Proof.
  revert ts. induction ls as [|l' ls IH]; intros ts Hl Hcb Hts.
  { by apply elem_of_nil in Hl. }
  cbn [foldl].
  destruct (decide (l_callback l' = OnDocumentKey id)) as [Hhere|Hnot].
  - apply keyFold_settled. unfold keyStep. rewrite Hhere.
    by rewrite list_lookup_alter_eq, Hts.
  - apply elem_of_cons in Hl as [->|Hl]; [done|].
    apply IH; [done|done|]. unfold keyStep.
    destruct (l_callback l') as [j| | |]; try done.
    rewrite list_lookup_alter_ne; [done|congruence].
Qed.

(** X7 — A key event on the document reaches every desert tank whose key
    closure is registered for that event type, disposed or not, and it
    changes at most the tank's key map.  For every code but ["__proto__"]
    the key map gets the entry [code ↦ (type = "keydown")], which is what
    [keyMap[code]] then reads.  For the code ["__proto__"] the assignment
    stores nothing and the tank is left as it was.  Tanks whose closure is
    not registered for the type are left as they are, and so is everything
    outside the store of tanks. *)
Theorem key_event_reaches_registered_tanks (env : Env) (type code : string) (w : World) :
  let r := dispatchEvent env Document type (KeyboardEvent code) w in
  r.1 = Normal () ∧
  (∀ id p, mkListener Document type (OnDocumentKey id) ∈ listeners w →
           tanks w !! id = Some p →
           ∃ p', tanks r.2 !! id = Some p' ∧
                 with_tank_keyMap (tank_keyMap p) p' = p ∧
                 if bool_decide (code = "__proto__") then p' = p
                 else
                   tank_keyMap p' =
                     <[code := bool_decide (type = "keydown")]> (tank_keyMap p) ∧
                   keyDown p' code = bool_decide (type = "keydown")) ∧
  (∀ id, mkListener Document type (OnDocumentKey id) ∉ listeners w →
         tanks r.2 !! id = tanks w !! id) ∧
  set_tanks (tanks w) r.2 = w.
Proof.
  cbv zeta. unfold dispatchEvent, gets, mbind, Js_bind. rewrite deliver_key.
  cbn [fst snd]. split; [done|]. split; [|split].
  - intros id p Hin Hp. exists (tank_onDocumentKey type code p). split.
    + destruct_world w. world_norm.
      apply (keyFold_reached type code id _ _ p
               (mkListener Document type (OnDocumentKey id))); [|done|done].
      apply list_elem_of_filter. by split.
    + apply tank_onDocumentKey_keyMap.
  - intros id Hno. destruct_world w. world_norm.
    apply keyFold_untouched. intros l Hl Hcb.
    apply list_elem_of_filter in Hl as [[Ht Hty] Hl].
    apply Hno. destruct l as [t ty cb]. simpl in *. by subst.
  - by destruct_world w.
Qed.

Lemma key_event_reaches_registered_tanks_witness :
  (∃ p', tanks (dispatchEvent chrome Document "keydown" (KeyboardEvent "KeyA")
                  tankActive).2 !! 0 = Some p' ∧
         with_tank_keyMap (tank_keyMap (tankObject chrome)) p' = tankObject chrome ∧
         tank_keyMap p' = <[ "KeyA" := true ]> (tank_keyMap (tankObject chrome)) ∧
         keyDown p' "KeyA" = true) ∧
  (∃ p', tanks (dispatchEvent chrome Document "keyup" (KeyboardEvent "__proto__")
                  tankActive).2 !! 0 = Some p' ∧
         with_tank_keyMap (tank_keyMap (tankObject chrome)) p' = tankObject chrome ∧
         p' = tankObject chrome).
Proof.
  split.
  - apply (key_event_reaches_registered_tanks chrome "keydown" "KeyA" tankActive).
    + apply list_elem_of_here.
    + reflexivity.
  - apply (key_event_reaches_registered_tanks chrome "keyup" "__proto__" tankActive).
    + apply list_elem_of_further, list_elem_of_here.
    + reflexivity.
Defined.

(** ** Accessors *)

Ltac accessors :=
  repeat match goal with
         | H : ?u !! ?k = _ |- context [?u !! ?k] => rewrite H
         | |- context [<[?k:=_]> _ !! ?k] => rewrite lookup_insert_eq
         | |- context [<[?k:=_]> _ !! ?j] => rewrite (lookup_insert_ne _ k j) by done
         end.

(** X8 — The accessors of the SDF plane.  Reading a parameter back after
    setting it returns the value set, on the TSL path (the value lives in
    the TSL uniform) as on the fallback path (it lives in the uniform of
    the fallback material); when the parameter has neither, the setter
    does nothing and the getter keeps returning the default (0.25 for the
    radius, 1.5 for the fade).  Setting one parameter leaves the other one
    and the geometry alone. *)
Theorem sdf_accessors_round_trip (p : TSLPlaneSDF) (v : number) :
  sdf_radius (sdf_set_radius v p) =
    (if backed (sdf_radiusUniform p) (sdf_material p) "uRadius" then v else 0.25%float) ∧
  sdf_fade (sdf_set_fade v p) =
    (if backed (sdf_fadeUniform p) (sdf_material p) "uFade" then v else 1.5%float) ∧
  sdf_fade (sdf_set_radius v p) = sdf_fade p ∧
  sdf_radius (sdf_set_fade v p) = sdf_radius p ∧
  sdf_geometry (sdf_set_radius v p) = sdf_geometry p ∧
  sdf_geometry (sdf_set_fade v p) = sdf_geometry p.
Proof.
  destruct p as [g m ru fu].
  unfold sdf_radius, sdf_fade, sdf_set_radius, sdf_set_fade, backed. cbn.
  destruct m as [d|u d]; cbn.
  - destruct ru, fu; done.
  - destruct (u !! "uRadius") eqn:Hr, (u !! "uFade") eqn:Hf, ru, fu; cbn;
      accessors; done.
Qed.

Ltac unfold_accessors :=
  unfold ray_settings, ray_radius, ray_fade, ray_maxSteps, ray_surfaceDistance,
    ray_maxDistance, ray_timeMultiplier, ray_rayFrom, ray_rayTo,
    ray_set_radius, ray_set_fade, ray_set_maxSteps, ray_set_surfaceDistance,
    ray_set_maxDistance, ray_set_timeMultiplier, ray_set_rayFrom, ray_set_rayTo,
    raySetter, numberGetter, vectorGetter, backed,
    tank_settings, tank_wheelOffset, tank_bulletOffset, tank_shellOffset,
    tank_set_wheelOffset, tank_set_bulletOffset, tank_set_shellOffset, tankSetter.

(** The cases of a setter: the TSL uniform [x] exists; or the material is a
    node material; or it is the fallback material, with or without the
    uniform [name]. *)
Ltac setter_cases x m name :=
  destruct x; cbn; [reflexivity|];
  destruct m as [?d|?um ?d]; cbn; [reflexivity|];
  match goal with um : gmap string UValue |- _ =>
    destruct (um !! name) eqn:?; cbn; accessors; reflexivity
  end.

(** X9 — The accessors of the raymarching plane.  Each of the eight
    setters stores its value where the matching getter reads it (the TSL
    uniform when there is one, else the uniform of the fallback material),
    so that the getter returns the value set, and changes none of the seven
    other parameters; a parameter with neither uniform is not settable and
    keeps reading as its default. *)
Theorem ray_setters_are_independent (p : TSLPlaneRaymarching) (v : number) (u : Vector2) :
  let s := ray_settings p in
  let m := ray_material p in
  ray_settings (ray_set_radius v p) =
    raySettings (if backed (ray_radiusUniform p) m "uRadius" then v else 0.15%float)
      (s_fade s) (s_maxSteps s) (s_surfaceDistance s) (s_maxDistance s)
      (s_timeMultiplier s) (s_rayFrom s) (s_rayTo s) ∧
  ray_settings (ray_set_fade v p) =
    raySettings (s_radius s)
      (if backed (ray_fadeUniform p) m "uFade" then v else 1.0%float)
      (s_maxSteps s) (s_surfaceDistance s) (s_maxDistance s)
      (s_timeMultiplier s) (s_rayFrom s) (s_rayTo s) ∧
  ray_settings (ray_set_maxSteps v p) =
    raySettings (s_radius s) (s_fade s)
      (if backed (ray_maxStepsUniform p) m "uMaxSteps" then v else 20%float)
      (s_surfaceDistance s) (s_maxDistance s)
      (s_timeMultiplier s) (s_rayFrom s) (s_rayTo s) ∧
  ray_settings (ray_set_surfaceDistance v p) =
    raySettings (s_radius s) (s_fade s) (s_maxSteps s)
      (if backed (ray_surfaceDistanceUniform p) m "uSurfaceDistance"
       then v else 0.0001%float)
      (s_maxDistance s) (s_timeMultiplier s) (s_rayFrom s) (s_rayTo s) ∧
  ray_settings (ray_set_maxDistance v p) =
    raySettings (s_radius s) (s_fade s) (s_maxSteps s) (s_surfaceDistance s)
      (if backed (ray_maxDistanceUniform p) m "uMaxDistance" then v else 5.0%float)
      (s_timeMultiplier s) (s_rayFrom s) (s_rayTo s) ∧
  ray_settings (ray_set_timeMultiplier v p) =
    raySettings (s_radius s) (s_fade s) (s_maxSteps s) (s_surfaceDistance s)
      (s_maxDistance s)
      (if backed (ray_timeMultiplierUniform p) m "uTimeMultiplier" then v else 1.0%float)
      (s_rayFrom s) (s_rayTo s) ∧
  ray_settings (ray_set_rayFrom u p) =
    raySettings (s_radius s) (s_fade s) (s_maxSteps s) (s_surfaceDistance s)
      (s_maxDistance s) (s_timeMultiplier s)
      (if backed (ray_rayFromUniform p) m "uRayFrom" then u else vec2 0.5 0.5)
      (s_rayTo s) ∧
  ray_settings (ray_set_rayTo u p) =
    raySettings (s_radius s) (s_fade s) (s_maxSteps s) (s_surfaceDistance s)
      (s_maxDistance s) (s_timeMultiplier s) (s_rayFrom s)
      (if backed (ray_rayToUniform p) m "uRayTo" then u else vec2 1 1).
Proof.
  destruct p as [g m ru fu rfu rtu msu sdu mdu tmu ptr cam].
  cbv zeta. unfold_accessors. cbn.
  split; [setter_cases ru m "uRadius"|].
  split; [setter_cases fu m "uFade"|].
  split; [setter_cases msu m "uMaxSteps"|].
  split; [setter_cases sdu m "uSurfaceDistance"|].
  split; [setter_cases mdu m "uMaxDistance"|].
  split; [setter_cases tmu m "uTimeMultiplier"|].
  split; [setter_cases rfu m "uRayFrom"|].
  setter_cases rtu m "uRayTo".
Qed.

(** X10 — The accessors of the desert tank.  Each of the three setters
    makes its getter return the value set and leaves the two other
    parameters alone; a parameter with neither a TSL uniform nor a uniform
    in the fallback material is not settable and keeps reading as its
    default.  No setter touches the game state (the jump and shoot latches
    and the key map). *)
Theorem tank_setters_are_independent (p : TSLPlaneDesertTank) (v : number) (u : Vector2) :
  let s := tank_settings p in
  let m := tank_material p in
  tank_settings (tank_set_wheelOffset u p) =
    tankSettings (if backed (tank_wheelOffsetUniform p) m "uWheelOffset"
                  then u else vec2 (-10) 0)
      (s_bulletOffset s) (s_shellOffset s) ∧
  tank_settings (tank_set_bulletOffset v p) =
    tankSettings (s_wheelOffset s)
      (if backed (tank_bulletOffsetUniform p) m "uBulletOffset" then v else 20%float)
      (s_shellOffset s) ∧
  tank_settings (tank_set_shellOffset v p) =
    tankSettings (s_wheelOffset s) (s_bulletOffset s)
      (if backed (tank_shellOffsetUniform p) m "uShellOffset" then v else 25%float) ∧
  ∀ q, q ∈ [tank_set_wheelOffset u p; tank_set_bulletOffset v p; tank_set_shellOffset v p] →
       tank_canJump q = tank_canJump p ∧ tank_canShoot q = tank_canShoot p ∧
       tank_keyMap q = tank_keyMap p.
Proof.
  destruct p as [g m wu bu su cj cs km].
  cbv zeta. unfold_accessors. cbn.
  split; [setter_cases wu m "uWheelOffset"|].
  split; [setter_cases bu m "uBulletOffset"|].
  split; [setter_cases su m "uShellOffset"|].
  intros q Hq.
  repeat (apply elem_of_cons in Hq as [->|Hq];
          [repeat match goal with |- context [match ?x with _ => _ end] => destruct x end;
           done|]).
  by apply elem_of_nil in Hq.
Qed.

(** ** Which uniforms the fallback shader reads *)

(** X11 — When the TSL block of the raymarching plane throws only after
    some of its uniforms were created (say, in the node material), the
    plane falls back to the ShaderMaterial but its setters keep writing
    to the TSL uniforms, which no shader reads any more.  After the switch
    to raymarching the getters report the configured values (radius 0.2,
    25 steps, time multiplier 0.5) while the uniforms of the material that
    is drawn still hold the defaults (0.15, 20, 1.0) for every parameter
    whose TSL uniform was created before the failure; the configuration
    reaches the fallback shader only for the parameters created after
    it. *)
Theorem late_tsl_failure_orphans_the_settings (env : Env) (k : nat) (w : World) :
  tslThrowsAfter env = Some k →
  constructionFails env = false →
  is_Some (renderer w) →
  let r := switchToPlane env "raymarching" w in
  r.1 = Normal () ∧
  ∃ p, activePlanes r.2 = [RayObject p] ∧
    ray_radius p = 0.2%float ∧ ray_maxSteps p = 25%float ∧
    ray_timeMultiplier p = 0.5%float ∧
    shaderUniform (ray_material p) "uRadius" =
      Some (UNum (if bool_decide (0 < k) then 0.15 else 0.2)) ∧
    shaderUniform (ray_material p) "uMaxSteps" =
      Some (UNum (if bool_decide (4 < k) then 20 else 25)) ∧
    shaderUniform (ray_material p) "uTimeMultiplier" =
      Some (UNum (if bool_decide (7 < k) then 1.0 else 0.5)).
Proof.
  intros Hk He Hr. cbv zeta.
  destruct (switchToPlane_built env "raymarching" Raymarching w eq_refl He Hr)
    as (w' & -> & _ & _ & Hactive & _).
  split; [done|]. exists (rayObject env). split; [exact Hactive|].
  unfold rayObject, rayConstructed, builtMaterial, assigned. rewrite Hk.
  do 9 (try destruct k as [|k]); vm_compute; done.
Qed.

Lemma late_tsl_failure_orphans_the_settings_witness :
  let r := switchToPlane nodeMaterialFails "raymarching" started in
  r.1 = Normal () ∧
  ∃ p, activePlanes r.2 = [RayObject p] ∧
    ray_radius p = 0.2%float ∧ ray_maxSteps p = 25%float ∧
    ray_timeMultiplier p = 0.5%float ∧
    shaderUniform (ray_material p) "uRadius" =
      Some (UNum (if bool_decide (0 < 8) then 0.15 else 0.2)) ∧
    shaderUniform (ray_material p) "uMaxSteps" =
      Some (UNum (if bool_decide (4 < 8) then 20 else 25)) ∧
    shaderUniform (ray_material p) "uTimeMultiplier" =
      Some (UNum (if bool_decide (7 < 8) then 1.0 else 0.5)).
Proof.
  apply (late_tsl_failure_orphans_the_settings nodeMaterialFails 8 started).
  - reflexivity.
  - reflexivity.
  - by eexists.
Defined.

(** ** Constructors *)

(** The ways a plane constructor can go: the geometry throws; the TSL
    block throws and the fallback material throws or not; nothing throws. *)
Ltac ctor_cases env w :=
  destruct env as [iw ih gpu gput gl2 gl2t glt gt tsl smt wt]; destruct_world w;
  ctor_unfold; unfold register;
  cbv beta iota delta [geometryThrows tslThrowsAfter shaderMaterialThrows];
  destruct gt; [|destruct tsl as [k|]; [destruct smt|]]; world_norm.

(** X12 — [new TSLPlaneSDF(params)].  The constructor throws exactly when
    the geometry cannot be built, or when the TSL block fails and the
    fallback material cannot be built either; the exception is that of
    three.js and no object comes into being.  Otherwise it returns a new
    plane of [params.width × params.height] (4 × 2 by default) with 64 × 32
    segments by default, whose radius reads 0.25 and whose fade reads 1.5
    on the TSL path and on the fallback path alike.  Besides the object,
    the constructor only writes to the console. *)
Theorem sdf_constructor (env : Env) (params : PlaneParams) (w : World) :
  if constructionFails env then
    ∃ entries,
      new_TSLPlaneSDF env params w =
        (Throw (LibraryError (if geometryThrows env then "PlaneGeometry"
                              else "ShaderMaterial")),
         set_console (console w ++ entries) w)
  else
    ∃ p entries,
      new_TSLPlaneSDF env params w =
        (Normal (length (sdfs w)),
         set_console (console w ++ entries) (set_sdfs (sdfs w ++ [p]) w)) ∧
      sdf_geometry p =
        planeGeometry (default 4%float (p_width params)) (default 2%float (p_height params))
          (default 64%float (p_widthSegments params))
          (default 32%float (p_heightSegments params)) false ∧
      sdf_radius p = 0.25%float ∧ sdf_fade p = 1.5%float ∧
      isLive p = true.
Proof.
  unfold new_TSLPlaneSDF.
  ctor_cases env w; simpl; rewrite <- ?app_assoc; simpl app.
  - eexists. rewrite <- (app_nil_r lines) at 1. reflexivity.
  - eexists. reflexivity.
  - eexists _, _. split; [reflexivity|].
    unfold sdf_radius, sdf_fade, assigned; simpl.
    repeat case_bool_decide; done.
  - eexists _, _. split; [reflexivity|]. done.
Qed.

(** X13 — [new TSLPlaneDesertTank(params)].  The constructor throws under
    the same conditions as the SDF one, and then no object comes into being
    and no listener is registered (the controls come last).  Otherwise it
    returns a new plane of 2 × 2 with 64 × 64 segments by default, whose
    wheel offset reads (−10, 0), bullet offset 20 and shell offset 25 on
    either material path, which may jump and shoot, with an empty key map,
    and whose key closure is registered on the document for keydown and
    keyup. *)
Theorem desert_tank_constructor (env : Env) (params : PlaneParams) (w : World) :
  if constructionFails env then
    ∃ entries,
      new_TSLPlaneDesertTank env params w =
        (Throw (LibraryError (if geometryThrows env then "PlaneGeometry"
                              else "ShaderMaterial")),
         set_console (console w ++ entries) w)
  else
    ∃ p entries,
      new_TSLPlaneDesertTank env params w =
        (Normal (length (tanks w)),
         set_console (console w ++ entries)
           (set_listeners
              (register (mkListener Document "keyup" (OnDocumentKey (length (tanks w))))
                 (register (mkListener Document "keydown" (OnDocumentKey (length (tanks w))))
                    (listeners w)))
              (set_tanks (tanks w ++ [p]) w))) ∧
      tank_geometry p =
        planeGeometry (default 2%float (p_width params)) (default 2%float (p_height params))
          (default 64%float (p_widthSegments params))
          (default 64%float (p_heightSegments params)) false ∧
      tank_settings p = tankSettings (vec2 (-10) 0) 20 25 ∧
      tank_canJump p = true ∧ tank_canShoot p = true ∧ tank_keyMap p = ∅ ∧
      isLive p = true.
Proof.
  unfold new_TSLPlaneDesertTank.
  destruct env as [iw ih gpu gput gl2 gl2t glt gt tsl smt wt]; destruct_world w;
  ctor_unfold;
  cbv beta iota delta [geometryThrows tslThrowsAfter shaderMaterialThrows];
  (destruct gt; [|destruct tsl as [k|]; [destruct smt|]]); world_norm;
  simpl; rewrite <- ?app_assoc; simpl app.
  - eexists. rewrite <- (app_nil_r lines) at 1. reflexivity.
  - eexists. reflexivity.
  - eexists _, _. split; [reflexivity|].
    unfold tank_settings, tank_wheelOffset, tank_bulletOffset, tank_shellOffset,
      assigned; simpl.
    repeat case_bool_decide; done.
  - eexists _, _. split; [reflexivity|]. done.
Qed.

(** X14 — [new TSLPlaneRaymarching(params)].  The constructor throws under
    the same conditions as the two others, and then no object comes into
    being.  Otherwise it returns a new plane of 2 × 2 with 64 × 64 segments
    by default whose eight parameters read as their defaults on either
    material path: radius 0.15, fade 1, 20 steps, surface distance 0.0001,
    maximal distance 5, time multiplier 1, ray from (0.5, 0.5) to (1, 1).
    The constructor registers no listener and knows no camera:
    [setupMouseInteraction] does that. *)
Theorem raymarching_constructor (env : Env) (params : PlaneParams) (w : World) :
  if constructionFails env then
    ∃ entries,
      new_TSLPlaneRaymarching env params w =
        (Throw (LibraryError (if geometryThrows env then "PlaneGeometry"
                              else "ShaderMaterial")),
         set_console (console w ++ entries) w)
  else
    ∃ p entries,
      new_TSLPlaneRaymarching env params w =
        (Normal (length (rays w)),
         set_console (console w ++ entries) (set_rays (rays w ++ [p]) w)) ∧
      ray_geometry p =
        planeGeometry (default 2%float (p_width params)) (default 2%float (p_height params))
          (default 64%float (p_widthSegments params))
          (default 64%float (p_heightSegments params)) false ∧
      ray_settings p = raySettings 0.15 1 20 0.0001 5 1 (vec2 0.5 0.5) (vec2 1 1) ∧
      ray_camera p = false ∧
      isLive p = true.
Proof.
  unfold new_TSLPlaneRaymarching.
  ctor_cases env w; simpl; rewrite <- ?app_assoc; simpl app.
  - eexists. rewrite <- (app_nil_r lines) at 1. reflexivity.
  - eexists. reflexivity.
  - eexists _, _. split; [reflexivity|].
    unfold_accessors; unfold assigned; simpl.
    repeat case_bool_decide; done.
  - eexists _, _. split; [reflexivity|]. done.
Qed.

(** ** The frame update *)

Lemma setTime_disposed t m : materialDisposed (setTime t m) = materialDisposed m.
Proof. unfold setTime. destruct (shaderUniform m "uTime"); [|done]. by destruct m. Qed.

Lemma advanceTime_disposed dt m : materialDisposed (advanceTime dt m) = materialDisposed m.
Proof.
  unfold advanceTime. destruct (shaderUniform m "uTime") as [[t|v]|]; try done.
  by destruct m.
Qed.

Lemma sdf_update_live t p : isLive (sdf_update t p) = isLive p.
Proof.
  unfold isLive, sdf_resource, sdf_update. simpl. by rewrite setTime_disposed.
Qed.

Lemma ray_update_live t p : isLive (ray_update t p) = isLive p.
Proof.
  unfold isLive, ray_resource, ray_update. destruct p. simpl.
  by rewrite setTime_disposed.
Qed.

Lemma tankSetter_live {A} u setU name (inj : A → UValue) v p :
  (∀ o q, isLive (setU o q) = isLive q) →
  isLive (tankSetter u setU name inj v p) = isLive p.
Proof.
  intros HsetU. unfold tankSetter. destruct (u p); [apply HsetU|].
  destruct (shaderUniform (tank_material p) name); [|done].
  destruct p as [g [d|um d] ? ? ? ? ? ?]; done.
Qed.

Lemma tank_set_wheelOffset_live v p : isLive (tank_set_wheelOffset v p) = isLive p.
Proof. apply tankSetter_live. by intros o []. Qed.

Lemma tank_set_bulletOffset_live v p : isLive (tank_set_bulletOffset v p) = isLive p.
Proof. apply tankSetter_live. by intros o []. Qed.

Lemma tank_set_shellOffset_live v p : isLive (tank_set_shellOffset v p) = isLive p.
Proof. apply tankSetter_live. by intros o []. Qed.

Lemma with_tank_canJump_live b p : isLive (with_tank_canJump b p) = isLive p.
Proof. by destruct p. Qed.

Lemma with_tank_canShoot_live b p : isLive (with_tank_canShoot b p) = isLive p.
Proof. by destruct p. Qed.

Lemma tank_update_live clock id dt p : isLive (tank_update clock id dt p).1 = isLive p.
Proof.
  unfold tank_update, tank_jump, tank_shoot.
  repeat match goal with
         | |- context [if ?b then _ else _] => destruct b
         end; cbn [fst snd negb];
    unfold isLive, tank_resource; cbn [tank_geometry tank_material with_tank_material];
    rewrite ?advanceTime_disposed;
    repeat first
      [ rewrite tank_set_wheelOffset_live | rewrite tank_set_bulletOffset_live
      | rewrite tank_set_shellOffset_live | rewrite with_tank_canJump_live
      | rewrite with_tank_canShoot_live
      | progress change (negb (geometryDisposed (tank_geometry ?q) &&
                               materialDisposed (tank_material ?q)))
          with (isLive q) ];
    reflexivity.
Qed.

Lemma list_insert_alter {A} (f : A → A) (l : list A) (i : nat) (x : A) :
  l !! i = Some x → <[i := f x]> l = alter f i l.
Proof.
  revert i. induction l as [|y l IH]; intros [|i] Hi; try done; simpl in *.
  - by inversion Hi.
  - f_equal. by apply IH.
Qed.

Ltac update_cases w Hc :=
  destruct_consistent Hc; destruct_world w; world_norm;
  repeat match goal with H : ?x = None |- _ => is_var x; subst x end;
  unfold update; world_norm;
  repeat case_bool_decide.


Ltac keeps_live Hwu :=
  intros; cbv beta;
  first [apply Hwu|apply sdf_update_live|apply ray_update_live
        |exact (tank_update_live _ _ _ _)].

Lemma update_spec (wave_update : number → TSLPlane → TSLPlane)
    (clock : Clock) (w : World) :
  Consistent w →
  ∃ requested w',
    update wave_update clock w = (Normal requested, w') ∧
    currentActivePlane w' = currentActivePlane w ∧
    fieldRefs w' = fieldRefs w ∧ scene w' = scene w ∧ renderer w' = renderer w ∧
    listeners w' = listeners w ∧ console w' = console w ∧ calls w' = calls w ∧
    allocated w' = allocated w ∧
    (currentActivePlane w ≠ "wave" → waves w' = waves w) ∧
    (currentActivePlane w ≠ "sdf" → sdfs w' = sdfs w) ∧
    (currentActivePlane w ≠ "desert-tank" → tanks w' = tanks w ∧ requested = []) ∧
    (currentActivePlane w ≠ "raymarching" → rays w' = rays w) ∧
    (fieldRefs w = [] → w' = w ∧ requested = []) ∧
    ((∀ t p, isLive (wave_update t p) = isLive p) →
     Consistent w' ∧ liveCount w' = liveCount w).
Proof.
  intros Hc. update_cases w Hc.
  1: destruct wave as [id|].
  3: destruct sdf as [id|].
  5: destruct tank as [id|]; [destruct (tankStore !! id) as [p|] eqn:Hp|].
  8: destruct ray as [id|].
  all: world_norm; (eexists _, _; split; [reflexivity|]);
    unfold fieldRefs, allocated, liveCount in *; world_norm;
    rewrite ?length_alter, ?length_insert; repeat (split; [done|]);
    try done;
    try (split;
         [intros Hrefs;
          repeat match goal with x : option ObjId |- _ => destruct x end;
          simplify_eq/=; done|]);
    intros Hwu;
    try match goal with
        | Hp : ?l !! ?i = Some ?p |- context [<[?i := ?y]> ?l] =>
            replace (<[i := y]> l)
              with (alter (λ p, (tank_update clock i (1 / 60) p).1) i l)
              by (symmetry;
                  exact (list_insert_alter
                           (λ p, (tank_update clock i (1 / 60) p).1) _ _ _ Hp))
        end;
    rewrite ?liveIn_alter by keeps_live Hwu;
    (split; [|done]);
    split; unfold liveCount, fieldRefs; world_goal;
    rewrite ?liveIn_alter by keeps_live Hwu;
    try done; apply ownedBy_alter; solve [done|keeps_live Hwu].
Qed.

(** X15 — A frame update never interferes with the plane lifecycle.  In
    any state the engine can be in, [update] returns normally, and it
    leaves the tag, the four plane fields, the scene, the renderer, the
    listeners and the console as they are, constructs nothing and makes no
    call into the renderer or the scene; only the store of the variant
    named by the tag can change, and only the desert tank can request
    animation frames.  When no plane is held (for instance after a failed
    construction, which leaves the tag naming the variant) the update
    changes nothing at all.  And if the update of the wave plane keeps its
    GPU resources, the state after the update is again one the engine can
    be in, with as many live planes as before. *)
Theorem update_keeps_the_lifecycle (wave_update : number → TSLPlane → TSLPlane)
    (clock : Clock) (w : World) :
  Consistent w →
  ∃ requested w',
    update wave_update clock w = (Normal requested, w') ∧
    currentActivePlane w' = currentActivePlane w ∧
    fieldRefs w' = fieldRefs w ∧ scene w' = scene w ∧ renderer w' = renderer w ∧
    listeners w' = listeners w ∧ console w' = console w ∧ calls w' = calls w ∧
    allocated w' = allocated w ∧
    (currentActivePlane w ≠ "wave" → waves w' = waves w) ∧
    (currentActivePlane w ≠ "sdf" → sdfs w' = sdfs w) ∧
    (currentActivePlane w ≠ "desert-tank" → tanks w' = tanks w ∧ requested = []) ∧
    (currentActivePlane w ≠ "raymarching" → rays w' = rays w) ∧
    (fieldRefs w = [] → w' = w ∧ requested = []) ∧
    ((∀ t p, isLive (wave_update t p) = isLive p) →
     Consistent w' ∧ liveCount w' = liveCount w).
Proof. exact (update_spec wave_update clock w). Qed.

Lemma update_keeps_the_lifecycle_witness :
  ∃ requested w',
    update (λ (_ : number) (p : TSLPlane), p) (mkClock 0 0 1000 0 0) tankActive = (Normal requested, w') ∧
    currentActivePlane w' = currentActivePlane tankActive ∧
    fieldRefs w' = fieldRefs tankActive ∧ scene w' = scene tankActive ∧
    renderer w' = renderer tankActive ∧
    listeners w' = listeners tankActive ∧ console w' = console tankActive ∧
    calls w' = calls tankActive ∧
    allocated w' = allocated tankActive ∧
    (currentActivePlane tankActive ≠ "wave" → waves w' = waves tankActive) ∧
    (currentActivePlane tankActive ≠ "sdf" → sdfs w' = sdfs tankActive) ∧
    (currentActivePlane tankActive ≠ "desert-tank" →
     tanks w' = tanks tankActive ∧ requested = []) ∧
    (currentActivePlane tankActive ≠ "raymarching" → rays w' = rays tankActive) ∧
    (fieldRefs tankActive = [] → w' = tankActive ∧ requested = []) ∧
    ((∀ t p, isLive ((λ (_ : number) (p : TSLPlane), p) t p) = isLive p) →
     Consistent w' ∧ liveCount w' = liveCount tankActive).
Proof.
  apply (update_keeps_the_lifecycle (λ (_ : number) (p : TSLPlane), p) (mkClock 0 0 1000 0 0) tankActive).
  apply (run_Consistent [SelectVariant chrome "desert-tank"] started).
  apply (boot_Consistent chrome). reflexivity.
Defined.

Lemma shaderUniform_setTime t m name :
  shaderUniform (setTime t m) name =
    if bool_decide (name = "uTime")
    then (λ _, UNum t) <$> shaderUniform m "uTime"
    else shaderUniform m name.
Proof.
  unfold setTime. destruct m as [d|u d]; simpl.
  { by case_bool_decide. }
  destruct (u !! "uTime") eqn:Hu; simpl; case_bool_decide as Hn; subst;
    rewrite ?Hu, ?lookup_insert_eq; try done.
  by rewrite lookup_insert_ne.
Qed.

Lemma ray_update_settings t p : ray_settings (ray_update t p) = ray_settings p.
Proof.
  destruct p as [g m ru fu rfu rtu msu sdu mdu tmu ptr cam].
  unfold ray_update. unfold_accessors. cbn.
  by rewrite !shaderUniform_setTime.
Qed.

(** X16 — The time the two shader planes receive from a frame update.  The
    active SDF plane is handed the clock in seconds ([performance.now()]
    times 0.001), which its [update] stores in the [uTime] uniform of the
    fallback material, when the plane has one.  The active raymarching
    plane is handed the frame delta instead, so that its [uTime] is set to
    the constant 1/60 on every frame: the animation of the fallback
    raymarching shader does not advance.  Neither update changes a
    parameter of the plane. *)
Theorem update_feeds_the_time (wave_update : number → TSLPlane → TSLPlane)
    (clock : Clock) (w : World) (id : ObjId) :
  Consistent w →
  let r := update wave_update clock w in
  (∀ p, currentActivePlane w = "sdf" → tslPlaneSDF w = Some id → sdfs w !! id = Some p →
     ∃ p', sdfs r.2 !! id = Some p' ∧
       sdf_radius p' = sdf_radius p ∧ sdf_fade p' = sdf_fade p ∧
       shaderUniform (sdf_material p') "uTime" =
         (λ _, UNum (now_currentTime clock * 0.001)) <$>
           shaderUniform (sdf_material p) "uTime") ∧
  (∀ p, currentActivePlane w = "raymarching" → raymarchPlane w = Some id →
        rays w !! id = Some p →
     ∃ p', rays r.2 !! id = Some p' ∧
       ray_settings p' = ray_settings p ∧
       shaderUniform (ray_material p') "uTime" =
         (λ _, UNum (1 / 60)) <$> shaderUniform (ray_material p) "uTime").
Proof.
  intros Hc. cbv zeta. split; intros p Htag Hfield Hp.
  - destruct_consistent Hc; destruct_world w; world_norm; simplify_eq/=.
    unfold update; world_norm.
    exists (sdf_update (now_currentTime clock * 0.001) p).
    split; [by rewrite list_lookup_alter_eq, Hp|].
    destruct p as [g m ru fu]. unfold sdf_update, sdf_radius, sdf_fade. cbn.
    by rewrite !shaderUniform_setTime.
  - destruct_consistent Hc; destruct_world w; world_norm; simplify_eq/=.
    unfold update; world_norm.
    exists (ray_update (1 / 60) p).
    split; [by rewrite list_lookup_alter_eq, Hp|].
    split; [apply ray_update_settings|].
    destruct p. unfold ray_update. cbn. by rewrite shaderUniform_setTime.
Qed.

Lemma update_feeds_the_time_witness :
  let r := update (λ (_ : number) (p : TSLPlane), p) (mkClock 0 0 1000 0 0)
             rayFallbackActive in
  (∀ p, currentActivePlane rayFallbackActive = "sdf" →
        tslPlaneSDF rayFallbackActive = Some 0 → sdfs rayFallbackActive !! 0 = Some p →
     ∃ p', sdfs r.2 !! 0 = Some p' ∧
       sdf_radius p' = sdf_radius p ∧ sdf_fade p' = sdf_fade p ∧
       shaderUniform (sdf_material p') "uTime" =
         (λ _, UNum (now_currentTime (mkClock 0 0 1000 0 0) * 0.001)) <$>
           shaderUniform (sdf_material p) "uTime") ∧
  (∀ p, currentActivePlane rayFallbackActive = "raymarching" →
        raymarchPlane rayFallbackActive = Some 0 →
        rays rayFallbackActive !! 0 = Some p →
     ∃ p', rays r.2 !! 0 = Some p' ∧
       ray_settings p' = ray_settings p ∧
       shaderUniform (ray_material p') "uTime" =
         (λ _, UNum (1 / 60)) <$> shaderUniform (ray_material p) "uTime").
Proof.
  apply (update_feeds_the_time (λ (_ : number) (p : TSLPlane), p) (mkClock 0 0 1000 0 0)
           rayFallbackActive 0).
  apply (run_Consistent [SelectVariant tslFails "raymarching"] started).
  apply (boot_Consistent chrome). reflexivity.
Defined.

(** ** The desert tank game *)

(** What the operations of the game leave alone. *)

Lemma tankSetter_frame {A} u setU name (inj : A → UValue) v p :
  (∀ o q, tank_canJump (setU o q) = tank_canJump q ∧
          tank_canShoot (setU o q) = tank_canShoot q ∧
          tank_keyMap (setU o q) = tank_keyMap q) →
  tank_canJump (tankSetter u setU name inj v p) = tank_canJump p ∧
  tank_canShoot (tankSetter u setU name inj v p) = tank_canShoot p ∧
  tank_keyMap (tankSetter u setU name inj v p) = tank_keyMap p.
Proof.
  intros HsetU. unfold tankSetter. destruct (u p); [apply HsetU|].
  destruct (shaderUniform (tank_material p) name); [|done]. by destruct p.
Qed.

Lemma tank_set_wheelOffset_frame v p :
  tank_canJump (tank_set_wheelOffset v p) = tank_canJump p ∧
  tank_canShoot (tank_set_wheelOffset v p) = tank_canShoot p ∧
  tank_keyMap (tank_set_wheelOffset v p) = tank_keyMap p.
Proof. apply tankSetter_frame. by intros o []. Qed.

Lemma tank_set_bulletOffset_frame v p :
  tank_canJump (tank_set_bulletOffset v p) = tank_canJump p ∧
  tank_canShoot (tank_set_bulletOffset v p) = tank_canShoot p ∧
  tank_keyMap (tank_set_bulletOffset v p) = tank_keyMap p.
Proof. apply tankSetter_frame. by intros o []. Qed.

Lemma tank_set_shellOffset_frame v p :
  tank_canJump (tank_set_shellOffset v p) = tank_canJump p ∧
  tank_canShoot (tank_set_shellOffset v p) = tank_canShoot p ∧
  tank_keyMap (tank_set_shellOffset v p) = tank_keyMap p.
Proof. apply tankSetter_frame. by intros o []. Qed.

(** The setters, as the getters see them. *)
Lemma tank_set_wheelOffset_settings u p :
  tank_settings (tank_set_wheelOffset u p) =
    tankSettings (if backed (tank_wheelOffsetUniform p) (tank_material p) "uWheelOffset"
                  then u else vec2 (-10) 0)
      (tank_bulletOffset p) (tank_shellOffset p).
Proof.
  destruct p as [g m wu bu su cj cs km]. unfold_accessors. cbn.
  setter_cases wu m "uWheelOffset".
Qed.

Lemma tank_set_bulletOffset_settings v p :
  tank_settings (tank_set_bulletOffset v p) =
    tankSettings (tank_wheelOffset p)
      (if backed (tank_bulletOffsetUniform p) (tank_material p) "uBulletOffset"
       then v else 20%float)
      (tank_shellOffset p).
Proof.
  destruct p as [g m wu bu su cj cs km]. unfold_accessors. cbn.
  setter_cases bu m "uBulletOffset".
Qed.

Lemma tank_set_shellOffset_settings v p :
  tank_settings (tank_set_shellOffset v p) =
    tankSettings (tank_wheelOffset p) (tank_bulletOffset p)
      (if backed (tank_shellOffsetUniform p) (tank_material p) "uShellOffset"
       then v else 25%float).
Proof.
  destruct p as [g m wu bu su cj cs km]. unfold_accessors. cbn.
  setter_cases su m "uShellOffset".
Qed.

(** Whether a parameter is backed never changes. *)
Lemma tankSetter_backed {A B} u setU name (inj : A → UValue) v p
    (u' : TSLPlaneDesertTank → option B) name' :
  (∀ o q, is_Some (u' (setU o q)) ↔ is_Some (u' q)) →
  (∀ o q, tank_material (setU o q) = tank_material q) →
  (∀ m q, u' (with_tank_material m q) = u' q) →
  backed (u' (tankSetter u setU name inj v p))
         (tank_material (tankSetter u setU name inj v p)) name' =
    backed (u' p) (tank_material p) name'.
Proof.
  intros Hu Hm Hwm. unfold tankSetter. destruct (u p) as [x|] eqn:Hup.
  - rewrite Hm. unfold backed. specialize (Hu (Some v) p).
    destruct (u' (setU (Some v) p)), (u' p); try done.
    + destruct Hu as [Hu _]. by destruct Hu.
    + destruct Hu as [_ Hu]. by destruct Hu.
  - destruct (shaderUniform (tank_material p) name) eqn:Hs; [|done].
    rewrite Hwm. unfold backed. destruct (u' p); [done|].
    destruct p as [g [d|um d] ? ? ? ? ? ?]; simpl in *; [done|].
    destruct (decide (name' = name)) as [->|Hne].
    + by rewrite lookup_insert_eq, Hs.
    + by rewrite lookup_insert_ne.
Qed.

Lemma tank_wheelOffset_with_tank_canJump :
  ∀ b p, tank_wheelOffset (with_tank_canJump b p) = tank_wheelOffset p.
Proof. by intros b []. Qed.

Lemma tank_canJump_with_tank_canJump :
  ∀ b p, tank_canJump (with_tank_canJump b p) = b.
Proof. by intros b []. Qed.

Lemma tank_canShoot_with_tank_canJump :
  ∀ b p, tank_canShoot (with_tank_canJump b p) = tank_canShoot p.
Proof. by intros b []. Qed.

Lemma tank_keyMap_with_tank_canJump :
  ∀ b p, tank_keyMap (with_tank_canJump b p) = tank_keyMap p.
Proof. by intros b []. Qed.

Lemma backedW_with_tank_canJump :
  ∀ b p,
    backed (tank_wheelOffsetUniform (with_tank_canJump b p))
           (tank_material (with_tank_canJump b p)) "uWheelOffset" =
      backed (tank_wheelOffsetUniform p) (tank_material p) "uWheelOffset".
Proof. by intros b []. Qed.

Lemma tank_wheelOffset_with_tank_canShoot :
  ∀ b p, tank_wheelOffset (with_tank_canShoot b p) = tank_wheelOffset p.
Proof. by intros b []. Qed.

Lemma tank_canJump_with_tank_canShoot :
  ∀ b p, tank_canJump (with_tank_canShoot b p) = tank_canJump p.
Proof. by intros b []. Qed.

Lemma tank_canShoot_with_tank_canShoot :
  ∀ b p, tank_canShoot (with_tank_canShoot b p) = b.
Proof. by intros b []. Qed.

Lemma tank_keyMap_with_tank_canShoot :
  ∀ b p, tank_keyMap (with_tank_canShoot b p) = tank_keyMap p.
Proof. by intros b []. Qed.

Lemma backedW_with_tank_canShoot :
  ∀ b p,
    backed (tank_wheelOffsetUniform (with_tank_canShoot b p))
           (tank_material (with_tank_canShoot b p)) "uWheelOffset" =
      backed (tank_wheelOffsetUniform p) (tank_material p) "uWheelOffset".
Proof. by intros b []. Qed.

Lemma tank_canJump_set_wheelOffset :
  ∀ v p, tank_canJump (tank_set_wheelOffset v p) = tank_canJump p.
Proof. intros v p. apply (tank_set_wheelOffset_frame v p). Qed.

Lemma tank_canShoot_set_wheelOffset :
  ∀ v p, tank_canShoot (tank_set_wheelOffset v p) = tank_canShoot p.
Proof. intros v p. apply (tank_set_wheelOffset_frame v p). Qed.

Lemma tank_keyMap_set_wheelOffset :
  ∀ v p, tank_keyMap (tank_set_wheelOffset v p) = tank_keyMap p.
Proof. intros v p. apply (tank_set_wheelOffset_frame v p). Qed.

Lemma backedW_set_wheelOffset :
  ∀ v p,
    backed (tank_wheelOffsetUniform (tank_set_wheelOffset v p))
           (tank_material (tank_set_wheelOffset v p)) "uWheelOffset" =
      backed (tank_wheelOffsetUniform p) (tank_material p) "uWheelOffset".
Proof.
  intros v [g m wu bu su cj cs km].
  unfold tank_set_wheelOffset, tankSetter, backed. cbn.
  destruct wu; [done|]. destruct m as [d|um d]; cbn; [done|].
  destruct (um !! "uWheelOffset") eqn:E; cbn; by rewrite ?lookup_insert_eq, ?E.
Qed.

Lemma tank_wheelOffset_set_wheelOffset :
  ∀ v p, tank_wheelOffset (tank_set_wheelOffset v p) =
    if backed (tank_wheelOffsetUniform p) (tank_material p) "uWheelOffset" then v else vec2 (-10) 0.
Proof. intros v p. exact (f_equal s_wheelOffset (tank_set_wheelOffset_settings v p)). Qed.

Lemma tank_canJump_set_bulletOffset :
  ∀ v p, tank_canJump (tank_set_bulletOffset v p) = tank_canJump p.
Proof. intros v p. apply (tank_set_bulletOffset_frame v p). Qed.

Lemma tank_canShoot_set_bulletOffset :
  ∀ v p, tank_canShoot (tank_set_bulletOffset v p) = tank_canShoot p.
Proof. intros v p. apply (tank_set_bulletOffset_frame v p). Qed.

Lemma tank_keyMap_set_bulletOffset :
  ∀ v p, tank_keyMap (tank_set_bulletOffset v p) = tank_keyMap p.
Proof. intros v p. apply (tank_set_bulletOffset_frame v p). Qed.

Lemma backedW_set_bulletOffset :
  ∀ v p,
    backed (tank_wheelOffsetUniform (tank_set_bulletOffset v p))
           (tank_material (tank_set_bulletOffset v p)) "uWheelOffset" =
      backed (tank_wheelOffsetUniform p) (tank_material p) "uWheelOffset".
Proof. intros v p. apply tankSetter_backed; [by intros o []|by intros o []|by intros m []]. Qed.

Lemma tank_wheelOffset_set_bulletOffset :
  ∀ v p, tank_wheelOffset (tank_set_bulletOffset v p) = tank_wheelOffset p.
Proof. intros v p. exact (f_equal s_wheelOffset (tank_set_bulletOffset_settings v p)). Qed.

Lemma tank_canJump_set_shellOffset :
  ∀ v p, tank_canJump (tank_set_shellOffset v p) = tank_canJump p.
Proof. intros v p. apply (tank_set_shellOffset_frame v p). Qed.

Lemma tank_canShoot_set_shellOffset :
  ∀ v p, tank_canShoot (tank_set_shellOffset v p) = tank_canShoot p.
Proof. intros v p. apply (tank_set_shellOffset_frame v p). Qed.

Lemma tank_keyMap_set_shellOffset :
  ∀ v p, tank_keyMap (tank_set_shellOffset v p) = tank_keyMap p.
Proof. intros v p. apply (tank_set_shellOffset_frame v p). Qed.

Lemma backedW_set_shellOffset :
  ∀ v p,
    backed (tank_wheelOffsetUniform (tank_set_shellOffset v p))
           (tank_material (tank_set_shellOffset v p)) "uWheelOffset" =
      backed (tank_wheelOffsetUniform p) (tank_material p) "uWheelOffset".
Proof. intros v p. apply tankSetter_backed; [by intros o []|by intros o []|by intros m []]. Qed.

Lemma tank_wheelOffset_set_shellOffset :
  ∀ v p, tank_wheelOffset (tank_set_shellOffset v p) = tank_wheelOffset p.
Proof. intros v p. exact (f_equal s_wheelOffset (tank_set_shellOffset_settings v p)). Qed.

Lemma shaderUniform_advanceTime dt m name :
  name ≠ "uTime" → shaderUniform (advanceTime dt m) name = shaderUniform m name.
Proof.
  intros Hn. unfold advanceTime.
  destruct (shaderUniform m "uTime") as [[t|v]|]; try done.
  destruct m as [d|u d]; simpl; [done|]. by rewrite lookup_insert_ne.
Qed.

Lemma tank_wheelOffset_advanceTime dt p :
  tank_wheelOffset (with_tank_material (advanceTime dt (tank_material p)) p) =
    tank_wheelOffset p.
Proof.
  destruct p as [g m wu bu su cj cs km]. unfold tank_wheelOffset. cbn.
  by rewrite shaderUniform_advanceTime.
Qed.

Lemma tank_flags_advanceTime dt p :
  let q := with_tank_material (advanceTime dt (tank_material p)) p in
  tank_canJump q = tank_canJump p ∧ tank_canShoot q = tank_canShoot p ∧
  tank_keyMap q = tank_keyMap p.
Proof. by destruct p. Qed.

Create Rewrite HintDb tank.

#[global] Hint Rewrite
  tank_wheelOffset_with_tank_canJump tank_canJump_with_tank_canJump
  tank_canShoot_with_tank_canJump tank_keyMap_with_tank_canJump
  backedW_with_tank_canJump tank_wheelOffset_with_tank_canShoot
  tank_canJump_with_tank_canShoot tank_canShoot_with_tank_canShoot
  tank_keyMap_with_tank_canShoot backedW_with_tank_canShoot
  tank_canJump_set_wheelOffset tank_canShoot_set_wheelOffset
  tank_keyMap_set_wheelOffset backedW_set_wheelOffset
  tank_wheelOffset_set_wheelOffset tank_canJump_set_bulletOffset
  tank_canShoot_set_bulletOffset tank_keyMap_set_bulletOffset
  backedW_set_bulletOffset tank_wheelOffset_set_bulletOffset
  tank_canJump_set_shellOffset tank_canShoot_set_shellOffset
  tank_keyMap_set_shellOffset backedW_set_shellOffset
  tank_wheelOffset_set_shellOffset
  tank_wheelOffset_advanceTime : tank.

Lemma keyDown_keyMap q p code :
  tank_keyMap q = tank_keyMap p → keyDown q code = keyDown p code.
Proof. unfold keyDown. by intros ->. Qed.

Lemma backedW_advanceTime dt p :
  backed (tank_wheelOffsetUniform (with_tank_material (advanceTime dt (tank_material p)) p))
         (tank_material (with_tank_material (advanceTime dt (tank_material p)) p))
         "uWheelOffset" =
    backed (tank_wheelOffsetUniform p) (tank_material p) "uWheelOffset".
Proof.
  destruct p as [g m wu bu su cj cs km]. unfold backed. cbn.
  by rewrite shaderUniform_advanceTime.
Qed.

(** The four steps of [TSLPlaneDesertTank.update], one by one: what each
    does to the wheel offset, to the two latches and to the key map. *)

Lemma update_jump_step clock id q :
  let e := if keyDown q "KeyW" || keyDown q "ArrowUp"
           then (if tank_canJump q then tank_jump id (now_jump clock) q else (q, []))
           else (q, []) in
  let jump := (keyDown q "KeyW" || keyDown q "ArrowUp") && tank_canJump q in
  tank_wheelOffset e.1 = tank_wheelOffset q ∧
  backed (tank_wheelOffsetUniform e.1) (tank_material e.1) "uWheelOffset" =
    backed (tank_wheelOffsetUniform q) (tank_material q) "uWheelOffset" ∧
  tank_canJump e.1 = (if jump then false else tank_canJump q) ∧
  tank_canShoot e.1 = tank_canShoot q ∧
  tank_keyMap e.1 = tank_keyMap q ∧
  e.2 = (if jump then [AnimateJump id (vy (tank_wheelOffset q)) (now_jump clock)] else []).
Proof.
  cbv zeta. unfold tank_jump.
  destruct (keyDown q "KeyW" || keyDown q "ArrowUp"), (tank_canJump q) eqn:Hcj;
    cbn [negb andb fst snd]; autorewrite with tank; done.
Qed.

Lemma update_move_step (c : bool) (v : Vector2) q :
  backed (tank_wheelOffsetUniform q) (tank_material q) "uWheelOffset" = true →
  let e := if c then tank_set_wheelOffset v q else q in
  tank_wheelOffset e = (if c then v else tank_wheelOffset q) ∧
  backed (tank_wheelOffsetUniform e) (tank_material e) "uWheelOffset" = true ∧
  tank_canJump e = tank_canJump q ∧
  tank_canShoot e = tank_canShoot q ∧
  tank_keyMap e = tank_keyMap q.
Proof.
  intros Hb. cbv zeta. destruct c; autorewrite with tank; rewrite ?Hb; done.
Qed.

Lemma update_shoot_step clock id q :
  let e := if keyDown q "Space"
           then (if tank_canShoot q then tank_shoot id (now_shoot clock) q else (q, []))
           else (q, []) in
  let shoot := keyDown q "Space" && tank_canShoot q in
  tank_wheelOffset e.1 = tank_wheelOffset q ∧
  backed (tank_wheelOffsetUniform e.1) (tank_material e.1) "uWheelOffset" =
    backed (tank_wheelOffsetUniform q) (tank_material q) "uWheelOffset" ∧
  tank_canJump e.1 = tank_canJump q ∧
  tank_canShoot e.1 = (if shoot then false else tank_canShoot q) ∧
  tank_keyMap e.1 = tank_keyMap q ∧
  e.2 = (if shoot then [AnimateShoot id (now_shoot clock)] else []).
Proof.
  cbv zeta. unfold tank_shoot.
  destruct (keyDown q "Space"), (tank_canShoot q) eqn:Hcs;
    cbn [negb andb fst snd]; autorewrite with tank; done.
Qed.

Lemma tank_update_spec (clock : Clock) (id : ObjId) (dt : number)
    (p : TSLPlaneDesertTank) :
  backed (tank_wheelOffsetUniform p) (tank_material p) "uWheelOffset" = true →
  let r := tank_update clock id dt p in
  let jump := (keyDown p "KeyW" || keyDown p "ArrowUp") && tank_canJump p in
  let shoot := keyDown p "Space" && tank_canShoot p in
  let x0 := vx (tank_wheelOffset p) in
  let x1 := if keyDown p "KeyA" || keyDown p "ArrowLeft" then (x0 - 4 * dt)%float else x0 in
  let x2 := if keyDown p "KeyD" || keyDown p "ArrowRight" then (x1 + 4 * dt)%float else x1 in
  tank_wheelOffset r.1 = vec2 x2 (vy (tank_wheelOffset p)) ∧
  backed (tank_wheelOffsetUniform r.1) (tank_material r.1) "uWheelOffset" = true ∧
  r.2 = (if jump then [AnimateJump id (vy (tank_wheelOffset p)) (now_jump clock)] else []) ++
        (if shoot then [AnimateShoot id (now_shoot clock)] else []) ∧
  tank_canJump r.1 = (if jump then false else tank_canJump p) ∧
  tank_canShoot r.1 = (if shoot then false else tank_canShoot p) ∧
  tank_keyMap r.1 = tank_keyMap p.
Proof.
  intros Hb. cbv zeta. unfold tank_update.
  (* the jump *)
  pose proof (update_jump_step clock id p) as H1. cbv zeta in H1.
  revert H1.
  generalize (if keyDown p "KeyW" || keyDown p "ArrowUp"
              then (if tank_canJump p then tank_jump id (now_jump clock) p else (p, []))
              else (p, [])).
  intros [p1 jumps]. cbn [fst snd]. intros (Hw1 & Hb1 & Hcj1 & Hcs1 & Hkm1 & ->).
  rewrite Hb in Hb1.
  (* to the left *)
  pose proof (update_move_step (keyDown p1 "KeyA" || keyDown p1 "ArrowLeft")
                (vec2 (vx (tank_wheelOffset p1) - 4 * dt)%float (vy (tank_wheelOffset p1)))
                p1 Hb1) as H2.
  cbv zeta in H2. revert H2.
  generalize (if keyDown p1 "KeyA" || keyDown p1 "ArrowLeft"
              then tank_set_wheelOffset
                     (vec2 (vx (tank_wheelOffset p1) - 4 * dt)%float
                           (vy (tank_wheelOffset p1))) p1
              else p1).
  intros p2 (Hw2 & Hb2 & Hcj2 & Hcs2 & Hkm2).
  (* to the right *)
  pose proof (update_move_step (keyDown p2 "KeyD" || keyDown p2 "ArrowRight")
                (vec2 (vx (tank_wheelOffset p2) + 4 * dt)%float (vy (tank_wheelOffset p2)))
                p2 Hb2) as H3.
  cbv zeta in H3. revert H3.
  generalize (if keyDown p2 "KeyD" || keyDown p2 "ArrowRight"
              then tank_set_wheelOffset
                     (vec2 (vx (tank_wheelOffset p2) + 4 * dt)%float
                           (vy (tank_wheelOffset p2))) p2
              else p2).
  intros p3 (Hw3 & Hb3 & Hcj3 & Hcs3 & Hkm3).
  (* the shot *)
  pose proof (update_shoot_step clock id p3) as H4. cbv zeta in H4.
  revert H4.
  generalize (if keyDown p3 "Space"
              then (if tank_canShoot p3 then tank_shoot id (now_shoot clock) p3
                    else (p3, []))
              else (p3, [])).
  intros [p4 shots]. cbn [fst snd]. intros (Hw4 & Hb4 & Hcj4 & Hcs4 & Hkm4 & ->).
  (* the time of the fallback material *)
  destruct (tank_flags_advanceTime dt p4) as (Hcj5 & Hcs5 & Hkm5).
  rewrite tank_wheelOffset_advanceTime, backedW_advanceTime, Hcj5, Hcs5, Hkm5.
  rewrite Hb4, Hb3.
  rewrite Hw4, Hcj4, Hcs4, Hkm4, Hw3, Hcj3, Hcs3, Hkm3, Hw2, Hcj2, Hcs2, Hkm2.
  rewrite !(keyDown_keyMap p3 p), !(keyDown_keyMap p2 p), !(keyDown_keyMap p1 p)
    by congruence.
  rewrite Hw1, Hcj1, Hcs1, Hkm1.
  split; [|done].
  destruct (keyDown p "KeyA" || keyDown p "ArrowLeft"),
    (keyDown p "KeyD" || keyDown p "ArrowRight"); cbn [vx vy]; try done.
  by destruct (tank_wheelOffset p).
Qed.

(** X17 — The controls of the desert tank, as one [update] applies them.
    KeyA or ArrowLeft moves the wheels by −4·deltaTime and KeyD or
    ArrowRight by +4·deltaTime along x (left first, then right, when both
    are held), never along y.  KeyW or ArrowUp starts a jump only when the
    jump latch is set, clears the latch and requests exactly one animation
    frame for it, remembering the height the jump started from; Space does
    the same for a shot with its own latch.  While a latch is cleared the
    key requests nothing.  The key map is only read. *)
Theorem tank_update_controls (clock : Clock) (id : ObjId) (dt : number)
    (p : TSLPlaneDesertTank) :
  backed (tank_wheelOffsetUniform p) (tank_material p) "uWheelOffset" = true →
  let r := tank_update clock id dt p in
  let jump := (keyDown p "KeyW" || keyDown p "ArrowUp") && tank_canJump p in
  let shoot := keyDown p "Space" && tank_canShoot p in
  let x0 := vx (tank_wheelOffset p) in
  let x1 := if keyDown p "KeyA" || keyDown p "ArrowLeft" then (x0 - 4 * dt)%float else x0 in
  let x2 := if keyDown p "KeyD" || keyDown p "ArrowRight" then (x1 + 4 * dt)%float else x1 in
  tank_wheelOffset r.1 = vec2 x2 (vy (tank_wheelOffset p)) ∧
  backed (tank_wheelOffsetUniform r.1) (tank_material r.1) "uWheelOffset" = true ∧
  r.2 = (if jump then [AnimateJump id (vy (tank_wheelOffset p)) (now_jump clock)] else []) ++
        (if shoot then [AnimateShoot id (now_shoot clock)] else []) ∧
  tank_canJump r.1 = (if jump then false else tank_canJump p) ∧
  tank_canShoot r.1 = (if shoot then false else tank_canShoot p) ∧
  tank_keyMap r.1 = tank_keyMap p.
Proof. exact (tank_update_spec clock id dt p). Qed.

Lemma tank_update_controls_witness :
  let clock := mkClock 0 0 1000 1000 1000 in
  let p := drivingTank in
  let dt := (1 / 60)%float in
  let r := tank_update clock 0 dt p in
  let jump := (keyDown p "KeyW" || keyDown p "ArrowUp") && tank_canJump p in
  let shoot := keyDown p "Space" && tank_canShoot p in
  let x0 := vx (tank_wheelOffset p) in
  let x1 := if keyDown p "KeyA" || keyDown p "ArrowLeft" then (x0 - 4 * dt)%float else x0 in
  let x2 := if keyDown p "KeyD" || keyDown p "ArrowRight" then (x1 + 4 * dt)%float else x1 in
  tank_wheelOffset r.1 = vec2 x2 (vy (tank_wheelOffset p)) ∧
  backed (tank_wheelOffsetUniform r.1) (tank_material r.1) "uWheelOffset" = true ∧
  r.2 = (if jump then [AnimateJump 0 (vy (tank_wheelOffset p)) (now_jump clock)] else []) ++
        (if shoot then [AnimateShoot 0 (now_shoot clock)] else []) ∧
  tank_canJump r.1 = (if jump then false else tank_canJump p) ∧
  tank_canShoot r.1 = (if shoot then false else tank_canShoot p) ∧
  tank_keyMap r.1 = tank_keyMap p.
Proof.
  apply (tank_update_controls (mkClock 0 0 1000 1000 1000) 0 (1 / 60)%float drivingTank).
  reflexivity.
Defined.

Lemma tank_bulletOffset_with_tank_canJump :
  ∀ b p, tank_bulletOffset (with_tank_canJump b p) = tank_bulletOffset p.
Proof.
  by intros b [].
Qed.

Lemma tank_shellOffset_with_tank_canJump :
  ∀ b p, tank_shellOffset (with_tank_canJump b p) = tank_shellOffset p.
Proof.
  by intros b [].
Qed.

Lemma backedB_with_tank_canJump :
  ∀ b p,
    backed (tank_bulletOffsetUniform (with_tank_canJump b p))
           (tank_material (with_tank_canJump b p)) "uBulletOffset" =
    backed (tank_bulletOffsetUniform p) (tank_material p) "uBulletOffset".
Proof.
  by intros b [].
Qed.

Lemma backedS_with_tank_canJump :
  ∀ b p,
    backed (tank_shellOffsetUniform (with_tank_canJump b p))
           (tank_material (with_tank_canJump b p)) "uShellOffset" =
    backed (tank_shellOffsetUniform p) (tank_material p) "uShellOffset".
Proof.
  by intros b [].
Qed.

Lemma tank_bulletOffset_with_tank_canShoot :
  ∀ b p, tank_bulletOffset (with_tank_canShoot b p) = tank_bulletOffset p.
Proof.
  by intros b [].
Qed.

Lemma tank_shellOffset_with_tank_canShoot :
  ∀ b p, tank_shellOffset (with_tank_canShoot b p) = tank_shellOffset p.
Proof.
  by intros b [].
Qed.

Lemma backedB_with_tank_canShoot :
  ∀ b p,
    backed (tank_bulletOffsetUniform (with_tank_canShoot b p))
           (tank_material (with_tank_canShoot b p)) "uBulletOffset" =
    backed (tank_bulletOffsetUniform p) (tank_material p) "uBulletOffset".
Proof.
  by intros b [].
Qed.

Lemma backedS_with_tank_canShoot :
  ∀ b p,
    backed (tank_shellOffsetUniform (with_tank_canShoot b p))
           (tank_material (with_tank_canShoot b p)) "uShellOffset" =
    backed (tank_shellOffsetUniform p) (tank_material p) "uShellOffset".
Proof.
  by intros b [].
Qed.

Lemma tank_bulletOffset_set_wheelOffset :
  ∀ v p, tank_bulletOffset (tank_set_wheelOffset v p) = tank_bulletOffset p.
Proof.
  intros v p. exact (f_equal s_bulletOffset (tank_set_wheelOffset_settings v p)).
Qed.

Lemma tank_shellOffset_set_wheelOffset :
  ∀ v p, tank_shellOffset (tank_set_wheelOffset v p) = tank_shellOffset p.
Proof.
  intros v p. exact (f_equal s_shellOffset (tank_set_wheelOffset_settings v p)).
Qed.

Lemma backedB_set_wheelOffset :
  ∀ v p,
    backed (tank_bulletOffsetUniform (tank_set_wheelOffset v p))
           (tank_material (tank_set_wheelOffset v p)) "uBulletOffset" =
    backed (tank_bulletOffsetUniform p) (tank_material p) "uBulletOffset".
Proof.
  intros v p. apply tankSetter_backed; [by intros o []|by intros o []|by intros m []].
Qed.

Lemma backedS_set_wheelOffset :
  ∀ v p,
    backed (tank_shellOffsetUniform (tank_set_wheelOffset v p))
           (tank_material (tank_set_wheelOffset v p)) "uShellOffset" =
    backed (tank_shellOffsetUniform p) (tank_material p) "uShellOffset".
Proof.
  intros v p. apply tankSetter_backed; [by intros o []|by intros o []|by intros m []].
Qed.

Lemma tank_bulletOffset_set_bulletOffset :
  ∀ v p, tank_bulletOffset (tank_set_bulletOffset v p) =
    if backed (tank_bulletOffsetUniform p) (tank_material p) "uBulletOffset" then v else 20%float.
Proof.
  intros v p. exact (f_equal s_bulletOffset (tank_set_bulletOffset_settings v p)).
Qed.

Lemma tank_shellOffset_set_bulletOffset :
  ∀ v p, tank_shellOffset (tank_set_bulletOffset v p) = tank_shellOffset p.
Proof.
  intros v p. exact (f_equal s_shellOffset (tank_set_bulletOffset_settings v p)).
Qed.

Lemma backedB_set_bulletOffset :
  ∀ v p,
    backed (tank_bulletOffsetUniform (tank_set_bulletOffset v p))
           (tank_material (tank_set_bulletOffset v p)) "uBulletOffset" =
    backed (tank_bulletOffsetUniform p) (tank_material p) "uBulletOffset".
Proof.
  intros v [g m wu bu su cj cs km].
  unfold tank_set_bulletOffset, tankSetter, backed. cbn.
  destruct bu; [done|]. destruct m as [d|um d]; cbn; [done|].
  destruct (um !! "uBulletOffset") eqn:E; cbn; by rewrite ?lookup_insert_eq, ?E.
Qed.

Lemma backedS_set_bulletOffset :
  ∀ v p,
    backed (tank_shellOffsetUniform (tank_set_bulletOffset v p))
           (tank_material (tank_set_bulletOffset v p)) "uShellOffset" =
    backed (tank_shellOffsetUniform p) (tank_material p) "uShellOffset".
Proof.
  intros v p. apply tankSetter_backed; [by intros o []|by intros o []|by intros m []].
Qed.

Lemma tank_bulletOffset_set_shellOffset :
  ∀ v p, tank_bulletOffset (tank_set_shellOffset v p) = tank_bulletOffset p.
Proof.
  intros v p. exact (f_equal s_bulletOffset (tank_set_shellOffset_settings v p)).
Qed.

Lemma tank_shellOffset_set_shellOffset :
  ∀ v p, tank_shellOffset (tank_set_shellOffset v p) =
    if backed (tank_shellOffsetUniform p) (tank_material p) "uShellOffset" then v else 25%float.
Proof.
  intros v p. exact (f_equal s_shellOffset (tank_set_shellOffset_settings v p)).
Qed.

Lemma backedB_set_shellOffset :
  ∀ v p,
    backed (tank_bulletOffsetUniform (tank_set_shellOffset v p))
           (tank_material (tank_set_shellOffset v p)) "uBulletOffset" =
    backed (tank_bulletOffsetUniform p) (tank_material p) "uBulletOffset".
Proof.
  intros v p. apply tankSetter_backed; [by intros o []|by intros o []|by intros m []].
Qed.

Lemma backedS_set_shellOffset :
  ∀ v p,
    backed (tank_shellOffsetUniform (tank_set_shellOffset v p))
           (tank_material (tank_set_shellOffset v p)) "uShellOffset" =
    backed (tank_shellOffsetUniform p) (tank_material p) "uShellOffset".
Proof.
  intros v [g m wu bu su cj cs km].
  unfold tank_set_shellOffset, tankSetter, backed. cbn.
  destruct su; [done|]. destruct m as [d|um d]; cbn; [done|].
  destruct (um !! "uShellOffset") eqn:E; cbn; by rewrite ?lookup_insert_eq, ?E.
Qed.

#[global] Hint Rewrite
  tank_bulletOffset_with_tank_canJump tank_shellOffset_with_tank_canJump
  backedB_with_tank_canJump backedS_with_tank_canJump
  tank_bulletOffset_with_tank_canShoot tank_shellOffset_with_tank_canShoot
  backedB_with_tank_canShoot backedS_with_tank_canShoot
  tank_bulletOffset_set_wheelOffset tank_shellOffset_set_wheelOffset
  backedB_set_wheelOffset backedS_set_wheelOffset tank_bulletOffset_set_bulletOffset
  tank_shellOffset_set_bulletOffset backedB_set_bulletOffset
  backedS_set_bulletOffset tank_bulletOffset_set_shellOffset
  tank_shellOffset_set_shellOffset backedB_set_shellOffset backedS_set_shellOffset :
  tank.

Lemma tank_animateJump_spec (math : MathLib) (id : ObjId)
    (startY startTime currentTime : number) (p : TSLPlaneDesertTank) :
  backed (tank_wheelOffsetUniform p) (tank_material p) "uWheelOffset" = true →
  let progress := Math_min ((currentTime - startTime) / 500) 1 in
  let r := tank_animateJump math id startY startTime currentTime p in
  vx (tank_wheelOffset r.1) = vx (tank_wheelOffset p) ∧
  tank_canShoot r.1 = tank_canShoot p ∧
  tank_keyMap r.1 = tank_keyMap p ∧
  if (progress <? 1)%float then
    r.2 = [AnimateJump id startY startTime] ∧
    tank_canJump r.1 = tank_canJump p ∧
    vy (tank_wheelOffset r.1) =
      (if (progress <? 0.5)%float
       then startY + 5 * Math_sin math (progress * 2 * Math_PI * 0.5)
       else startY + 5 * Math_cos math ((progress - 0.5) * 2 * Math_PI * 0.5))%float
  else
    r.2 = [] ∧
    tank_canJump r.1 = true ∧
    vy (tank_wheelOffset r.1) = startY.
Proof.
  intros Hb. cbv zeta. unfold tank_animateJump.
  generalize (Math_min ((currentTime - startTime) / 500) 1). intros progress.
  destruct (progress <? 1)%float, (progress <? 0.5)%float; cbn [fst snd];
    autorewrite with tank; rewrite ?Hb; cbn [vx vy];
    autorewrite with tank; rewrite ?Hb; cbn [vx vy]; done.
Qed.

(** X18 — One frame of the jump animation.  The frame moves the wheels
    along y only: a move to the left or right made during the jump is
    kept.  While the progress is below 1 the frame puts the wheels at the
    start height plus five times the sine (first half) or the cosine
    (second half) of the progress, leaves the jump latch cleared as it is
    and requests exactly one more frame for the same jump.  The frame at
    which the progress has reached 1 puts the wheels back at exactly the
    height the jump started from, sets the latch again and requests
    nothing.  The shoot latch and the key map are never touched. *)
Theorem jump_animation_frame (math : MathLib) (id : ObjId)
    (startY startTime currentTime : number) (p : TSLPlaneDesertTank) :
  backed (tank_wheelOffsetUniform p) (tank_material p) "uWheelOffset" = true →
  let progress := Math_min ((currentTime - startTime) / 500) 1 in
  let r := tank_animateJump math id startY startTime currentTime p in
  vx (tank_wheelOffset r.1) = vx (tank_wheelOffset p) ∧
  tank_canShoot r.1 = tank_canShoot p ∧
  tank_keyMap r.1 = tank_keyMap p ∧
  if (progress <? 1)%float then
    r.2 = [AnimateJump id startY startTime] ∧
    tank_canJump r.1 = tank_canJump p ∧
    vy (tank_wheelOffset r.1) =
      (if (progress <? 0.5)%float
       then startY + 5 * Math_sin math (progress * 2 * Math_PI * 0.5)
       else startY + 5 * Math_cos math ((progress - 0.5) * 2 * Math_PI * 0.5))%float
  else
    r.2 = [] ∧
    tank_canJump r.1 = true ∧
    vy (tank_wheelOffset r.1) = startY.
Proof. exact (tank_animateJump_spec math id startY startTime currentTime p). Qed.

Lemma jump_animation_frame_witness :
  let math := mkMathLib (λ x, x) (λ x, x) in
  let p := with_tank_canJump false drivingTank in
  let progress := Math_min ((1600 - 1000) / 500) 1 in
  let r := tank_animateJump math 0 0 1000 1600 p in
  vx (tank_wheelOffset r.1) = vx (tank_wheelOffset p) ∧
  tank_canShoot r.1 = tank_canShoot p ∧
  tank_keyMap r.1 = tank_keyMap p ∧
  if (progress <? 1)%float then
    r.2 = [AnimateJump 0 0 1000] ∧
    tank_canJump r.1 = tank_canJump p ∧
    vy (tank_wheelOffset r.1) =
      (if (progress <? 0.5)%float
       then 0 + 5 * Math_sin math (progress * 2 * Math_PI * 0.5)
       else 0 + 5 * Math_cos math ((progress - 0.5) * 2 * Math_PI * 0.5))%float
  else
    r.2 = [] ∧
    tank_canJump r.1 = true ∧
    vy (tank_wheelOffset r.1) = 0%float.
Proof.
  apply (jump_animation_frame (mkMathLib (λ x, x) (λ x, x)) 0 0 1000 1600
           (with_tank_canJump false drivingTank)).
  reflexivity.
Defined.

(** X19 — A shot.  [shoot()] does nothing while the shoot latch is
    cleared; otherwise it clears the latch, puts the bullet and the shell
    at offset 0 and requests one animation frame.  Each frame of the
    animation puts the bullet at 20 times the progress and the shell at 25
    times the progress; below progress 1 it requests one more frame and
    leaves the latch cleared, and at progress 1 the bullet and the shell
    are back at their resting offsets 20 and 25, the latch is set again and
    nothing is requested.  Neither touches the wheels, the jump latch or
    the key map. *)
Theorem shot_animation (id : ObjId) (now startTime currentTime : number)
    (p : TSLPlaneDesertTank) :
  backed (tank_bulletOffsetUniform p) (tank_material p) "uBulletOffset" = true →
  backed (tank_shellOffsetUniform p) (tank_material p) "uShellOffset" = true →
  let s := tank_shoot id now p in
  let progress := Math_min ((currentTime - startTime) / 500) 1 in
  let r := tank_animateShoot id startTime currentTime p in
  (if tank_canShoot p then
     s.2 = [AnimateShoot id now] ∧ tank_canShoot s.1 = false ∧
     tank_bulletOffset s.1 = 0%float ∧ tank_shellOffset s.1 = 0%float
   else s = (p, [])) ∧
  tank_bulletOffset r.1 = (20 * progress)%float ∧
  tank_shellOffset r.1 = (25 * progress)%float ∧
  (if (progress <? 1)%float
   then r.2 = [AnimateShoot id startTime] ∧ tank_canShoot r.1 = tank_canShoot p
   else r.2 = [] ∧ tank_canShoot r.1 = true) ∧
  (progress = 1%float →
   r.2 = [] ∧ tank_canShoot r.1 = true ∧
   tank_bulletOffset r.1 = 20%float ∧ tank_shellOffset r.1 = 25%float) ∧
  (∀ q, q ∈ [s.1; r.1] →
        tank_wheelOffset q = tank_wheelOffset p ∧ tank_canJump q = tank_canJump p ∧
        tank_keyMap q = tank_keyMap p).
Proof.
  intros HB HS. cbv zeta. unfold tank_shoot, tank_animateShoot.
  generalize (Math_min ((currentTime - startTime) / 500) 1). intros progress.
  split; [|split; [|split; [|split; [|split]]]].
  - destruct (tank_canShoot p); cbn [negb fst snd]; [|done].
    autorewrite with tank. by rewrite HB, HS.
  - destruct (progress <? 1)%float; cbn [fst snd]; autorewrite with tank; by rewrite HB.
  - destruct (progress <? 1)%float; cbn [fst snd]; autorewrite with tank; by rewrite HS.
  - destruct (progress <? 1)%float; cbn [fst snd]; autorewrite with tank; done.
  - intros ->. change (1 <? 1)%float with false. cbn [fst snd].
    autorewrite with tank. rewrite HB, HS. done.
  - intros q Hq.
    apply elem_of_cons in Hq as [->|Hq];
      [|apply elem_of_cons in Hq as [->|Hq]; [|by apply elem_of_nil in Hq]].
    + destruct (tank_canShoot p); cbn [negb fst snd]; autorewrite with tank; done.
    + destruct (progress <? 1)%float; cbn [fst snd]; autorewrite with tank; done.
Qed.

Lemma shot_animation_witness :
  let p := with_tank_canShoot true (tankObject tslFails) in
  let s := tank_shoot 0 1000 p in
  let progress := Math_min ((1250 - 1000) / 500) 1 in
  let r := tank_animateShoot 0 1000 1250 p in
  (if tank_canShoot p then
     s.2 = [AnimateShoot 0 1000] ∧ tank_canShoot s.1 = false ∧
     tank_bulletOffset s.1 = 0%float ∧ tank_shellOffset s.1 = 0%float
   else s = (p, [])) ∧
  tank_bulletOffset r.1 = (20 * progress)%float ∧
  tank_shellOffset r.1 = (25 * progress)%float ∧
  (if (progress <? 1)%float
   then r.2 = [AnimateShoot 0 1000] ∧ tank_canShoot r.1 = tank_canShoot p
   else r.2 = [] ∧ tank_canShoot r.1 = true) ∧
  (progress = 1%float →
   r.2 = [] ∧ tank_canShoot r.1 = true ∧
   tank_bulletOffset r.1 = 20%float ∧ tank_shellOffset r.1 = 25%float) ∧
  (∀ q, q ∈ [s.1; r.1] →
        tank_wheelOffset q = tank_wheelOffset p ∧ tank_canJump q = tank_canJump p ∧
        tank_keyMap q = tank_keyMap p).
Proof.
  apply (shot_animation 0 1000 1000 1250 (with_tank_canShoot true (tankObject tslFails)));
    reflexivity.
Defined.

(** ** Pointer events *)

Lemma ray_set_rayFrom_settings u p :
  ray_settings (ray_set_rayFrom u p) =
    raySettings (ray_radius p) (ray_fade p) (ray_maxSteps p) (ray_surfaceDistance p)
      (ray_maxDistance p) (ray_timeMultiplier p)
      (if backed (ray_rayFromUniform p) (ray_material p) "uRayFrom" then u else vec2 0.5 0.5)
      (ray_rayTo p).
Proof.
  destruct p as [g m ru fu rfu rtu msu sdu mdu tmu ptr cam].
  unfold_accessors. cbn. setter_cases rfu m "uRayFrom".
Qed.

Lemma ray_set_rayTo_settings u p :
  ray_settings (ray_set_rayTo u p) =
    raySettings (ray_radius p) (ray_fade p) (ray_maxSteps p) (ray_surfaceDistance p)
      (ray_maxDistance p) (ray_timeMultiplier p) (ray_rayFrom p)
      (if backed (ray_rayToUniform p) (ray_material p) "uRayTo" then u else vec2 1 1).
Proof.
  destruct p as [g m ru fu rfu rtu msu sdu mdu tmu ptr cam].
  unfold_accessors. cbn. setter_cases rtu m "uRayTo".
Qed.

Lemma raySetter_pointer {A} u setU name (inj : A → UValue) v p :
  (∀ o q, ray_pointer (setU o q) = ray_pointer q) →
  ray_pointer (raySetter u setU name inj v p) = ray_pointer p.
Proof.
  intros HsetU. unfold raySetter. destruct (u p); [apply HsetU|].
  destruct (shaderUniform (ray_material p) name); [|done]. by destruct p.
Qed.

(** X20 — The pointer on the raymarching plane.  A pointer move stores the
    pointer in normalised device coordinates ([x / innerWidth · 2 − 1],
    [−(y / innerHeight) · 2 + 1]); when the ray from the camera hits the
    plane, the target of the ray becomes the texture coordinate of the
    first hit, or (1, 1) when that hit carries none, and when it misses the
    plane the target stays where it was.  A pointer press copies the
    current target into the origin of the ray.  Neither event changes any
    other parameter of the plane. *)
Theorem pointer_steers_the_ray (env : Env) (clientX clientY : number)
    (hits : list (option Vector2)) (p : TSLPlaneRaymarching) :
  backed (ray_rayFromUniform p) (ray_material p) "uRayFrom" = true →
  backed (ray_rayToUniform p) (ray_material p) "uRayTo" = true →
  let s := ray_settings p in
  let moved := ray_onPointerMove env clientX clientY hits p in
  let pressed := ray_onPointerDown p in
  ray_pointer moved =
    vec2 (clientX / innerWidth env * 2 - 1) (- (clientY / innerHeight env) * 2 + 1)%float ∧
  ray_settings moved =
    raySettings (s_radius s) (s_fade s) (s_maxSteps s) (s_surfaceDistance s)
      (s_maxDistance s) (s_timeMultiplier s) (s_rayFrom s)
      (match hits with
       | [] => s_rayTo s
       | uv :: _ => default (vec2 1 1) uv
       end) ∧
  ray_pointer pressed = ray_pointer p ∧
  ray_settings pressed =
    raySettings (s_radius s) (s_fade s) (s_maxSteps s) (s_surfaceDistance s)
      (s_maxDistance s) (s_timeMultiplier s) (s_rayTo s) (s_rayTo s).
Proof.
  intros Hfrom Hto. cbv zeta. unfold ray_onPointerMove, ray_onPointerDown.
  split; [|split; [|split]].
  - destruct hits as [|uv hits].
    + by destruct p.
    + unfold ray_set_rayTo. rewrite raySetter_pointer by (by intros o []).
      by destruct p.
  - destruct hits as [|uv hits].
    + by destruct p.
    + rewrite ray_set_rayTo_settings.
      assert (backed (ray_rayToUniform (with_ray_pointer
                (vec2 (clientX / innerWidth env * 2 - 1)
                      (- (clientY / innerHeight env) * 2 + 1))%float p))
              (ray_material (with_ray_pointer
                (vec2 (clientX / innerWidth env * 2 - 1)
                      (- (clientY / innerHeight env) * 2 + 1))%float p)) "uRayTo" = true)
        as -> by (by destruct p).
      by destruct p.
  - unfold ray_set_rayFrom. apply raySetter_pointer. by intros o [].
  - rewrite ray_set_rayFrom_settings, Hfrom. reflexivity.
Qed.

Lemma pointer_steers_the_ray_witness :
  let p := rayObject tslFails in
  let hits := [Some (vec2 0.25 0.75); None] in
  let s := ray_settings p in
  let moved := ray_onPointerMove chrome 400 300 hits p in
  let pressed := ray_onPointerDown p in
  ray_pointer moved =
    vec2 (400 / innerWidth chrome * 2 - 1) (- (300 / innerHeight chrome) * 2 + 1)%float ∧
  ray_settings moved =
    raySettings (s_radius s) (s_fade s) (s_maxSteps s) (s_surfaceDistance s)
      (s_maxDistance s) (s_timeMultiplier s) (s_rayFrom s)
      (match hits with
       | [] => s_rayTo s
       | uv :: _ => default (vec2 1 1) uv
       end) ∧
  ray_pointer pressed = ray_pointer p ∧
  ray_settings pressed =
    raySettings (s_radius s) (s_fade s) (s_maxSteps s) (s_surfaceDistance s)
      (s_maxDistance s) (s_timeMultiplier s) (s_rayTo s) (s_rayTo s).
Proof.
  apply (pointer_steers_the_ray chrome 400 300 [Some (vec2 0.25 0.75); None]
           (rayObject tslFails)); reflexivity.
Defined.

(** ** The button panel *)

Lemma restyle_lookup planeType buttons type :
  restyle planeType buttons !! type =
    (λ _, if bool_decide (type = planeType) then activeStyle else idleStyle) <$>
      buttons !! type.
Proof. unfold restyle. rewrite map_lookup_imap. by destruct (buttons !! type). Qed.

(** A switch to raymarching whose construction throws. *)
Lemma switchToPlane_raymarching_failed env w :
  constructionFails env = true → Consistent w →
  ∃ e w', switchToPlane env "raymarching" w = (Throw e, w') ∧
    currentActivePlane w' = currentActivePlane w ∧ Vacant w' ∧
    allocated w' = allocated w.
Proof.
  intros He Hc. rewrite switchToPlane_eq.
  change (kindOfTag "raymarching") with (Some Raymarching). cbv zeta.
  assert (Vacant (cleaned (announced "raymarching" w))) as Hv.
  { apply cleaned_Vacant. same_lifecycle. }
  destruct (cleaned_announced "raymarching" w) as (Ha & Htag & _ & _).
  revert Hv Ha Htag. generalize (cleaned (announced "raymarching" w)).
  intros w1 Hv Ha Htag.
  destruct (createRayMarchingPlane_failed env w1 He) as (entries & err & ->).
  eexists _, _. split; [reflexivity|].
  split; [by destruct_world w1|]. split; [same_lifecycle|]. by destruct_world w1.
Qed.

(** What a switch to one of the five plane types of the panel leaves. *)
Lemma switchToPlane_panel env type w :
  type ∈ planeTypes → Consistent w →
  if bool_decide (type = "raymarching") && constructionThrows env type then
    ∃ e w', switchToPlane env type w = (Throw e, w') ∧
      currentActivePlane w' = currentActivePlane w ∧ Vacant w' ∧
      allocated w' = allocated w
  else
    ∃ w', switchToPlane env type w = (Normal (), w') ∧
      currentActivePlane w' = type ∧ Consistent w'.
Proof.
  intros Htype Hc.
  pose proof (switchToPlane_Consistent env type w Hc) as Hc'.
  unfold planeTypes in Htype.
  repeat (apply elem_of_cons in Htype as [->|Htype]); [..|by apply elem_of_nil in Htype];
    cbn [bool_decide decide_rel andb]; try rewrite bool_decide_eq_false_2 by done;
    try rewrite bool_decide_eq_true_2 by done; cbn [andb].
  - destruct (constructionThrows env "wave") eqn:He.
    + destruct (switchToPlane_failed env "wave" Wave w eq_refl ltac:(done) He Hc)
        as (w' & entries & Heq & Htag & _). rewrite Heq in *. by exists w'.
    + destruct (switchToPlane_built env "wave" Wave w eq_refl He (c_renderer _ Hc))
        as (w' & Heq & Htag & _). rewrite Heq in *. by exists w'.
  - destruct (constructionThrows env "sdf") eqn:He.
    + destruct (switchToPlane_failed env "sdf" Sdf w eq_refl ltac:(done) He Hc)
        as (w' & entries & Heq & Htag & _). rewrite Heq in *. by exists w'.
    + destruct (switchToPlane_built env "sdf" Sdf w eq_refl He (c_renderer _ Hc))
        as (w' & Heq & Htag & _). rewrite Heq in *. by exists w'.
  - destruct (constructionThrows env "desert-tank") eqn:He.
    + destruct (switchToPlane_failed env "desert-tank" DesertTank w eq_refl
                  ltac:(done) He Hc)
        as (w' & entries & Heq & Htag & _). rewrite Heq in *. by exists w'.
    + destruct (switchToPlane_built env "desert-tank" DesertTank w eq_refl He
                  (c_renderer _ Hc))
        as (w' & Heq & Htag & _). rewrite Heq in *. by exists w'.
  - destruct (constructionThrows env "raymarching") eqn:He.
    + by apply switchToPlane_raymarching_failed.
    + destruct (switchToPlane_built env "raymarching" Raymarching w eq_refl He
                  (c_renderer _ Hc))
        as (w' & Heq & Htag & _). rewrite Heq in *. by exists w'.
  - rewrite switchToPlane_eq in *.
    change (kindOfTag "none") with (@None PlaneKind) in *. cbv zeta in *.
    rewrite bool_decide_eq_true_2 in * by done.
    eexists. split; [reflexivity|]. split; [|done].
    by destruct_world w.
Qed.

Lemma setActivePlane_eq env type this w :
  setActivePlane env type this w =
    let this' := mkGUIView type (restyle type (gui_buttons this)) (gui_attached this) in
    match switchToPlane env type
            (set_console (console w ++ [logEntry LevelLog engineDump None]) w) with
    | (Normal _, w1) =>
        (Normal (),
         (this',
          set_console
            (console w1 ++ [logEntry LevelLog ("🎮 Switched to plane: " +:+ type) None])
            w1))
    | (Throw e, w1) => (Throw e, (this', w1))
    end.
Proof.
  unfold setActivePlane, onPlaneChange, consoleLog, modify, mbind, Js_bind. cbv zeta.
  destruct (switchToPlane env type _) as [[[]|e] w1]; reflexivity.
Qed.

Lemma logged_Consistent w entries : Consistent w → Consistent (set_console entries w).
Proof. intros Hc. same_lifecycle. Qed.

Lemma initial_buttons_lookup type :
  (list_to_map ((λ type, (type, idleStyle)) <$> planeTypes) : gmap string ButtonStyle)
    !! type =
    if bool_decide (type ∈ planeTypes) then Some idleStyle else None.
Proof.
  unfold planeTypes. cbn [fmap list_fmap list_to_map foldr uncurry].
  case_bool_decide as Hin.
  - repeat (apply elem_of_cons in Hin as [->|Hin]); [..|by apply elem_of_nil in Hin];
      reflexivity.
  - repeat (rewrite lookup_insert_ne;
            [|intros <-; apply Hin; repeat constructor]).
    apply lookup_empty.
Qed.

(** X21 — A click on a button of the panel selects its variant.  Whenever
    the switch does not throw (that is, always except when the raymarching
    plane cannot be constructed), the click returns normally with the panel
    and the engine agreeing on the plane type, the clicked button
    highlighted and every other button of the panel back in the idle
    style, and the engine again in a state where at most one plane is
    live. *)
Theorem click_selects_the_variant (env : Env) (type : string) (this : GUIView) (w : World) :
  type ∈ planeTypes →
  Consistent w →
  (type = "raymarching" → constructionThrows env type = false) →
  let r := onButton env Click type this w in
  r.1 = Normal () ∧
  getCurrentPlaneType r.2.1 = type ∧
  currentActivePlane r.2.2 = type ∧
  (∀ t, gui_buttons r.2.1 !! t =
        (λ _, if bool_decide (t = type) then activeStyle else idleStyle) <$>
          gui_buttons this !! t) ∧
  gui_attached r.2.1 = gui_attached this ∧
  Consistent r.2.2.
Proof.
  intros Htype Hc Hok. cbv zeta. unfold onButton. rewrite setActivePlane_eq. cbv zeta.
  pose proof (switchToPlane_panel env type _ Htype
                (logged_Consistent w (console w ++ [logEntry LevelLog engineDump None]) Hc))
    as Hsw.
  destruct (bool_decide (type = "raymarching") && constructionThrows env type) eqn:Hfail.
  { apply andb_true_iff in Hfail as [Hray Hthrows].
    apply bool_decide_eq_true_1 in Hray. rewrite (Hok Hray) in Hthrows. done. }
  destruct Hsw as (w1 & -> & Htag & Hc1). cbn [fst snd].
  split; [done|]. split; [done|]. split; [by destruct_world w1|].
  split; [intros t; apply restyle_lookup|]. split; [done|].
  by apply logged_Consistent.
Qed.

Lemma click_selects_the_variant_witness :
  let r := onButton tslFails Click "sdf"
             (mkGUIView "wave" (list_to_map ((λ type, (type, idleStyle)) <$> planeTypes)) true)
             tankActive in
  r.1 = Normal () ∧
  getCurrentPlaneType r.2.1 = "sdf" ∧
  currentActivePlane r.2.2 = "sdf" ∧
  (∀ t, gui_buttons r.2.1 !! t =
        (λ _, if bool_decide (t = "sdf") then activeStyle else idleStyle) <$>
          gui_buttons
            (mkGUIView "wave" (list_to_map ((λ type, (type, idleStyle)) <$> planeTypes))
               true) !! t) ∧
  gui_attached r.2.1 =
    gui_attached
      (mkGUIView "wave" (list_to_map ((λ type, (type, idleStyle)) <$> planeTypes)) true) ∧
  Consistent r.2.2.
Proof.
  apply (click_selects_the_variant tslFails "sdf"
           (mkGUIView "wave" (list_to_map ((λ type, (type, idleStyle)) <$> planeTypes)) true)
           tankActive).
  - unfold planeTypes. apply list_elem_of_further, list_elem_of_here.
  - apply (run_Consistent [SelectVariant chrome "desert-tank"] started).
    apply (boot_Consistent chrome). reflexivity.
  - intros H. discriminate H.
Defined.

(** X22 — When the raymarching plane cannot be constructed, a click on its
    button leaves the panel and the engine out of step.  The exception of
    the constructor leaves the click handler; by then the panel already
    shows Raymarching as the active type, with its button highlighted,
    while the engine keeps the tag it had, holds no plane and shows
    none. *)
Theorem failed_raymarching_click_desynchronises (env : Env) (this : GUIView) (w : World) :
  Consistent w →
  constructionThrows env "raymarching" = true →
  let r := onButton env Click "raymarching" this w in
  (∃ e, r.1 = Throw e) ∧
  getCurrentPlaneType r.2.1 = "raymarching" ∧
  (∀ t, gui_buttons r.2.1 !! t =
        (λ _, if bool_decide (t = "raymarching") then activeStyle else idleStyle) <$>
          gui_buttons this !! t) ∧
  currentActivePlane r.2.2 = currentActivePlane w ∧
  fieldRefs r.2.2 = [] ∧ scene r.2.2 = [] ∧ activePlanes r.2.2 = [] ∧
  liveCount r.2.2 = 0.
Proof.
  intros Hc He. cbv zeta. unfold onButton. rewrite setActivePlane_eq. cbv zeta.
  destruct (switchToPlane_raymarching_failed env _ He
              (logged_Consistent w (console w ++ [logEntry LevelLog engineDump None]) Hc))
    as (e & w1 & -> & Htag & Hv & _).
  cbn [fst snd]. destruct (Vacant_idle _ Hv) as (Hrefs & Hscene & Hlive & Hactive).
  split; [by exists e|]. split; [done|]. split; [intros t; apply restyle_lookup|].
  split; [by destruct_world w|]. done.
Qed.

Lemma failed_raymarching_click_desynchronises_witness :
  let this := mkGUIView "sdf" (list_to_map ((λ type, (type, idleStyle)) <$> planeTypes))
                true in
  let r := onButton geometryFails Click "raymarching" this sdfActive in
  (∃ e, r.1 = Throw e) ∧
  getCurrentPlaneType r.2.1 = "raymarching" ∧
  (∀ t, gui_buttons r.2.1 !! t =
        (λ _, if bool_decide (t = "raymarching") then activeStyle else idleStyle) <$>
          gui_buttons this !! t) ∧
  currentActivePlane r.2.2 = currentActivePlane sdfActive ∧
  fieldRefs r.2.2 = [] ∧ scene r.2.2 = [] ∧ activePlanes r.2.2 = [] ∧
  liveCount r.2.2 = 0.
Proof.
  apply (failed_raymarching_click_desynchronises geometryFails
           (mkGUIView "sdf" (list_to_map ((λ type, (type, idleStyle)) <$> planeTypes))
              true) sdfActive).
  - apply (run_Consistent [SelectVariant chrome "sdf"] started).
    apply (boot_Consistent chrome). reflexivity.
  - reflexivity.
Defined.

(** X23 — Hovering over a button.  Entering a button gives it the hover
    background and border and keeps its text colour; leaving it restores
    the idle background and border unless the button is the one of the
    active plane type, which is left as the hover made it.  So after the
    pointer passed over the active button, that button shows the hover
    colours instead of the highlight until the next click.  No other
    button and nothing in the engine is touched. *)
Theorem hover_erases_the_highlight (env : Env) (type : string) (this : GUIView) (w : World) :
  let entered := onButton env MouseEnter type this w in
  let left := onButton env MouseLeave type entered.2.1 entered.2.2 in
  entered.1 = Normal () ∧ left.1 = Normal () ∧
  left.2.2 = w ∧
  getCurrentPlaneType left.2.1 = getCurrentPlaneType this ∧
  gui_buttons left.2.1 !! type =
    (λ s, if bool_decide (getCurrentPlaneType this = type)
          then buttonStyle "rgba(255,255,255,0.2)" "rgba(255,255,255,0.5)" (color s)
          else buttonStyle "rgba(255,255,255,0.1)" "rgba(255,255,255,0.3)" (color s)) <$>
      gui_buttons this !! type ∧
  (∀ t, t ≠ type → gui_buttons left.2.1 !! t = gui_buttons this !! t).
Proof.
  cbv zeta. unfold onButton, onMouseEnter, onMouseLeave, getCurrentPlaneType.
  cbn [fst snd gui_activePlane gui_buttons gui_attached].
  repeat (split; [by repeat case_bool_decide|]).
  split.
  - repeat case_bool_decide; try done; cbn [gui_buttons];
      rewrite ?lookup_alter_eq; by destruct (gui_buttons this !! type).
  - intros t Ht. case_bool_decide; cbn [gui_buttons]; by rewrite ?lookup_alter_ne.
Qed.

(** ** The engine as a whole *)

Lemma boot_outcome env :
  match negotiated env with
  | Some _ => ∃ w, boot env = (Normal (), w)
  | None => ∃ w, boot env = (Throw (LibraryError "renderer"), w) ∧ allocated w = 0
  end.
Proof.
  destruct env as [iw ih gpu gput gl2 gl2t glt gt tsl smt wt].
  destruct gpu, gput, gl2, gl2t, glt; vm_compute; eauto.
Qed.

(** The switch to wave made by the constructor of the panel. *)
Lemma switchToPlane_wave env w :
  Consistent w →
  ∃ w', switchToPlane env "wave" w = (Normal (), w') ∧
    currentActivePlane w' = "wave" ∧ Consistent w' ∧
    allocated w' = (if wavePlaneThrows env then 0 else 1) + allocated w.
Proof.
  intros Hc. pose proof (switchToPlane_Consistent env "wave" w Hc) as Hc'.
  destruct (wavePlaneThrows env) eqn:He.
  - destruct (switchToPlane_failed env "wave" Wave w eq_refl ltac:(done) He Hc)
      as (w' & entries & Heq & Htag & _ & Halloc & _). rewrite Heq in *. by exists w'.
  - destruct (switchToPlane_built env "wave" Wave w eq_refl He (c_renderer _ Hc))
      as (w' & Heq & Htag & _ & _ & Halloc & _). rewrite Heq in *. by exists w'.
Qed.

Lemma allocated_set_console entries w : allocated (set_console entries w) = allocated w.
Proof. by destruct_world w. Qed.

Lemma new_ThreeEngine_spec (env : Env) :
  let r := new_ThreeEngine env in
  match negotiated env with
  | None =>
      r.1 = Throw (LibraryError "renderer") ∧ panel r.2 = None ∧ gui r.2 = false ∧
      allocated (engine r.2) = 0
  | Some _ =>
      (∃ g, panel r.2 = Some g ∧ getCurrentPlaneType g = "wave" ∧
            gui_attached g = true ∧
            ∀ type, gui_buttons g !! type =
                    if bool_decide (type ∈ planeTypes)
                    then Some (if bool_decide (type = "wave") then activeStyle
                               else idleStyle)
                    else None) ∧
      gui r.2 = true ∧ animationFrames r.2 = [] ∧
      Consistent (engine r.2) ∧
      if constructionThrows env "raymarching" then
        (∃ e, r.1 = Throw e) ∧
        currentActivePlane (engine r.2) = "wave" ∧
        activePlanes (engine r.2) = [] ∧ liveCount (engine r.2) = 0 ∧
        allocated (engine r.2) = (if wavePlaneThrows env then 0 else 1)
      else
        r.1 = Normal () ∧
        currentActivePlane (engine r.2) = "raymarching" ∧
        activePlanes (engine r.2) = [RayObject (rayObject env)] ∧
        liveCount (engine r.2) = 1 ∧
        allocated (engine r.2) = (if wavePlaneThrows env then 1 else 2)
  end.
Proof.
  cbv zeta. unfold new_ThreeEngine.
  pose proof (boot_outcome env) as Hboot.
  pose proof (boot_Consistent env) as Hc0.
  pose proof (boot_Vacant env) as Hv0.
  destruct (negotiated env) as [t|].
  2: { destruct Hboot as (w & -> & Halloc). done. }
  destruct Hboot as (w0 & Hboot). rewrite Hboot in *. cbn [fst snd] in *.
  specialize (Hc0 eq_refl). destruct (Hv0 eq_refl) as (_ & _ & Halloc0 & _).
  unfold new_GUIView. cbn [gui_activePlane]. rewrite setActivePlane_eq. cbv zeta.
  unfold consoleLog, modify. cbn [snd].
  match goal with |- context [switchToPlane env "wave" ?w] => set (w1 := w) end.
  assert (Consistent w1) as Hc1 by (by do 3 apply logged_Consistent).
  assert (allocated w1 = 0) as Halloc1
    by (unfold w1; by rewrite !allocated_set_console).
  destruct (switchToPlane_wave env w1 Hc1) as (w2 & -> & Htag2 & Hc2 & Halloc2).
  clearbody w1.
  set (w3 := set_console _ w2).
  assert (Consistent w3) as Hc3 by (by apply logged_Consistent).
  assert (allocated w3 = allocated w2) as Halloc3 by apply allocated_set_console.
  assert (currentActivePlane w3 = "wave") as Htag3 by (by destruct_world w2).
  clearbody w3.
  assert (∃ g, Some (mkGUIView "wave"
                 (restyle "wave" (list_to_map ((λ type, (type, idleStyle)) <$> planeTypes)))
                 true) = Some g ∧
          getCurrentPlaneType g = "wave" ∧ gui_attached g = true ∧
          ∀ type, gui_buttons g !! type =
                  if bool_decide (type ∈ planeTypes)
                  then Some (if bool_decide (type = "wave") then activeStyle else idleStyle)
                  else None) as Hpanel.
  { eexists. split; [reflexivity|]. split; [done|]. split; [done|].
    intros type. cbn [gui_buttons]. rewrite restyle_lookup, initial_buttons_lookup.
    by destruct (bool_decide (type ∈ planeTypes)). }
  destruct (constructionThrows env "raymarching") eqn:He.
  - destruct (switchToPlane_raymarching_failed env w3 He Hc3)
      as (e & w4 & -> & Htag4 & Hv4 & Halloc4).
    cbn [fst snd engine panel gui animationFrames].
    destruct (Vacant_idle _ Hv4) as (_ & _ & Hlive & Hactive).
    split; [exact Hpanel|]. split; [done|]. split; [done|].
    split; [by apply Vacant_Consistent|].
    split; [by exists e|]. split; [congruence|]. split; [done|]. split; [done|].
    rewrite Halloc4, Halloc3, Halloc2, Halloc1. destruct (wavePlaneThrows env); done.
  - pose proof (switchToPlane_built_live env "raymarching" Raymarching w3 eq_refl He Hc3)
      as Hlive.
    pose proof (switchToPlane_Consistent env "raymarching" w3 Hc3) as Hc4.
    destruct (switchToPlane_built env "raymarching" Raymarching w3 eq_refl He
                (c_renderer _ Hc3))
      as (w4 & Heq & Htag4 & _ & Hactive & Halloc4 & _).
    rewrite Heq in *. cbn [fst snd engine panel gui animationFrames] in *.
    split; [exact Hpanel|]. repeat (split; [done|]).
    rewrite Halloc4, Halloc3, Halloc2, Halloc1. destruct (wavePlaneThrows env); done.
Qed.

(** X24 — [new ThreeEngine(app)].  Without any usable renderer the
    constructor throws before the panel exists.  Otherwise the panel is
    created, attached to the document and, through its own constructor,
    made to select the wave plane; the engine constructor then switches to
    raymarching without telling the panel.  So when the constructor
    returns, the engine shows the raymarching plane (the only live plane,
    configured as [createRayMarchingPlane] does) while the panel reports
    and highlights Wave; the wave plane built for the panel was torn down
    at once.  When the raymarching plane cannot be constructed the
    constructor throws, leaving the panel in the document, the tag at
    ["wave"] and no plane at all. *)
Theorem engine_constructor (env : Env) :
  let r := new_ThreeEngine env in
  match negotiated env with
  | None =>
      r.1 = Throw (LibraryError "renderer") ∧ panel r.2 = None ∧ gui r.2 = false ∧
      allocated (engine r.2) = 0
  | Some _ =>
      (∃ g, panel r.2 = Some g ∧ getCurrentPlaneType g = "wave" ∧
            gui_attached g = true ∧
            ∀ type, gui_buttons g !! type =
                    if bool_decide (type ∈ planeTypes)
                    then Some (if bool_decide (type = "wave") then activeStyle
                               else idleStyle)
                    else None) ∧
      gui r.2 = true ∧ animationFrames r.2 = [] ∧
      Consistent (engine r.2) ∧
      if constructionThrows env "raymarching" then
        (∃ e, r.1 = Throw e) ∧
        currentActivePlane (engine r.2) = "wave" ∧
        activePlanes (engine r.2) = [] ∧ liveCount (engine r.2) = 0 ∧
        allocated (engine r.2) = (if wavePlaneThrows env then 0 else 1)
      else
        r.1 = Normal () ∧
        currentActivePlane (engine r.2) = "raymarching" ∧
        activePlanes (engine r.2) = [RayObject (rayObject env)] ∧
        liveCount (engine r.2) = 1 ∧
        allocated (engine r.2) = (if wavePlaneThrows env then 1 else 2)
  end.
Proof. exact (new_ThreeEngine_spec env). Qed.

Lemma cleaned_frame w :
  currentActivePlane (cleaned w) = currentActivePlane w ∧
  calls (cleaned w) = calls w ++ teardownCalls w ∧
  allocated (cleaned w) = allocated w.
Proof.
  destruct_world w. unfold cleaned, allocated, teardownCalls, fieldRefs. world_norm.
  by rewrite !length_disposeAt.
Qed.

Lemma dispose_eq pg :
  dispose pg =
    (Normal (),
     mkPage (cleaned (engine pg))
       (if gui pg then GUIView_dispose <$> panel pg else panel pg)
       (gui pg) (animationFrames pg)).
Proof. unfold dispose. by rewrite cleanupCurrentPlane_eq. Qed.

(** X25 — [ThreeEngine.dispose()].  From any state the engine can be in,
    [dispose] returns normally with no plane held, none live and none in
    the scene, having removed and disposed exactly the plane that was
    held, and with the panel taken out of the document, after which its
    buttons receive no event.  What it leaves behind: the tag still names
    the variant that was active, every listener that runs a closure of a
    plane is still registered, and the animation frames that were
    requested are still pending.  A second [dispose] changes nothing. *)
Theorem engine_dispose (pg : Page) :
  Consistent (engine pg) →
  let r := dispose pg in
  r.1 = Normal () ∧
  Vacant (engine r.2) ∧ activePlanes (engine r.2) = [] ∧ liveCount (engine r.2) = 0 ∧
  calls (engine r.2) = calls (engine pg) ++ teardownCalls (engine pg) ∧
  allocated (engine r.2) = allocated (engine pg) ∧
  panel r.2 = (if gui pg then GUIView_dispose <$> panel pg else panel pg) ∧
  (gui pg = true → ∀ env ev type, stepPage r.2 (Button env ev type) = r.2) ∧
  currentActivePlane (engine r.2) = currentActivePlane (engine pg) ∧
  (∀ l, l ∈ listeners (engine pg) → l_callback l ≠ InitControlsMethod →
        l ∈ listeners (engine r.2)) ∧
  animationFrames r.2 = animationFrames pg ∧
  dispose r.2 = (Normal (), r.2).
Proof.
  intros Hc. cbv zeta. rewrite !dispose_eq.
  cbn [fst snd engine panel gui animationFrames]. rewrite cleaned_idemp.
  pose proof (closures_survive_cleanup (engine pg)) as Hkeep.
  rewrite cleanupCurrentPlane_eq in Hkeep. cbn [snd] in Hkeep.
  pose proof (cleaned_Vacant _ Hc) as Hv.
  destruct (Vacant_idle _ Hv) as (_ & _ & Hlive & Hactive).
  destruct (cleaned_frame (engine pg)) as (Htag & Hcalls & Halloc).
  repeat (split; [done|]).
  split.
  { intros Hgui env ev type. rewrite Hgui. unfold stepPage.
    cbn [engine panel gui animationFrames].
    by destruct (panel pg) as [g|]. }
  repeat (split; [done|]).
  f_equal. f_equal. destruct (gui pg), (panel pg) as [[]|]; done.
Qed.

Lemma engine_dispose_witness :
  let pg := mkPage tankDriving
              (Some (mkGUIView "desert-tank"
                       (restyle "desert-tank"
                          (list_to_map ((λ type, (type, idleStyle)) <$> planeTypes)))
                       true))
              true [AnimateJump 0 0 1000] in
  let r := dispose pg in
  r.1 = Normal () ∧
  Vacant (engine r.2) ∧ activePlanes (engine r.2) = [] ∧ liveCount (engine r.2) = 0 ∧
  calls (engine r.2) = calls (engine pg) ++ teardownCalls (engine pg) ∧
  allocated (engine r.2) = allocated (engine pg) ∧
  panel r.2 = (if gui pg then GUIView_dispose <$> panel pg else panel pg) ∧
  (gui pg = true → ∀ env ev type, stepPage r.2 (Button env ev type) = r.2) ∧
  currentActivePlane (engine r.2) = currentActivePlane (engine pg) ∧
  (∀ l, l ∈ listeners (engine pg) → l_callback l ≠ InitControlsMethod →
        l ∈ listeners (engine r.2)) ∧
  animationFrames r.2 = animationFrames pg ∧
  dispose r.2 = (Normal (), r.2).
Proof.
  apply (engine_dispose
           (mkPage tankDriving
              (Some (mkGUIView "desert-tank"
                       (restyle "desert-tank"
                          (list_to_map ((λ type, (type, idleStyle)) <$> planeTypes)))
                       true))
              true [AnimateJump 0 0 1000])).
  apply (run_Consistent
           [SelectVariant chrome "desert-tank";
            Dispatch chrome Document "keydown" (KeyboardEvent "KeyW");
            Dispatch chrome Document "keydown" (KeyboardEvent "KeyD")] started).
  apply (boot_Consistent chrome). reflexivity.
Defined.

(** ** A jump from start to end *)

Lemma update_desert_tank wave_update clock w id p :
  shaderMaterial w = None → shaderMaterialSimple w = None →
  currentActivePlane w = "desert-tank" → tslDesertTank w = Some id →
  tanks w !! id = Some p →
  update wave_update clock w =
    (Normal (tank_update clock id (1 / 60) p).2,
     set_tanks (<[id := (tank_update clock id (1 / 60) p).1]> (tanks w)) w).
Proof.
  intros Hsm Hsms Htag Hfield Hp.
  destruct_world w; world_norm; simplify_eq/=.
  unfold update; world_norm.
  rewrite !bool_decide_eq_false_2 by done. rewrite bool_decide_eq_true_2 by done.
  world_norm. rewrite Hp. reflexivity.
Qed.

(** X26 — A jump from the key to the landing.  With the desert tank
    active, the jump key held and the jump latch set, one frame update
    clears the latch and leaves exactly one animation frame requested;
    until that animation ends the latch stays cleared, so that the held key
    starts no second jump.  The animation frame at which the progress has
    reached 1 sets the latch again, requests nothing more, and leaves the
    wheels exactly where the update had put them: at the start height,
    moved sideways by the keys held during the update. *)
Theorem jump_runs_to_completion (wave_update : number → TSLPlane → TSLPlane)
    (clock : Clock) (math : MathLib) (t : number) (pg : Page) (id : ObjId)
    (p : TSLPlaneDesertTank) :
  Consistent (engine pg) →
  currentActivePlane (engine pg) = "desert-tank" →
  tslDesertTank (engine pg) = Some id →
  tanks (engine pg) !! id = Some p →
  backed (tank_wheelOffsetUniform p) (tank_material p) "uWheelOffset" = true →
  keyDown p "KeyW" || keyDown p "ArrowUp" = true →
  tank_canJump p = true →
  keyDown p "Space" && tank_canShoot p = false →
  animationFrames pg = [] →
  Math_min ((t - now_jump clock) / 500) 1 = 1%float →
  let pg1 := stepPage pg (Update wave_update clock) in
  let pg2 := stepPage pg1 (AnimationFrame math t) in
  ∃ p1 p2,
    tanks (engine pg1) !! id = Some p1 ∧
    tank_canJump p1 = false ∧
    animationFrames pg1 = [AnimateJump id (vy (tank_wheelOffset p)) (now_jump clock)] ∧
    animationFrames (stepPage pg1 (Update wave_update clock)) = animationFrames pg1 ∧
    tanks (engine pg2) !! id = Some p2 ∧
    tank_canJump p2 = true ∧
    tank_wheelOffset p2 = tank_wheelOffset p1 ∧
    vy (tank_wheelOffset p2) = vy (tank_wheelOffset p) ∧
    animationFrames pg2 = [].
Proof.
  intros Hc Htag Hfield Hp Hb HW Hcj Hspace Hframes Hprogress. cbv zeta.
  destruct pg as [w g gf frames]. cbn [engine panel gui animationFrames] in *. subst frames.
  assert (stepPage (mkPage w g gf []) (Update wave_update clock) =
          mkPage (set_tanks (<[id := (tank_update clock id (1 / 60) p).1]> (tanks w)) w)
            g gf (tank_update clock id (1 / 60) p).2) as ->.
  { unfold stepPage. cbn [engine panel gui animationFrames].
    by rewrite (update_desert_tank wave_update clock w id p) by (done || apply Hc). }
  destruct (tank_update_spec clock id (1 / 60) p Hb)
    as (Hw1 & Hb1 & Hreq & Hcj1 & Hcs1 & Hkm1).
  rewrite HW, Hcj, Hspace in *. cbn [andb app] in *.
  revert Hw1 Hb1 Hreq Hcj1 Hcs1 Hkm1.
  generalize (tank_update clock id (1 / 60) p). intros [p1 requested].
  cbn [fst snd]. intros Hw1 Hb1 -> Hcj1 Hcs1 Hkm1.
  assert (id < length (tanks w)) as Hid by (by eapply lookup_lt_Some).
  assert (tanks (set_tanks (<[id := p1]> (tanks w)) w) !! id = Some p1) as Hp1.
  { destruct_world w. world_norm. by apply list_lookup_insert_eq. }
  exists p1.
  destruct (tank_animateJump_spec math id (vy (tank_wheelOffset p)) (now_jump clock) t
              p1 Hb1) as (Hx2 & _ & _ & Hend).
  rewrite Hprogress in Hend. change (1 <? 1)%float with false in Hend.
  destruct Hend as (Hreq2 & Hcj2 & Hy2).
  exists (tank_animateJump math id (vy (tank_wheelOffset p)) (now_jump clock) t p1).1.
  split; [exact Hp1|]. split; [exact Hcj1|]. split; [done|].
  split.
  { (* the key is still held: nothing more is requested *)
    unfold stepPage. cbn [engine panel gui animationFrames].
    rewrite (update_desert_tank wave_update clock _ id p1);
      [|destruct_consistent Hc; by destruct_world w
       |destruct_consistent Hc; by destruct_world w
       |by destruct_world w|by destruct_world w|exact Hp1].
    cbn [animationFrames].
    destruct (tank_update_spec clock id (1 / 60) p1 Hb1) as (_ & _ & Hreq' & _).
    rewrite Hreq', Hcj1, Hcs1, !(keyDown_keyMap p1 p) by done.
    rewrite andb_false_r. cbn [app]. by rewrite Hspace. }
  unfold stepPage, runFrameCallbacks, runFrameCallback.
  cbn [engine panel gui animationFrames fst snd]. rewrite Hp1.
  cbn [engine panel gui animationFrames fst snd].
  split.
  { destruct_world w. world_norm. apply list_lookup_insert_eq.
    by rewrite length_insert. }
  split; [exact Hcj2|]. split.
  { rewrite Hw1 in *. cbn [vy] in *.
    destruct (tank_wheelOffset (tank_animateJump _ _ _ _ _ _).1) as [x2 y2].
    cbn [vx vy] in *. by subst. }
  split; [exact Hy2|]. by rewrite Hreq2.
Qed.

Lemma jump_runs_to_completion_witness :
  let wave_update := λ (_ : number) (q : TSLPlane), q in
  let clock := mkClock 0 0 1000 1000 1000 in
  let math := mkMathLib (λ x, x) (λ x, x) in
  let pg := mkPage tankDriving None false [] in
  let pg1 := stepPage pg (Update wave_update clock) in
  let pg2 := stepPage pg1 (AnimationFrame math 1600) in
  ∃ p1 p2,
    tanks (engine pg1) !! 0 = Some p1 ∧
    tank_canJump p1 = false ∧
    animationFrames pg1 = [AnimateJump 0 (vy (tank_wheelOffset drivingTank)) (now_jump clock)] ∧
    animationFrames (stepPage pg1 (Update wave_update clock)) = animationFrames pg1 ∧
    tanks (engine pg2) !! 0 = Some p2 ∧
    tank_canJump p2 = true ∧
    tank_wheelOffset p2 = tank_wheelOffset p1 ∧
    vy (tank_wheelOffset p2) = vy (tank_wheelOffset drivingTank) ∧
    animationFrames pg2 = [].
Proof.
  apply (jump_runs_to_completion (λ (_ : number) (q : TSLPlane), q)
           (mkClock 0 0 1000 1000 1000) (mkMathLib (λ x, x) (λ x, x)) 1600
           (mkPage tankDriving None false []) 0 drivingTank); try reflexivity.
  apply (run_Consistent
           [SelectVariant chrome "desert-tank";
            Dispatch chrome Document "keydown" (KeyboardEvent "KeyW");
            Dispatch chrome Document "keydown" (KeyboardEvent "KeyD")] started).
  apply (boot_Consistent chrome). reflexivity.
Defined.

(** ** Everything that can happen on the page *)

Lemma tank_animateJump_live math id startY startTime t p :
  isLive (tank_animateJump math id startY startTime t p).1 = isLive p.
Proof.
  unfold tank_animateJump.
  repeat match goal with
         | |- context [if ?b then _ else _] => destruct b
         end; cbn [fst snd];
    rewrite ?with_tank_canJump_live, ?tank_set_wheelOffset_live; reflexivity.
Qed.

Lemma tank_animateShoot_live id startTime t p :
  isLive (tank_animateShoot id startTime t p).1 = isLive p.
Proof.
  unfold tank_animateShoot.
  destruct (_ <? _)%float; cbn [fst snd];
    rewrite ?with_tank_canShoot_live, ?tank_set_shellOffset_live,
      ?tank_set_bulletOffset_live; reflexivity.
Qed.

Lemma tanks_altered_Consistent (f : TSLPlaneDesertTank → TSLPlaneDesertTank) id p w :
  (∀ q, isLive (f q) = isLive q) → tanks w !! id = Some p →
  Consistent w → Consistent (set_tanks (<[id := f p]> (tanks w)) w).
Proof.
  intros Hf Hp Hc. rewrite (list_insert_alter f) by done.
  destruct_consistent Hc. destruct_world w.
  split; unfold liveCount, fieldRefs in *; world_norm;
    rewrite ?liveIn_alter by done; try done.
  by apply ownedBy_alter.
Qed.

Lemma runFrameCallback_Consistent math t cb w :
  Consistent w → Consistent (runFrameCallback math t cb w).1.
Proof.
  intros Hc. unfold runFrameCallback. destruct cb as [id startY startTime|id startTime];
    destruct (tanks w !! id) as [p|] eqn:Hp; cbn [fst]; try done.
  - apply (tanks_altered_Consistent
             (λ q, (tank_animateJump math id startY startTime t q).1)); try done.
    intros q. apply tank_animateJump_live.
  - apply (tanks_altered_Consistent
             (λ q, (tank_animateShoot id startTime t q).1)); try done.
    intros q. apply tank_animateShoot_live.
Qed.

Lemma runFrameCallbacks_Consistent math t cbs w :
  Consistent w → Consistent (runFrameCallbacks math t cbs w).1.
Proof.
  revert w. induction cbs as [|cb cbs IH]; intros w Hc; [done|].
  cbn [runFrameCallbacks fst]. apply IH. by apply runFrameCallback_Consistent.
Qed.

Lemma onButton_Consistent env ev type this w :
  Consistent w → Consistent (onButton env ev type this w).2.2.
Proof.
  intros Hc. destruct ev; cbn [onButton snd]; try done.
  rewrite setActivePlane_eq. cbv zeta.
  pose proof (switchToPlane_Consistent env type _
                (logged_Consistent w (console w ++ [logEntry LevelLog engineDump None]) Hc))
    as Hc'.
  destruct (switchToPlane env type _) as [[[]|e] w1]; cbn [snd] in *; [|done].
  by apply logged_Consistent.
Qed.

Lemma stepPage_Consistent pg c :
  Consistent (engine pg) → keepsResources c → Consistent (engine (stepPage pg c)).
Proof.
  intros Hc Hk. destruct c as [c|env ev type|wave_update clock|math t|]; cbn [stepPage].
  - cbn [engine]. by apply step_Consistent.
  - destruct (panel pg) as [g|]; [|done].
    destruct (gui_attached g && bool_decide (type ∈ planeTypes)); [|done].
    cbn [engine]. by apply onButton_Consistent.
  - destruct (update_spec wave_update clock (engine pg) Hc)
      as (requested & w' & -> & Hrest).
    cbn [engine]. apply Hrest. exact Hk.
  - cbn [engine]. by apply runFrameCallbacks_Consistent.
  - rewrite dispose_eq. cbn [snd engine]. by apply Vacant_Consistent, cleaned_Vacant.
Qed.

Lemma runPage_Consistent cs pg :
  Consistent (engine pg) → Forall keepsResources cs → Consistent (engine (runPage cs pg)).
Proof.
  revert pg. induction cs as [|c cs IH]; intros pg Hc Hk; [done|].
  apply Forall_cons in Hk as [Hk Hks]. cbn [runPage foldl].
  apply IH; [|done]. by apply stepPage_Consistent.
Qed.

(** X27 — Exclusive ownership on the whole page.  Once the constructor of
    the engine found a renderer (whether or not it then threw on the
    raymarching plane), whatever happens next in whatever order (clicks
    and hovers on the panel, variant selections, resizes, key and pointer
    events, frame updates, animation frames of jumps and shots, a dispose
    of the engine), at most one plane holds GPU resources, every live plane
    is the one its field refers to, and the plane meshes of the scene are
    exactly those of the planes held.  The one thing asked of the wave
    plane, whose class is not in the sources, is that its [update] neither
    disposes nor revives it. *)
Theorem exclusive_ownership_on_the_page (env : Env) (cs : list PageCommand) :
  negotiated env ≠ None →
  Forall keepsResources cs →
  let w := engine (runPage cs (new_ThreeEngine env).2) in
  Consistent w ∧ liveCount w ≤ 1 ∧ scene w = fieldRefs w.
Proof.
  intros Hn Hk. cbv zeta.
  assert (Consistent (engine (new_ThreeEngine env).2)) as Hc0.
  { pose proof (new_ThreeEngine_spec env) as Hspec. cbv zeta in Hspec.
    destruct (negotiated env); [|done]. apply Hspec. }
  pose proof (runPage_Consistent cs _ Hc0 Hk) as Hc.
  split; [exact Hc|]. split; apply Hc.
Qed.

Lemma exclusive_ownership_on_the_page_witness :
  let w := engine (runPage
                     [Button chrome Click "desert-tank";
                      Engine (Dispatch chrome Document "keydown" (KeyboardEvent "KeyW"));
                      Update (λ (_ : number) (p : TSLPlane), p) (mkClock 0 0 1000 1000 1000);
                      AnimationFrame (mkMathLib (λ x, x) (λ x, x)) 1600;
                      Button geometryFails Click "raymarching";
                      DisposeEngine]
                     (new_ThreeEngine chrome).2) in
  Consistent w ∧ liveCount w ≤ 1 ∧ scene w = fieldRefs w.
Proof.
  apply (exclusive_ownership_on_the_page chrome); [done|].
  repeat constructor.
Defined.
